(** * es-alias-migrator: a shallow embedding of [migrate_index.py]

    The script drives an Elasticsearch cluster through the client object
    [es].  Every function of the script that the properties below talk
    about is embedded here as a computation over an explicit state: the
    chronological list of requests sent to the cluster (and of the sleeps
    between polls), together with the progress lines written while a
    reindex task is being tracked.

    The cluster itself is an external collaborator.  It is modelled as a
    deterministic oracle: a record with one field per client method, each
    giving the answer (an exception or a value) as a function of the
    history of requests issued so far and of the arguments of the call. *)

From Stdlib Require Import ZArith List String Bool Lia DecimalString.
Import ListNotations.
Local Open Scope string_scope.
Local Open Scope list_scope.
Local Open Scope Z_scope.

(** ** Python values that cross the client boundary *)

(** A Python [dict] with string keys, in insertion order. *)
Definition dict (V : Type) : Type := list (string * V).

Definition keys {V : Type} (d : dict V) : list string := map fst d.

(** [d.get(k)], [None] when the key is absent. *)
Fixpoint dict_get {V : Type} (k : string) (d : dict V) : option V :=
  match d with
  | [] => None
  | (k', v) :: d' => if String.eqb k k' then Some v else dict_get k d'
  end.

(** [d[k] = v]: overwrite in place when the key is there, append otherwise. *)
Fixpoint dict_set {V : Type} (k : string) (v : V) (d : dict V) : dict V :=
  match d with
  | [] => [(k, v)]
  | (k', v') :: d' =>
      if String.eqb k k' then (k', v) :: d' else (k', v') :: dict_set k v d'
  end.

(** The exceptions the script can meet.  [NotFoundError] and [RequestError]
    are the two classes of [elasticsearch.exceptions] it names in [except]
    clauses; [ConnectionError] stands for every other client exception;
    [KeyError], [IndexError] and [ValueError] are raised by the interpreter
    itself. *)
Inductive exn : Type :=
| NotFoundError
| RequestError
| ConnectionError
| KeyError
| IndexError
| ValueError.

(** The mapping document handed to [indices.create], kept as its JSON text. *)
Definition mapping : Type := string.

(** One entry of the [actions] list of an alias update. *)
Inductive AliasAction : Type :=
| ActRemove (index alias : string)
| ActAdd (index alias : string) (is_write_index : bool).

(** The body returned by [es.tasks.get]: the [completed] entry (absent, or a
    boolean) and the [error] entry (absent, or the reported reason). *)
Record TaskResult : Type := mkTaskResult {
  tr_completed : option bool;
  tr_error : option string
}.

(** The entries of [es.tasks.list(detailed=True)] the script reads. *)
Record SliceStatus : Type := mkSliceStatus {
  ss_created : option Z;
  ss_total : option Z
}.

Record TaskInfo : Type := mkTaskInfo {
  ti_parent_task_id : option string;
  ti_status : option SliceStatus
}.

Record NodeData : Type := mkNodeData {
  nd_tasks : option (dict TaskInfo)
}.

Record TaskListing : Type := mkTaskListing {
  tl_nodes : option (dict NodeData)
}.

(** ** Requests and the cluster oracle *)

Inductive Call : Type :=
| Count (index : string)
| IndicesExists (index : string)
| Reindex (source dest : string) (slices : Z)
| TasksGet (task_id : string)
| TasksList
| GetAlias (index : option string) (name : string)
| ExistsAlias (name : string)
| IndicesGet (index : string)
| IndicesStats (index : string)
| IndicesCreate (index : string) (mappings : mapping)
| IndicesDelete (index : string)
| UpdateAliases (actions : list AliasAction)
| Sleep (seconds : Z).

Definition History : Type := list Call.

(** The answer of a client call: the exception it raises or its value. *)
Definition answer (A : Type) : Type := (exn + A)%type.

Record Cluster : Type := mkCluster {
  (** [es.count(index=i)['count']] *)
  es_count : History -> string -> answer Z;
  (** [es.indices.exists(index=i)] *)
  es_indices_exists : History -> string -> answer bool;
  (** [es.reindex(body, wait_for_completion=False, slices=n).get("task")] *)
  es_reindex : History -> string -> string -> Z -> answer (option string);
  (** [es.tasks.get(task_id=t)] *)
  es_tasks_get : History -> string -> answer TaskResult;
  (** [es.tasks.list(detailed=True, actions="*reindex")] *)
  es_tasks_list : History -> answer TaskListing;
  (** [es.indices.get_alias(index=?, name=a)]: a dict keyed by index name *)
  es_get_alias : History -> option string -> string -> answer (dict unit);
  (** [es.indices.exists_alias(name=a)] *)
  es_exists_alias : History -> string -> answer bool;
  (** [es.indices.get(index=i)]: per index, [settings.index.creation_date]
      as the integer [int(...)] reads from it *)
  es_indices_get : History -> string -> answer (dict Z);
  (** [es.indices.stats(index=i)['indices']]: per index, the primaries'
      document count *)
  es_indices_stats : History -> string -> answer (dict Z);
  (** [es.indices.create(index=i, mappings=m)] *)
  es_indices_create : History -> string -> mapping -> answer unit;
  (** [es.indices.delete(index=i)] *)
  es_indices_delete : History -> string -> answer unit;
  (** [es.indices.update_aliases(body={"actions": acts})] *)
  es_update_aliases : History -> list AliasAction -> answer unit
}.

(** Requests that change the cluster. *)
Definition mutating (c : Call) : bool :=
  match c with
  | Reindex _ _ _ | IndicesCreate _ _ | IndicesDelete _ | UpdateAliases _ => true
  | _ => false
  end.

(** Requests that change alias bindings. *)
Definition alias_mutating (c : Call) : bool :=
  match c with
  | UpdateAliases _ => true
  | _ => false
  end.

Definition is_status_poll (c : Call) : bool :=
  match c with
  | TasksGet _ => true
  | _ => false
  end.

Definition is_reindex (c : Call) : bool :=
  match c with
  | Reindex _ _ _ => true
  | _ => false
  end.

(** ** The effect monad *)

(** Lines written by [get_reindex_slice_status]. *)
Inductive ProgressLine : Type :=
| SubTaskLine (sub_task_id : string) (created total : Z)
| SummaryLine (total_created total_total : Z)
| NoSubTaskLine
| SliceErrorLine (e : exn).

Record State : Type := mkState {
  trace : History;
  progress : list ProgressLine
}.

(** How a computation ends: a value, a Python exception, [sys.exit(code)]
    (a [SystemExit], which [except Exception] does not catch), or the loop
    budget of the model running out ([Diverge]). *)
Inductive outcome (A : Type) : Type :=
| Ret (a : A)
| Raise (e : exn)
| Exit (code : Z)
| Diverge.

Arguments Ret {A} a.
Arguments Raise {A} e.
Arguments Exit {A} code.
Arguments Diverge {A}.

Definition M (A : Type) : Type := State -> outcome A * State.

Definition ret {A : Type} (a : A) : M A := fun st => (Ret a, st).

Definition bind {A B : Type} (m : M A) (f : A -> M B) : M B :=
  fun st =>
    match m st with
    | (Ret a, st') => f a st'
    | (Raise e, st') => (Raise e, st')
    | (Exit c, st') => (Exit c, st')
    | (Diverge, st') => (Diverge, st')
    end.

Definition raise {A : Type} (e : exn) : M A := fun st => (Raise e, st).

Definition sys_exit {A : Type} (code : Z) : M A := fun st => (Exit code, st).

Definition diverge {A : Type} : M A := fun st => (Diverge, st).

(** [try: m  except <classes selected by handles>: h e] *)
Definition try_except {A : Type} (m : M A) (handles : exn -> bool)
    (h : exn -> M A) : M A :=
  fun st =>
    match m st with
    | (Raise e, st') => if handles e then h e st' else (Raise e, st')
    | r => r
    end.

(** [except Exception] *)
Definition any_exception (e : exn) : bool := true.

(** [except exceptions.NotFoundError] *)
Definition is_not_found (e : exn) : bool :=
  match e with NotFoundError => true | _ => false end.

(** [except exceptions.RequestError] *)
Definition is_request_error (e : exn) : bool :=
  match e with RequestError => true | _ => false end.

Declare Scope py_scope.
Delimit Scope py_scope with py.
Notation "x <- m ;; k" := (bind m (fun x => k))
  (at level 61, m at next level, right associativity) : py_scope.
Notation "m ;;; k" := (bind m (fun _ => k))
  (at level 61, right associativity) : py_scope.
Local Open Scope py_scope.

Definition record (c : Call) (st : State) : State :=
  mkState (trace st ++ [c]) (progress st).

Definition say (l : ProgressLine) : M unit :=
  fun st => (Ret tt, mkState (trace st) (progress st ++ [l])).

(** Send request [c]; the cluster answers from the history before it. *)
Definition request {A : Type} (c : Call) (ans : History -> answer A) : M A :=
  fun st =>
    match ans (trace st) with
    | inl e => (Raise e, record c st)
    | inr a => (Ret a, record c st)
    end.

(** [time.sleep(s)] raises [ValueError] on a negative length. *)
Definition sleep (seconds : Z) : M unit :=
  fun st =>
    if seconds <? 0 then (Raise ValueError, st)
    else (Ret tt, record (Sleep seconds) st).

(** ** The script *)

Definition estimate_reindex_params (doc_count : Z) : Z * Z * Z :=
  if doc_count <? 100000 then (1, 300, 5)
  else if doc_count <? 1000000 then (4, 600, 10)
  else if doc_count <? 5000000 then (8, 1800, 15)
  else if doc_count <? 50000000 then (16, 7200, 30)
  else if doc_count <? 100000000 then (32, 10800, 45)
  else (0, 0, 0).

(** [for x in xs: body], threading the loop's local variables. *)
Fixpoint for_each {A S : Type} (xs : list A) (body : A -> S -> M S) (s : S)
    : M S :=
  match xs with
  | [] => ret s
  | x :: xs' => s' <- body x s ;; for_each xs' body s'
  end.

(** The locals [found], [total_created], [total_total]. *)
Definition SliceTotals : Type := (bool * Z * Z)%type.

Definition opt_default {A : Type} (d : A) (o : option A) : A :=
  match o with Some a => a | None => d end.

(** [task_info.get("parent_task_id") == parent_task_id] *)
Definition parent_is (parent_task_id : string) (info : TaskInfo) : bool :=
  match ti_parent_task_id info with
  | Some p => String.eqb p parent_task_id
  | None => false
  end.

Section Script.

(** The module-level client [es]. *)
Variable es : Cluster.

Definition get_doc_count (index_name : string) : M Z :=
  try_except (request (Count index_name) (fun h => es_count es h index_name))
    any_exception (fun _ => ret 0).

Definition check_index_exists (index_name : string) : M bool :=
  try_except
    (request (IndicesExists index_name)
       (fun h => es_indices_exists es h index_name))
    any_exception (fun _ => ret false).

Definition start_reindex_async (source_index dest_index : string) (slices : Z)
    : M (option string) :=
  try_except
    (request (Reindex source_index dest_index slices)
       (fun h => es_reindex es h source_index dest_index slices))
    any_exception (fun _ => ret None).

(** The body of the inner loop of [get_reindex_slice_status]. *)
Definition slice_step (parent_task_id : string) (entry : string * TaskInfo)
    (acc : SliceTotals) : M SliceTotals :=
  let '(sub_task_id, task_info) := entry in
  let '(found, total_created, total_total) := acc in
  if parent_is parent_task_id task_info then
    let status := opt_default (mkSliceStatus None None) (ti_status task_info) in
    let created := opt_default 0 (ss_created status) in
    let total := opt_default 0 (ss_total status) in
    say (SubTaskLine sub_task_id created total) ;;;
    ret (true, total_created + created, total_total + total)
  else ret acc.

(** The body of its outer loop. *)
Definition node_step (parent_task_id : string) (entry : string * NodeData)
    (acc : SliceTotals) : M SliceTotals :=
  for_each (opt_default [] (nd_tasks (snd entry)))
    (slice_step parent_task_id) acc.

Definition get_reindex_slice_status (parent_task_id : string) : M unit :=
  try_except
    (tasks <- request TasksList (es_tasks_list es) ;;
     let reindex_tasks := opt_default [] (tl_nodes tasks) in
     acc <- for_each reindex_tasks (node_step parent_task_id) (false, 0, 0) ;;
     let '(found, total_created, total_total) := acc in
     if found then say (SummaryLine total_created total_total)
     else say NoSubTaskLine)
    any_exception (fun e => say (SliceErrorLine e)).

(** [result.get("completed")] taken as a condition. *)
Definition completed (result : TaskResult) : bool :=
  match tr_completed result with
  | Some b => b
  | None => false
  end.

(** ["error" in result] *)
Definition has_error (result : TaskResult) : bool :=
  match tr_error result with
  | Some _ => true
  | None => false
  end.

(** The [try] block of one iteration of the polling loop: [Some b] when it
    executes [return b], [None] when control falls through to the sleep. *)
Definition poll_once (task_id : string) : M (option bool) :=
  try_except
    (result <- request (TasksGet task_id) (fun h => es_tasks_get es h task_id) ;;
     if completed result then
       if has_error result then ret (Some false) else ret (Some true)
     else
       get_reindex_slice_status task_id ;;; ret None)
    any_exception (fun _ => ret (Some false)).

(** [while elapsed < timeout: ...]; [fuel] bounds the number of iterations
    the model follows. *)
Fixpoint track_loop (fuel : nat) (task_id : string) (timeout poll_interval : Z)
    (elapsed : Z) : M bool :=
  if elapsed <? timeout then
    match fuel with
    | O => diverge
    | S fuel' =>
        r <- poll_once task_id ;;
        match r with
        | Some b => ret b
        | None =>
            sleep poll_interval ;;;
            track_loop fuel' task_id timeout poll_interval
              (elapsed + poll_interval)
        end
    end
  else ret false.

Definition track_task_status (fuel : nat) (task_id : string)
    (timeout poll_interval : Z) : M bool :=
  track_loop fuel task_id timeout poll_interval 0.

(** [not task_id] *)
Definition no_task_id (task_id : option string) : bool :=
  match task_id with
  | None => true
  | Some s => String.eqb s EmptyString
  end.

Definition reindex_data_async (fuel : nat) (source_index dest_index : string)
    : M bool :=
  doc_count <- get_doc_count source_index ;;
  if doc_count =? 0 then ret true
  else
    let '(slices, timeout, poll_interval) := estimate_reindex_params doc_count in
    if slices =? 0 then ret false
    else
      task_id <- start_reindex_async source_index dest_index slices ;;
      if no_task_id task_id then ret false
      else track_task_status fuel (opt_default EmptyString task_id) timeout poll_interval.

Definition create_new_index (new_index : string) (mappings : mapping) : M bool :=
  try_except
    (request (IndicesCreate new_index mappings)
       (fun h => es_indices_create es h new_index mappings) ;;;
     ret true)
    is_request_error (fun _ => ret false).

Definition rename_index_if_needed (fuel : nat) (name : string)
    (mappings : mapping) (suffix : string) : M unit :=
  try_except
    (request (GetAlias None name) (fun h => es_get_alias es h None name) ;;;
     ret tt)
    is_not_found
    (fun _ =>
       is_index <- check_index_exists name ;;
       if is_index then
         let new_name := (name ++ suffix)%string in
         taken <- check_index_exists new_name ;;
         if taken then sys_exit 1
         else
           created <- create_new_index new_name mappings ;;
           if negb created then sys_exit 1
           else
             success <- reindex_data_async fuel name new_name ;;
             if negb success then sys_exit 1
             else
               request (IndicesDelete name)
                 (fun h => es_indices_delete es h name)
       else ret tt).

Definition cutover_actions (old_indices : list string) (alias new_index : string)
    : list AliasAction :=
  map (fun i => ActRemove i alias) old_indices
    ++ [ActAdd new_index alias true].

Definition update_alias_to_new_index (alias new_index : string) : M bool :=
  old_indices <-
    try_except
      (existing <- request (GetAlias None alias)
                     (fun h => es_get_alias es h None alias) ;;
       ret (keys existing))
      is_not_found (fun _ => ret []) ;;
  let actions := cutover_actions old_indices alias new_index in
  try_except
    (request (UpdateAliases actions) (fun h => es_update_aliases es h actions) ;;;
     ret true)
    any_exception (fun _ => ret false).

(** [d[k]], raising [KeyError] when the key is absent. *)
Definition subscript {V : Type} (d : dict V) (k : string) : M V :=
  match dict_get k d with
  | Some v => ret v
  | None => raise KeyError
  end.

(** [{idx: index_metadata[idx]...['creation_date'] for idx in index_names}] *)
Definition creation_times (index_metadata : dict Z) (index_names : list string)
    : M (dict Z) :=
  for_each index_names
    (fun idx acc => t <- subscript index_metadata idx ;; ret (dict_set idx t acc))
    [].

(** Stable insertion into a list ordered by decreasing creation date. *)
Fixpoint insert_desc (x : string * Z) (l : list (string * Z))
    : list (string * Z) :=
  match l with
  | [] => [x]
  | y :: l' => if snd x <? snd y then y :: insert_desc x l' else x :: l
  end.

(** [sorted(items, key=lambda x: int(x[1]), reverse=True)]: a stable sort,
    items with equal dates keep their order. *)
Definition sorted_desc (items : list (string * Z)) : list (string * Z) :=
  fold_right insert_desc [] items.

Definition get_latest_index_by_alias (es_conn : Cluster) (fuel : nat)
    (alias_name : string) (mappings : mapping) (suffix : string)
    : M (option string) :=
  try_except
    (present <- request (ExistsAlias alias_name)
                  (fun h => es_exists_alias es_conn h alias_name) ;;
     if negb present then
       rename_index_if_needed fuel alias_name mappings suffix ;;;
       ret (Some (alias_name ++ suffix)%string)
     else
       response <- request (GetAlias (Some "*") alias_name)
                     (fun h => es_get_alias es_conn h (Some "*") alias_name) ;;
       let index_names := keys response in
       match index_names with
       | [] => ret (Some alias_name)
       | _ :: _ =>
           let joined := String.concat "," index_names in
           index_metadata <- request (IndicesGet joined)
                               (fun h => es_indices_get es_conn h joined) ;;
           index_creation_times <- creation_times index_metadata index_names ;;
           match sorted_desc index_creation_times with
           | [] => raise IndexError
           | (latest_index, _) :: _ =>
               stats <- request (IndicesStats latest_index)
                          (fun h => es_indices_stats es_conn h latest_index) ;;
               subscript stats latest_index ;;;
               ret (Some latest_index)
           end
       end)
    any_exception (fun _ => ret None).

End Script.

(** ** The alias as a reader sees it

    The cluster applies the action list of an accepted alias update in one
    transition and leaves the bindings alone when it rejects the request;
    no other request of the script touches alias bindings. *)

Definition apply_action (alias : string) (bound : list string)
    (a : AliasAction) : list string :=
  match a with
  | ActRemove i al =>
      if String.eqb al alias
      then filter (fun j => negb (String.eqb j i)) bound
      else bound
  | ActAdd i al _ =>
      if String.eqb al alias
      then if existsb (String.eqb i) bound then bound else bound ++ [i]
      else bound
  end.

Definition apply_actions (alias : string) (bound : list string)
    (actions : list AliasAction) : list string :=
  fold_left (apply_action alias) actions bound.

(** The bindings of [alias] after request [c], sent at history [h]. *)
Definition bindings_after (es : Cluster) (alias : string) (h : History)
    (bound : list string) (c : Call) : list string :=
  match c with
  | UpdateAliases actions =>
      match es_update_aliases es h actions with
      | inr _ => apply_actions alias bound actions
      | inl _ => bound
      end
  | _ => bound
  end.

(** The successive bindings of [alias] a reader can see while the requests
    [evs] are served, starting from [bound] at history [h]. *)
Fixpoint observed (es : Cluster) (alias : string) (h : History)
    (bound : list string) (evs : list Call) : list (list string) :=
  match evs with
  | [] => []
  | c :: evs' =>
      let bound' := bindings_after es alias h bound c in
      bound' :: observed es alias (h ++ [c]) bound' evs'
  end.

(** What [get_alias(name=alias)] tells about the current bindings: the keys
    of the answer, nothing for an absent alias, and no reading at all when
    the request fails otherwise. *)
Definition current_bindings (es : Cluster) (h : History) (alias : string)
    : option (list string) :=
  match es_get_alias es h None alias with
  | inr existing => Some (keys existing)
  | inl NotFoundError => Some []
  | inl _ => None
  end.

(** ** Scenarios: clusters with fixed answers *)

(** A cluster that answers every request the same way whatever the history:
    [n] documents, no alias, a task that never completes. *)
Definition steady (n : Z) (status : answer TaskResult)
    (listing : answer TaskListing) : Cluster :=
  {| es_count := fun _ _ => inr n;
     es_indices_exists := fun _ _ => inr true;
     es_reindex := fun _ _ _ _ => inr (Some "node:1");
     es_tasks_get := fun _ _ => status;
     es_tasks_list := fun _ => listing;
     es_get_alias := fun _ _ _ => inl NotFoundError;
     es_exists_alias := fun _ _ => inr false;
     es_indices_get := fun _ _ => inr [];
     es_indices_stats := fun _ _ => inr [];
     es_indices_create := fun _ _ _ => inr tt;
     es_indices_delete := fun _ _ => inr tt;
     es_update_aliases := fun _ _ => inr tt |}.

Definition running : TaskResult := mkTaskResult (Some false) None.
Definition finished : TaskResult := mkTaskResult (Some true) None.
Definition crashed : TaskResult := mkTaskResult (Some true) (Some "boom").

Definition no_listing : TaskListing := mkTaskListing None.

Definition start : State := mkState [] [].

(** The history of one polling round in which the task is still running:
    the status query, the sub-task listing, the sleep. *)
Definition round (task_id : string) (poll_interval : Z) : list Call :=
  [TasksGet task_id; TasksList; Sleep poll_interval].

Definition rounds (task_id : string) (poll_interval : Z) (n : nat) : list Call :=
  List.concat (repeat (round task_id poll_interval) n).

(** The answer to the status query of poll number [k] (counted from 0) of a
    tracker started in state [st], all earlier polls having found the task
    still running. *)
Definition status_at (es : Cluster) (task_id : string) (poll_interval : Z)
    (st : State) (k : nat) : answer TaskResult :=
  es_tasks_get es (trace st ++ rounds task_id poll_interval k) task_id.

(** The four things a status query can tell. *)
Definition still_running (a : answer TaskResult) : Prop :=
  exists r, a = inr r /\ completed r = false.

Definition reports_success (a : answer TaskResult) : Prop :=
  exists r, a = inr r /\ completed r = true /\ tr_error r = None.

Definition reports_failure (a : answer TaskResult) : Prop :=
  exists r err, a = inr r /\ completed r = true /\ tr_error r = Some err.

Definition transport_error (a : answer TaskResult) : Prop :=
  exists e, a = inl e.

(** Two clusters that may differ in nothing but the sub-task listing. *)
Definition same_but_task_list (es1 es2 : Cluster) : Prop :=
  (forall h i, es_count es1 h i = es_count es2 h i) /\
  (forall h i, es_indices_exists es1 h i = es_indices_exists es2 h i) /\
  (forall h s d n, es_reindex es1 h s d n = es_reindex es2 h s d n) /\
  (forall h t, es_tasks_get es1 h t = es_tasks_get es2 h t) /\
  (forall h i a, es_get_alias es1 h i a = es_get_alias es2 h i a) /\
  (forall h a, es_exists_alias es1 h a = es_exists_alias es2 h a) /\
  (forall h i, es_indices_get es1 h i = es_indices_get es2 h i) /\
  (forall h i, es_indices_stats es1 h i = es_indices_stats es2 h i) /\
  (forall h i m, es_indices_create es1 h i m = es_indices_create es2 h i m) /\
  (forall h i, es_indices_delete es1 h i = es_indices_delete es2 h i) /\
  (forall h a, es_update_aliases es1 h a = es_update_aliases es2 h a).

(** [steady] with the alias probes answering [bindings]. *)
Definition aliased (bindings : dict unit) (dates counts : dict Z) : Cluster :=
  {| es_count := fun _ _ => inr 0;
     es_indices_exists := fun _ _ => inr true;
     es_reindex := fun _ _ _ _ => inr (Some "node:1");
     es_tasks_get := fun _ _ => inr (mkTaskResult (Some true) None);
     es_tasks_list := fun _ => inr (mkTaskListing None);
     es_get_alias := fun _ _ _ => inr bindings;
     es_exists_alias := fun _ _ => inr true;
     es_indices_get := fun _ _ => inr dates;
     es_indices_stats := fun _ _ => inr counts;
     es_indices_create := fun _ _ _ => inr tt;
     es_indices_delete := fun _ _ => inr tt;
     es_update_aliases := fun _ _ => inr tt |}.

(** A cluster whose task is found running by the first [polls] status
    queries and answers [final] from then on. *)
Definition finishing_after (polls : nat) (final : answer TaskResult)
    (listing : answer TaskListing) : Cluster :=
  {| es_count := fun _ _ => inr 50000;
     es_indices_exists := fun _ _ => inr true;
     es_reindex := fun _ _ _ _ => inr (Some "node:1");
     es_tasks_get := fun h _ =>
       if (List.length (filter is_status_poll h) <? polls)%nat
       then inr running else final;
     es_tasks_list := fun _ => listing;
     es_get_alias := fun _ _ _ => inl NotFoundError;
     es_exists_alias := fun _ _ => inr false;
     es_indices_get := fun _ _ => inr [];
     es_indices_stats := fun _ _ => inr [];
     es_indices_create := fun _ _ _ => inr tt;
     es_indices_delete := fun _ _ => inr tt;
     es_update_aliases := fun _ _ => inr tt |}.

(** A listing with two slices of task [node:1] and a stranger. *)
Definition two_slices : TaskListing :=
  mkTaskListing (Some
    [("node", mkNodeData (Some
       [("node:2", mkTaskInfo (Some "node:1")
                     (Some (mkSliceStatus (Some 10) (Some 40))));
        ("node:3", mkTaskInfo (Some "node:1")
                     (Some (mkSliceStatus (Some 5) None)));
        ("node:9", mkTaskInfo (Some "other:7") None)]))]).

(** Two runs that end alike and leave the same history. *)
Definition alike {A : Type} (r1 r2 : outcome A * State) : Prop :=
  fst r1 = fst r2 /\ trace (snd r1) = trace (snd r2).

(** A cluster on which no alias exists; [is_index] tells whether the probed
    names are indexes, [launch] is the answer to the reindex request. *)
Definition bare (is_index : bool) (n : Z) (launch : answer (option string))
    : Cluster :=
  {| es_count := fun _ _ => inr n;
     es_indices_exists := fun _ _ => inr is_index;
     es_reindex := fun _ _ _ _ => launch;
     es_tasks_get := fun _ _ => inr finished;
     es_tasks_list := fun _ => inr no_listing;
     es_get_alias := fun _ _ _ => inl NotFoundError;
     es_exists_alias := fun _ _ => inr false;
     es_indices_get := fun _ _ => inr [];
     es_indices_stats := fun _ _ => inr [];
     es_indices_create := fun _ _ _ => inr tt;
     es_indices_delete := fun _ _ => inr tt;
     es_update_aliases := fun _ _ => inr tt |}.

(** A cluster that cannot be reached at all. *)
Definition unreachable : Cluster :=
  {| es_count := fun _ _ => inl ConnectionError;
     es_indices_exists := fun _ _ => inl ConnectionError;
     es_reindex := fun _ _ _ _ => inl ConnectionError;
     es_tasks_get := fun _ _ => inl ConnectionError;
     es_tasks_list := fun _ => inl ConnectionError;
     es_get_alias := fun _ _ _ => inl ConnectionError;
     es_exists_alias := fun _ _ => inl ConnectionError;
     es_indices_get := fun _ _ => inl ConnectionError;
     es_indices_stats := fun _ _ => inl ConnectionError;
     es_indices_create := fun _ _ _ => inl ConnectionError;
     es_indices_delete := fun _ _ => inl ConnectionError;
     es_update_aliases := fun _ _ => inl ConnectionError |}.

(** A bare index [products] that cannot be counted, no alias. *)
Definition uncountable_index : Cluster :=
  {| es_count := fun _ _ => inl ConnectionError;
     es_indices_exists := fun _ i => inr (String.eqb i "products");
     es_reindex := fun _ _ _ _ => inr (Some "node:1");
     es_tasks_get := fun _ _ => inr finished;
     es_tasks_list := fun _ => inr no_listing;
     es_get_alias := fun _ _ _ => inl NotFoundError;
     es_exists_alias := fun _ _ => inr false;
     es_indices_get := fun _ _ => inr [];
     es_indices_stats := fun _ _ => inr [];
     es_indices_create := fun _ _ _ => inr tt;
     es_indices_delete := fun _ _ => inr tt;
     es_update_aliases := fun _ _ => inr tt |}.

(** A cluster that cannot be reached for counting. *)
Definition uncountable : Cluster :=
  {| es_count := fun _ _ => inl ConnectionError;
     es_indices_exists := fun _ _ => inr true;
     es_reindex := fun _ _ _ _ => inr (Some "node:1");
     es_tasks_get := fun _ _ => inr finished;
     es_tasks_list := fun _ => inr no_listing;
     es_get_alias := fun _ _ _ => inl NotFoundError;
     es_exists_alias := fun _ _ => inr false;
     es_indices_get := fun _ _ => inr [];
     es_indices_stats := fun _ _ => inr [];
     es_indices_create := fun _ _ _ => inr tt;
     es_indices_delete := fun _ _ => inr tt;
     es_update_aliases := fun _ _ => inr tt |}.

(** The clusters of the worked examples. *)
Definition two_bound : Cluster :=
  aliased [("products_v1", tt); ("products_v0", tt)] [] [].

Definition one_bound : Cluster := aliased [("products_v1", tt)] [] [].

Definition slow_task : Cluster :=
  finishing_after 2 (inr finished) (inr two_slices).

Definition stuck_task : Cluster :=
  steady 50000 (inr running) (inl ConnectionError).

Definition broken_listing : Cluster :=
  finishing_after 1 (inr finished) (inl ConnectionError).

Definition fine_listing : Cluster :=
  finishing_after 1 (inr finished) (inr two_slices).

Definition oversized : Cluster :=
  steady 150000000 (inr finished) (inr no_listing).

Definition failed_launch : Cluster := bare true 50000 (inl ConnectionError).

Definition three_dated : Cluster :=
  aliased
    [("products_v1", tt); ("products_v2", tt); ("products_v0", tt)]
    [("products_v0", 1718000000000); ("products_v1", 1719000000000);
     ("products_v2", 1720000000000)]
    [("products_v0", 3); ("products_v1", 5); ("products_v2", 8)].

(** Three indexes under [products], the last two created at the same
    instant. *)
Definition tied : Cluster :=
  aliased
    [("products_a", tt); ("products_b", tt); ("products_c", tt)]
    [("products_a", 5); ("products_b", 9); ("products_c", 9)]
    [("products_a", 1); ("products_b", 1); ("products_c", 1)].



(** A bare index [products] of 50,000 documents, no alias. *)
Definition legacy_index : Cluster :=
  {| es_count := fun _ _ => inr 50000;
     es_indices_exists := fun _ i => inr (String.eqb i "products");
     es_reindex := fun _ _ _ _ => inr (Some "node:1");
     es_tasks_get := fun _ _ => inr finished;
     es_tasks_list := fun _ => inr no_listing;
     es_get_alias := fun _ _ _ => inl NotFoundError;
     es_exists_alias := fun _ _ => inr false;
     es_indices_get := fun _ _ => inr [];
     es_indices_stats := fun _ _ => inr [];
     es_indices_create := fun _ _ _ => inr tt;
     es_indices_delete := fun _ _ => inr tt;
     es_update_aliases := fun _ _ => inr tt |}.

(** ** The rest of the workflow: deletion, mapping files, [main] *)

(** [try: m] followed by several [except] clauses: the first clause whose
    class matches handles the exception. *)
Fixpoint first_clause {A : Type}
    (clauses : list ((exn -> bool) * (exn -> M A))) (e : exn)
    : option (M A) :=
  match clauses with
  | [] => None
  | (handles, h) :: clauses' =>
      if handles e then Some (h e) else first_clause clauses' e
  end.

Definition try_excepts {A : Type} (m : M A)
    (clauses : list ((exn -> bool) * (exn -> M A))) : M A :=
  fun st =>
    match m st with
    | (Raise e, st') =>
        match first_clause clauses e with
        | Some h => h st'
        | None => (Raise e, st')
        end
    | r => r
    end.

(** What the script reads from the machine it runs on.  The mapping file is
    taken to hold an object of objects, and a document stored in it to be a
    non-empty object, so that a stored document counts as true. *)
Record Host : Type := mkHost {
  (** [os.path.exists(path)] *)
  os_path_exists : string -> bool;
  (** [json.loads(text)]; [None] is the JSON [null] *)
  json_loads : string -> answer (option mapping);
  (** [json.load(open(path))] *)
  json_load_file : string -> answer (dict (dict mapping));
  (** [int(time.time())] *)
  time_time : Z
}.

(** The parsed command line, as [parser.parse_args()] returns it. *)
Record Args : Type := mkArgs {
  arg_old_index : option string;
  arg_new_index : option string;
  arg_alias : option string;
  arg_mapping_file_path : option string;
  arg_mapping : option string;
  arg_delete_old : bool;
  arg_suffix : string
}.

(** What [parser.parse_args()] makes of the command line: with [-h] it
    prints the help and exits with code 0, with [-v] it prints the version
    and exits with code 0, on a usage error (an unknown option, an option
    without its value) it exits with code 2, and otherwise it returns the
    arguments. *)
Inductive CommandLine : Type :=
| AskedHelp
| AskedVersion
| UsageError
| Parsed (args : Args).

(** An optional string taken as a condition: neither [None] nor empty. *)
Definition given (o : option string) : bool :=
  match o with
  | Some s => negb (String.eqb s EmptyString)
  | None => false
  end.

(** [f"{n}"] for an integer. *)
Definition decimal (n : Z) : string := NilZero.string_of_int (Z.to_int n).

Definition default_mapping_file : string :=
  "/var/www/rc-api-server/install/mapping.json".

(** [open(None)] raises a [TypeError], caught like every other failure. *)
Definition read_mapping_from_file (host : Host) (file_path : option string)
    : option (dict (dict mapping)) :=
  match file_path with
  | None => None
  | Some path =>
      match json_load_file host path with
      | inl _ => None
      | inr mappings => Some mappings
      end
  end.

Section Workflow.

Variable es : Cluster.
Variable host : Host.

Definition delete_old_index (old_index : string) : M bool :=
  r <- try_excepts
         (request (IndicesDelete old_index)
            (fun h => es_indices_delete es h old_index) ;;;
          ret None)
         [(is_not_found, fun _ => ret (Some false));
          (is_request_error, fun _ => ret (Some false));
          (any_exception, fun _ => ret (Some false))] ;;
  match r with
  | Some b => ret b
  | None => ret true
  end.

(** The part of [main] that settles the locals [mapping] and
    [mapping_file] from the command line. *)
Definition choose_mapping_source (args : Args)
    : M (option mapping * option string) :=
  if given (arg_mapping_file_path args) then
    let mapping_file := opt_default EmptyString (arg_mapping_file_path args) in
    if negb (os_path_exists host mapping_file) then sys_exit 1
    else ret (None, Some mapping_file)
  else if given (arg_mapping args) then
    match json_loads host (opt_default EmptyString (arg_mapping args)) with
    | inl _ => sys_exit 1
    | inr m => ret (m, None)
    end
  else
    if negb (os_path_exists host default_mapping_file) then sys_exit 1
    else ret (None, Some default_mapping_file).

(** The block [if mapping is None: ...] of [main]. *)
Definition load_mapping (alias : string)
    (chosen : option mapping * option string) : M mapping :=
  match fst chosen with
  | Some m => ret m
  | None =>
      match read_mapping_from_file host (snd chosen) with
      | None => sys_exit 1
      | Some [] => sys_exit 1
      | Some mappings =>
          match dict_get "mappings" (opt_default [] (dict_get alias mappings)) with
          | None => sys_exit 1
          | Some m => ret m
          end
      end
  end.

(** The block [if not args.old_index: ...] of [main]. *)
Definition choose_old_index (fuel : nat) (args : Args) (alias : string)
    (mappings : mapping) : M string :=
  if negb (given (arg_old_index args)) then
    latest <- get_latest_index_by_alias es es fuel alias mappings
                (arg_suffix args) ;;
    if negb (given latest) then sys_exit 1
    else ret (opt_default EmptyString latest)
  else ret (opt_default EmptyString (arg_old_index args)).

(** The block [if not args.new_index: ...] of [main]. *)
Definition choose_new_index (args : Args) (alias : string) : string :=
  if negb (given (arg_new_index args))
  then (alias ++ "_" ++ decimal (time_time host))%string
  else opt_default EmptyString (arg_new_index args).

(** The steps of [main] on the cluster: create, migrate, switch the alias,
    delete the old index when asked to, exit. *)
Definition migrate_and_switch (fuel : nat) (delete_old : bool)
    (alias old_index new_index : string) (mappings : mapping) : M unit :=
  created <- create_new_index es new_index mappings ;;
  if negb created then sys_exit 1
  else
    success <- reindex_data_async es fuel old_index new_index ;;
    if negb success then sys_exit 1
    else
      switched <- update_alias_to_new_index es alias new_index ;;
      if negb switched then sys_exit 1
      else
        (if delete_old && given (Some old_index) then
           deleted <- delete_old_index old_index ;;
           if negb deleted then sys_exit 1 else ret tt
         else ret tt) ;;;
        sys_exit 0.

(** [main] once [parser.parse_args()] has returned [args]. *)
Definition main_parsed (fuel : nat) (args : Args) : M unit :=
  if negb (given (arg_alias args)) then sys_exit 1
  else
    let alias := opt_default EmptyString (arg_alias args) in
    chosen <- choose_mapping_source args ;;
    mappings <- load_mapping alias chosen ;;
    old_index <- choose_old_index fuel args alias mappings ;;
    let new_index := choose_new_index args alias in
    migrate_and_switch fuel (arg_delete_old args) alias old_index new_index
      mappings.

(** [main]: [parser.parse_args()] ends the process itself when the command
    line asks for the help or the version or cannot be parsed; otherwise
    the workflow runs on the arguments it returns. *)
Definition main (fuel : nat) (cl : CommandLine) : M unit :=
  match cl with
  | AskedHelp => sys_exit 0
  | AskedVersion => sys_exit 0
  | UsageError => sys_exit 2
  | Parsed args => main_parsed fuel args
  end.

End Workflow.

(** ** Vocabulary of the further properties *)

(** Every run of [m] appends to the history only requests that satisfy
    [allowed]. *)
Definition emits {A : Type} (allowed : Call -> bool) (m : M A) : Prop :=
  forall st, exists evs,
    trace (snd (m st)) = trace st ++ evs /\ forallb allowed evs = true.

(** Requests of the task tracker. *)
Definition is_tracking (c : Call) : bool :=
  match c with
  | TasksGet _ | TasksList | Sleep _ => true
  | _ => false
  end.

(** Requests of a migration. *)
Definition is_migration (c : Call) : bool :=
  match c with
  | Count _ | Reindex _ _ _ => true
  | _ => is_tracking c
  end.

(** Every request but an alias update. *)
Definition not_alias_mutating (c : Call) : bool := negb (alias_mutating c).

(** The computation [m] never returns a value; it ends, if at all, by
    exiting the process or with an exception. *)
Definition never_returns {A : Type} (m : M A) : Prop :=
  forall st a, fst (m st) <> Ret a.

(** How a run ended, the value forgotten. *)
Definition ending {A : Type} (o : outcome A) : outcome unit :=
  match o with
  | Ret _ => Ret tt
  | Raise e => Raise e
  | Exit code => Exit code
  | Diverge => Diverge
  end.

(** Every run of [m] ends in a way that [ok] accepts. *)
Definition ends_within {A : Type} (ok : outcome unit -> bool) (m : M A)
    : Prop :=
  forall st, ok (ending (fst (m st))) = true.

(** Endings by a value or by exit code 1, and as the flags allow by exit
    code 0, by an exception, or by running out of loop budget. *)
Definition calm (exit0 may_raise may_diverge : bool) (o : outcome unit)
    : bool :=
  match o with
  | Ret _ => true
  | Raise _ => may_raise
  | Exit code => (code =? 1) || (exit0 && (code =? 0))
  | Diverge => may_diverge
  end.

(** Every request but a reindex between other indexes than [source] and
    [dest]. *)
Definition copies_between (source dest : string) (c : Call) : bool :=
  match c with
  | Reindex s d _ => String.eqb s source && String.eqb d dest
  | _ => true
  end.

(** Read-only requests about aliases and index metadata. *)
Definition is_inspection (c : Call) : bool :=
  match c with
  | ExistsAlias _ | GetAlias _ _ | IndicesGet _ | IndicesStats _ => true
  | _ => false
  end.

Definition is_delete (c : Call) : bool :=
  match c with
  | IndicesDelete _ => true
  | _ => false
  end.

(** The request on which a migration returns [True]: the count of the
    source, when it answered 0 or failed (nothing is copied then, and
    nothing has been checked), or a status query that found the task
    completed without error. *)
Definition success_ground (es : Cluster) (h : History) (c : Call) : Prop :=
  match c with
  | Count i => es_count es h i = inr 0 \/ exists e, es_count es h i = inl e
  | TasksGet t => reports_success (es_tasks_get es h t)
  | _ => False
  end.

(** The sub-tasks of [parent_task_id] in a listing, in listing order, each
    with the [created] and [total] the aggregation reads. *)
Definition matching_slices (parent_task_id : string) (tasks : TaskListing)
    : list (string * Z * Z) :=
  flat_map
    (fun node : string * NodeData =>
       flat_map
         (fun entry : string * TaskInfo =>
            if parent_is parent_task_id (snd entry) then
              let status :=
                opt_default (mkSliceStatus None None) (ti_status (snd entry)) in
              [(fst entry, opt_default 0 (ss_created status),
                opt_default 0 (ss_total status))]
            else [])
         (opt_default [] (nd_tasks (snd node))))
    (opt_default [] (tl_nodes tasks)).

Definition sum_created (l : list (string * Z * Z)) : Z :=
  fold_left (fun acc x => acc + snd (fst x)) l 0.

Definition sum_total (l : list (string * Z * Z)) : Z :=
  fold_left (fun acc x => acc + snd x) l 0.

Definition slice_lines (l : list (string * Z * Z)) : list ProgressLine :=
  map (fun x => SubTaskLine (fst (fst x)) (snd (fst x)) (snd x)) l.

(** A machine whose mapping files describe another alias only. *)
Definition other_alias_host : Host :=
  {| os_path_exists := fun _ => true;
     json_loads := fun _ => inl ValueError;
     json_load_file := fun _ => inr [("orders", [("mappings", "{properties}")])];
     time_time := 1719000000 |}.

(** A machine with an inline mapping only. *)
Definition plain_host : Host :=
  {| os_path_exists := fun _ => false;
     json_loads := fun text => inr (Some text);
     json_load_file := fun _ => inl ValueError;
     time_time := 1719000000 |}.

(** A machine whose default mapping file describes [products]. *)
Definition file_host : Host :=
  {| os_path_exists := fun _ => true;
     json_loads := fun _ => inl ValueError;
     json_load_file := fun _ =>
       inr [("products", [("mappings", "{properties}")])];
     time_time := 1719000000 |}.

Definition full_args : Args :=
  {| arg_old_index := Some "products_v1";
     arg_new_index := Some "products_v2";
     arg_alias := Some "products";
     arg_mapping_file_path := None;
     arg_mapping := Some "{properties}";
     arg_delete_old := true;
     arg_suffix := "_backup" |}.

Definition alias_only_args : Args :=
  {| arg_old_index := None;
     arg_new_index := None;
     arg_alias := Some "products";
     arg_mapping_file_path := None;
     arg_mapping := None;
     arg_delete_old := false;
     arg_suffix := "_backup" |}.

Definition no_alias_args : Args :=
  {| arg_old_index := Some "products_v1";
     arg_new_index := Some "products_v2";
     arg_alias := None;
     arg_mapping_file_path := None;
     arg_mapping := Some "{properties}";
     arg_delete_old := false;
     arg_suffix := "_backup" |}.

(** An alias [products] on [products_v1], holding 50,000 documents, with a
    reindex task that completes at once. *)
Definition live_alias : Cluster :=
  {| es_count := fun _ _ => inr 50000;
     es_indices_exists := fun _ _ => inr true;
     es_reindex := fun _ _ _ _ => inr (Some "node:1");
     es_tasks_get := fun _ _ => inr finished;
     es_tasks_list := fun _ => inr no_listing;
     es_get_alias := fun _ _ _ => inr [("products_v1", tt)];
     es_exists_alias := fun _ _ => inr true;
     es_indices_get := fun _ _ => inr [("products_v1", 1718000000000)];
     es_indices_stats := fun _ _ => inr [("products_v1", 50000)];
     es_indices_create := fun _ _ _ => inr tt;
     es_indices_delete := fun _ _ => inr tt;
     es_update_aliases := fun _ _ => inr tt |}.

(** ** Properties *)

(** Decide every threshold comparison left in the goal. *)
Ltac split_thresholds :=
  repeat match goal with
         | |- context [?a <? ?b] => destruct (Z.ltb_spec a b); try lia
         end.

(** *** Parameter estimator *)

Lemma estimate_rows (doc_count : Z) :
  (doc_count < 100000 -> estimate_reindex_params doc_count = (1, 300, 5)) /\
  (100000 <= doc_count < 1000000 ->
     estimate_reindex_params doc_count = (4, 600, 10)) /\
  (1000000 <= doc_count < 5000000 ->
     estimate_reindex_params doc_count = (8, 1800, 15)) /\
  (5000000 <= doc_count < 50000000 ->
     estimate_reindex_params doc_count = (16, 7200, 30)) /\
  (50000000 <= doc_count < 100000000 ->
     estimate_reindex_params doc_count = (32, 10800, 45)) /\
  (100000000 <= doc_count -> estimate_reindex_params doc_count = (0, 0, 0)).
Proof.
  unfold estimate_reindex_params.
  repeat split; intros H;
    split_thresholds; reflexivity.
Qed.

(** C2: the estimator is a total function of the document count alone, and
    for every non-negative count it returns the row of the table: (1,300,5)
    below 100,000; (4,600,10) below 1,000,000; (8,1800,15) below 5,000,000;
    (16,7200,30) below 50,000,000; (32,10800,45) below 100,000,000; and the
    sentinel (0,0,0) from 100,000,000 on.  The output changes exactly at
    the two values adjacent to each boundary. *)
Theorem estimate_reindex_params_table :
  forall doc_count : Z,
    0 <= doc_count ->
    (doc_count < 100000 -> estimate_reindex_params doc_count = (1, 300, 5)) /\
    (100000 <= doc_count < 1000000 ->
       estimate_reindex_params doc_count = (4, 600, 10)) /\
    (1000000 <= doc_count < 5000000 ->
       estimate_reindex_params doc_count = (8, 1800, 15)) /\
    (5000000 <= doc_count < 50000000 ->
       estimate_reindex_params doc_count = (16, 7200, 30)) /\
    (50000000 <= doc_count < 100000000 ->
       estimate_reindex_params doc_count = (32, 10800, 45)) /\
    (100000000 <= doc_count -> estimate_reindex_params doc_count = (0, 0, 0)) /\
    estimate_reindex_params 99999 = (1, 300, 5) /\
    estimate_reindex_params 100000 = (4, 600, 10) /\
    estimate_reindex_params 999999 = (4, 600, 10) /\
    estimate_reindex_params 1000000 = (8, 1800, 15) /\
    estimate_reindex_params 4999999 = (8, 1800, 15) /\
    estimate_reindex_params 5000000 = (16, 7200, 30) /\
    estimate_reindex_params 49999999 = (16, 7200, 30) /\
    estimate_reindex_params 50000000 = (32, 10800, 45) /\
    estimate_reindex_params 99999999 = (32, 10800, 45) /\
    estimate_reindex_params 100000000 = (0, 0, 0).
Proof.
  intros n Hn. unfold estimate_reindex_params.
  repeat split; try reflexivity; intros H;
    split_thresholds; reflexivity.
Qed.

Lemma estimate_reindex_params_table_witness :
  0 <= 150000000 /\ estimate_reindex_params 150000000 = (0, 0, 0).
Proof.
  split; [lia |].
  apply (estimate_reindex_params_table 150000000); lia.
Defined.

(** *** Cutover *)

Lemma existsb_eqb_In (j : string) (l : list string) :
  In j l -> existsb (String.eqb j) l = true.
Proof.
  intros H. apply existsb_exists. exists j. split; [exact H | apply String.eqb_refl].
Qed.

(** Serving the remove actions for [l] drops from the bindings exactly the
    names listed in [l]. *)
Lemma apply_removes (alias : string) (l bound : list string) :
  apply_actions alias bound (map (fun i => ActRemove i alias) l)
  = filter (fun j => negb (existsb (String.eqb j) l)) bound.
Proof.
  unfold apply_actions. revert bound.
  induction l as [| i l IH]; intros bound; simpl.
  - induction bound as [| b bound IHb]; simpl; [reflexivity | now f_equal].
  - rewrite String.eqb_refl, IH. clear IH.
    induction bound as [| b bound IHb]; simpl; [reflexivity |].
    destruct (String.eqb b i); simpl.
    + exact IHb.
    + destruct (existsb (String.eqb b) l); simpl; [exact IHb | now f_equal].
Qed.

Lemma apply_cutover_actions (alias new_index : string) (old : list string) :
  apply_actions alias old (cutover_actions old alias new_index) = [new_index].
Proof.
  unfold cutover_actions, apply_actions. rewrite fold_left_app.
  fold (apply_actions alias old (map (fun i => ActRemove i alias) old)).
  rewrite apply_removes.
  assert (E : filter (fun j => negb (existsb (String.eqb j) old)) old = []).
  { assert (G : forall l, (forall j, In j l -> In j old) ->
                filter (fun j => negb (existsb (String.eqb j) old)) l = []).
    { induction l as [| b l IHl]; intros Hin; simpl; [reflexivity |].
      rewrite (existsb_eqb_In b old) by (apply Hin; now left). simpl.
      apply IHl. intros j Hj. apply Hin. now right. }
    apply G. auto. }
  rewrite E. simpl. now rewrite String.eqb_refl.
Qed.

(** When the read of the alias answers, with its bindings or with not-found,
    the cutover sends after it one alias update and nothing else. *)
Lemma update_alias_answered_read :
  forall (es : Cluster) (alias new_index : string) (st : State)
         (old : list string),
    current_bindings es (trace st) alias = Some old ->
    let actions :=
      map (fun i => ActRemove i alias) old ++ [ActAdd new_index alias true] in
    let accepted :=
      match es_update_aliases es (trace st ++ [GetAlias None alias]) actions with
      | inr _ => true
      | inl _ => false
      end in
    let run := update_alias_to_new_index es alias new_index st in
    let sent := [GetAlias None alias; UpdateAliases actions] in
    fst run = Ret accepted /\
    trace (snd run) = trace st ++ sent /\
    filter alias_mutating sent = [UpdateAliases actions] /\
    observed es alias (trace st) old sent
      = [old; if accepted then [new_index] else old].
Proof.
  intros es alias new_index st old Hread actions accepted run sent.
  assert (Hobs : observed es alias (trace st) old sent
                 = [old; if accepted then [new_index] else old]).
  { unfold sent, accepted. simpl.
    destruct (es_update_aliases es (trace st ++ [GetAlias None alias]) actions);
      [reflexivity |].
    unfold actions. fold (cutover_actions old alias new_index).
    now rewrite apply_cutover_actions. }
  split; [| split; [| split; [reflexivity | exact Hobs]]].
  - unfold run, accepted, update_alias_to_new_index, bind, try_except, request, ret.
    unfold current_bindings in Hread.
    destruct (es_get_alias es (trace st) None alias) as [e | existing].
    + destruct e; try discriminate. injection Hread as <-. simpl.
      unfold cutover_actions. fold actions.
      destruct (es_update_aliases es (trace st ++ [GetAlias None alias]) actions);
        reflexivity.
    + injection Hread as <-. simpl.
      unfold cutover_actions. fold actions.
      destruct (es_update_aliases es (trace st ++ [GetAlias None alias]) actions);
        reflexivity.
  - unfold run, update_alias_to_new_index, bind, try_except, request, ret.
    unfold current_bindings in Hread.
    destruct (es_get_alias es (trace st) None alias) as [e | existing].
    + destruct e; try discriminate. injection Hread as <-. simpl.
      unfold cutover_actions. fold actions.
      destruct (es_update_aliases es (trace st ++ [GetAlias None alias]) actions);
        simpl; now rewrite <- app_assoc.
    + injection Hread as <-. simpl.
      unfold cutover_actions. fold actions.
      destruct (es_update_aliases es (trace st ++ [GetAlias None alias]) actions);
        simpl; now rewrite <- app_assoc.
Qed.

(** When the read of the alias fails with anything but not-found, the
    exception leaves the cutover and no update is sent. *)
Lemma update_alias_read_failure :
  forall (es : Cluster) (alias new_index : string) (st : State) (e : exn),
    es_get_alias es (trace st) None alias = inl e ->
    is_not_found e = false ->
    update_alias_to_new_index es alias new_index st
      = (Raise e, record (GetAlias None alias) st).
Proof.
  intros es alias new_index st e He Hnf.
  unfold update_alias_to_new_index, bind, try_except, request.
  now rewrite He, Hnf.
Qed.

(** C1 as the code has it: when the read of the alias answers (with its
    bindings, or with not-found, read as no binding), the cutover sends
    after that read exactly one request: an alias update whose actions are
    one remove per bound index followed by a single add of the new index
    with [is_write_index] true; it is the only alias-mutating request, the
    call reports whether the cluster accepted it, and a reader of the alias
    sees, request after request, either the old bindings or the new index
    alone.  When the read fails in any other way, the exception leaves the
    cutover, no alias-mutating request is sent and the reader keeps seeing
    the bindings as they were.  The read ends in one of these two ways. *)
Theorem update_alias_single_atomic_request :
  forall (es : Cluster) (alias new_index : string) (st : State),
    let run := update_alias_to_new_index es alias new_index st in
    (forall old : list string,
        current_bindings es (trace st) alias = Some old ->
        let actions :=
          map (fun i => ActRemove i alias) old
            ++ [ActAdd new_index alias true] in
        let accepted :=
          match es_update_aliases es (trace st ++ [GetAlias None alias])
                  actions with
          | inr _ => true
          | inl _ => false
          end in
        let sent := [GetAlias None alias; UpdateAliases actions] in
        fst run = Ret accepted /\
        trace (snd run) = trace st ++ sent /\
        filter alias_mutating sent = [UpdateAliases actions] /\
        observed es alias (trace st) old sent
          = [old; if accepted then [new_index] else old]) /\
    (forall e : exn,
        es_get_alias es (trace st) None alias = inl e ->
        e <> NotFoundError ->
        let sent := [GetAlias None alias] in
        fst run = Raise e /\
        trace (snd run) = trace st ++ sent /\
        filter alias_mutating sent = [] /\
        forall bound, observed es alias (trace st) bound sent = [bound]) /\
    ((exists old, current_bindings es (trace st) alias = Some old) \/
     (exists e, es_get_alias es (trace st) None alias = inl e /\
                e <> NotFoundError)).
Proof.
  intros es alias new_index st run. split; [| split].
  - intros old Hread.
    exact (update_alias_answered_read es alias new_index st old Hread).
  - intros e He Hne sent.
    assert (Hnf : is_not_found e = false) by (destruct e; simpl; congruence).
    unfold run.
    rewrite (update_alias_read_failure es alias new_index st e He Hnf).
    repeat split.
  - unfold current_bindings.
    destruct (es_get_alias es (trace st) None alias) as [e | existing].
    + destruct e; try (right; eexists; split; [reflexivity | discriminate]).
      left. now exists [].
    + left. now exists (keys existing).
Qed.

Lemma update_alias_single_atomic_request_witness :
  (current_bindings two_bound (trace start) "products"
     = Some ["products_v1"; "products_v0"] /\
   fst (update_alias_to_new_index two_bound "products" "products_v2" start)
     = Ret true /\
   trace (snd (update_alias_to_new_index two_bound "products" "products_v2"
                 start))
     = [GetAlias None "products";
        UpdateAliases [ActRemove "products_v1" "products";
                       ActRemove "products_v0" "products";
                       ActAdd "products_v2" "products" true]] /\
   observed two_bound "products" [] ["products_v1"; "products_v0"]
     [GetAlias None "products";
      UpdateAliases [ActRemove "products_v1" "products";
                     ActRemove "products_v0" "products";
                     ActAdd "products_v2" "products" true]]
     = [["products_v1"; "products_v0"]; ["products_v2"]]) /\
  (es_get_alias unreachable (trace start) None "products"
     = inl ConnectionError /\
   fst (update_alias_to_new_index unreachable "products" "products_v2" start)
     = Raise ConnectionError /\
   trace (snd (update_alias_to_new_index unreachable "products" "products_v2"
                 start))
     = [GetAlias None "products"]).
Proof.
  split.
  - split; [reflexivity |].
    pose proof (proj1 (update_alias_single_atomic_request two_bound "products"
                         "products_v2" start)
                  ["products_v1"; "products_v0"] eq_refl) as H.
    destruct H as (H1 & H2 & _ & H4).
    split; [exact H1 | split; [exact H2 | exact H4]].
  - split; [reflexivity |].
    pose proof (proj1 (proj2 (update_alias_single_atomic_request unreachable
                                "products" "products_v2" start))
                  ConnectionError eq_refl ltac:(discriminate)) as H.
    destruct H as (H1 & H2 & _). split; [exact H1 | exact H2].
Defined.

(** C1 as stated fails: when the cluster cannot be reached for the read of
    the alias, the cutover raises and submits no alias update at all. *)
Lemma update_alias_failed_read_submits_nothing :
  es_get_alias unreachable (trace start) None "products"
    = inl ConnectionError /\
  update_alias_to_new_index unreachable "products" "products_v2" start
    = (Raise ConnectionError, mkState [GetAlias None "products"] []) /\
  List.length
    (filter alias_mutating
       (trace (snd (update_alias_to_new_index unreachable "products"
                      "products_v2" start))))
    <> 1%nat.
Proof.
  repeat split. simpl. discriminate.
Qed.

(** *** Task tracker *)

Section Tracker.

Variable es : Cluster.

Lemma for_each_quiet {A S : Type} (body : A -> S -> M S) :
  (forall a s st, exists s' st',
      body a s st = (Ret s', st') /\ trace st' = trace st) ->
  forall xs s st, exists s' st',
      for_each xs body s st = (Ret s', st') /\ trace st' = trace st.
Proof.
  intros Hbody xs. induction xs as [| x xs IH]; intros s st; simpl.
  - exists s, st. now split.
  - unfold bind. destruct (Hbody x s st) as (s1 & st1 & E1 & T1). rewrite E1.
    destruct (IH s1 st1) as (s2 & st2 & E2 & T2).
    exists s2, st2. split; [exact E2 | congruence].
Qed.

Lemma slice_step_quiet (parent : string) :
  forall entry acc st, exists acc' st',
    slice_step parent entry acc st = (Ret acc', st') /\ trace st' = trace st.
Proof.
  intros [sub info] [[found tc] tt] st. unfold slice_step.
  destruct (parent_is parent info).
  - unfold bind, say, ret. eexists; eexists; split; reflexivity.
  - unfold ret. eexists; eexists; split; reflexivity.
Qed.

Lemma node_step_quiet (parent : string) :
  forall entry acc st, exists acc' st',
    node_step parent entry acc st = (Ret acc', st') /\ trace st' = trace st.
Proof.
  intros entry acc st. unfold node_step.
  apply for_each_quiet. apply slice_step_quiet.
Qed.

(** The aggregation never raises and sends the listing request only. *)
Lemma get_reindex_slice_status_swallows (parent : string) (st : State) :
  exists st',
    get_reindex_slice_status es parent st = (Ret tt, st') /\
    trace st' = trace st ++ [TasksList].
Proof.
  unfold get_reindex_slice_status, try_except, bind, request.
  destruct (es_tasks_list es (trace st)) as [e | tasks].
  - simpl. unfold say. eexists; split; reflexivity.
  - destruct (for_each_quiet (node_step parent) (node_step_quiet parent)
                (opt_default [] (tl_nodes tasks)) (false, 0, 0)
                (record TasksList st)) as ([[found tc] tt] & st1 & E & T).
    rewrite E. destruct found; unfold say; eexists; split; try reflexivity;
      simpl; exact T.
Qed.

Lemma poll_once_error (task_id : string) (st : State) (e : exn) :
  es_tasks_get es (trace st) task_id = inl e ->
  poll_once es task_id st = (Ret (Some false), record (TasksGet task_id) st).
Proof.
  intros H. unfold poll_once, try_except, bind, request. now rewrite H.
Qed.

Lemma poll_once_completed (task_id : string) (st : State) (r : TaskResult) :
  es_tasks_get es (trace st) task_id = inr r ->
  completed r = true ->
  poll_once es task_id st
    = (Ret (Some (negb (has_error r))), record (TasksGet task_id) st).
Proof.
  intros H C. unfold poll_once, try_except, bind, request. rewrite H, C.
  now destruct (has_error r).
Qed.

Lemma poll_once_running (task_id : string) (st : State) (r : TaskResult) :
  es_tasks_get es (trace st) task_id = inr r ->
  completed r = false ->
  exists st',
    poll_once es task_id st = (Ret None, st') /\
    trace st' = trace st ++ [TasksGet task_id; TasksList].
Proof.
  intros H C. unfold poll_once, try_except, bind, request. rewrite H, C.
  destruct (get_reindex_slice_status_swallows task_id
              (record (TasksGet task_id) st)) as (st1 & E & T).
  rewrite E. exists st1. split; [reflexivity |].
  rewrite T. simpl. now rewrite <- app_assoc.
Qed.

Lemma rounds_S (task_id : string) (p : Z) (n : nat) :
  rounds task_id p (S n) = round task_id p ++ rounds task_id p n.
Proof. reflexivity. Qed.

Lemma rounds_polls (task_id : string) (p : Z) (n : nat) :
  List.length (filter is_status_poll (rounds task_id p n)) = n.
Proof.
  induction n as [| n IH]; [reflexivity |].
  rewrite rounds_S. simpl. now rewrite IH.
Qed.

Lemma rounds_sleeps (task_id : string) (p : Z) (n : nat) :
  forall s, In (Sleep s) (rounds task_id p n) -> s = p.
Proof.
  induction n as [| n IH]; intros s H; [destruct H |].
  rewrite rounds_S in H. simpl in H.
  destruct H as [H | [H | [H | H]]]; try discriminate.
  - now injection H.
  - now apply IH.
Qed.

(** [n] polls in a row that find the task running take the loop, whatever
    fuel is left, to elapsed time [elapsed + n * poll_interval]. *)
Lemma track_loop_running_prefix (task_id : string) (timeout p : Z) :
  forall (n : nat) (elapsed : Z) (st : State),
    n = 0%nat \/ 0 <= p ->
    (forall k, (k < n)%nat ->
       elapsed + Z.of_nat k * p < timeout /\
       still_running (status_at es task_id p st k)) ->
    exists st_n,
      trace st_n = trace st ++ rounds task_id p n /\
      forall fuel,
        track_loop es (n + fuel) task_id timeout p elapsed st
        = track_loop es fuel task_id timeout p (elapsed + Z.of_nat n * p) st_n.
Proof.
  induction n as [| n IH]; intros elapsed st Hp Hrun.
  - exists st. split.
    + unfold rounds. simpl. now rewrite app_nil_r.
    + intros fuel. simpl. now rewrite Z.add_0_r.
  - destruct Hp as [Hp | Hp]; [discriminate |].
    destruct (Hrun O) as (Hlt & r & Hr & Hc); [lia |].
    unfold status_at, rounds in Hr. simpl in Hr. rewrite app_nil_r in Hr.
    destruct (poll_once_running task_id st r Hr Hc) as (st1 & E1 & T1).
    set (st2 := record (Sleep p) st1).
    assert (T2 : trace st2 = trace st ++ round task_id p).
    { unfold st2. simpl. rewrite T1, <- app_assoc. reflexivity. }
    destruct (IH (elapsed + p) st2) as (st_n & Tn & Hn).
    { now right. }
    { intros k Hk. destruct (Hrun (S k)) as (Hlt' & Hs); [lia |]. split.
      - lia.
      - unfold status_at in *. rewrite T2, <- app_assoc, <- rounds_S. exact Hs. }
    exists st_n. split.
    + rewrite Tn, T2, <- app_assoc, <- rounds_S. reflexivity.
    + intros fuel. change (S n + fuel)%nat with (S (n + fuel)).
      cbn [track_loop]. simpl in Hlt. rewrite Z.add_0_r in Hlt.
      rewrite (proj2 (Z.ltb_lt elapsed timeout) Hlt).
      unfold bind at 1. rewrite E1. unfold bind at 1.
      unfold sleep. rewrite (proj2 (Z.ltb_ge p 0) Hp).
      fold st2. rewrite Hn. f_equal. lia.
Qed.

End Tracker.

Lemma status_at_next (es : Cluster) (task_id : string) (p : Z)
    (st st2 : State) (k : nat) :
  trace st2 = trace st ++ round task_id p ->
  status_at es task_id p st2 k = status_at es task_id p st (S k).
Proof.
  intros T. unfold status_at. now rewrite T, <- app_assoc, <- rounds_S.
Qed.

Lemma status_at_0 (es : Cluster) (task_id : string) (p : Z) (st : State) :
  status_at es task_id p st 0 = es_tasks_get es (trace st) task_id.
Proof.
  unfold status_at, rounds. simpl. now rewrite app_nil_r.
Qed.

(** Every way the loop can return a value: after some number of polls that
    found the task running, either a poll under the timeout was conclusive,
    or the elapsed time had reached the timeout. *)
Lemma track_loop_returns (es : Cluster) (task_id : string) (timeout p : Z) :
  forall (fuel : nat) (elapsed : Z) (st : State) (b : bool) (st' : State),
    track_loop es fuel task_id timeout p elapsed st = (Ret b, st') ->
    exists n : nat,
      (forall k, (k < n)%nat ->
         elapsed + Z.of_nat k * p < timeout /\
         still_running (status_at es task_id p st k)) /\
      ((elapsed + Z.of_nat n * p < timeout /\
        trace st' = trace st ++ rounds task_id p n ++ [TasksGet task_id] /\
        ((b = true /\ reports_success (status_at es task_id p st n)) \/
         (b = false /\ reports_failure (status_at es task_id p st n)) \/
         (b = false /\ transport_error (status_at es task_id p st n)))) \/
       (timeout <= elapsed + Z.of_nat n * p /\ b = false /\
        trace st' = trace st ++ rounds task_id p n)).
Proof.
  induction fuel as [| fuel IH]; intros elapsed st b st' Hrun.
  - cbn [track_loop] in Hrun.
    destruct (Z.ltb_spec elapsed timeout) as [Hlt | Hge]; [discriminate |].
    injection Hrun as <- <-. exists O. split; [intros k Hk; lia |].
    right. simpl. rewrite Z.add_0_r, app_nil_r. now repeat split.
  - cbn [track_loop] in Hrun.
    destruct (Z.ltb_spec elapsed timeout) as [Hlt | Hge].
    2:{ injection Hrun as <- <-. exists O. split; [intros k Hk; lia |].
        right. simpl. rewrite Z.add_0_r, app_nil_r. now repeat split. }
    unfold bind at 1 in Hrun.
    destruct (es_tasks_get es (trace st) task_id) as [e | r] eqn:Hget.
    + rewrite (poll_once_error es task_id st e Hget) in Hrun.
      injection Hrun as <- <-. exists O. split; [intros k Hk; lia |].
      left. simpl. rewrite Z.add_0_r. split; [exact Hlt | split; [reflexivity |]].
      right. right. split; [reflexivity |]. exists e. now rewrite status_at_0.
    + destruct (completed r) eqn:Hc.
      * rewrite (poll_once_completed es task_id st r Hget Hc) in Hrun.
        injection Hrun as <- <-. exists O. split; [intros k Hk; lia |].
        left. simpl. rewrite Z.add_0_r.
        split; [exact Hlt | split; [reflexivity |]].
        unfold has_error. destruct (tr_error r) as [err |] eqn:He; simpl.
        -- right. left. split; [reflexivity |]. exists r, err.
           now rewrite status_at_0.
        -- left. split; [reflexivity |]. exists r. now rewrite status_at_0.
      * destruct (poll_once_running es task_id st r Hget Hc) as (st1 & E1 & T1).
        rewrite E1 in Hrun. unfold bind at 1, sleep in Hrun.
        destruct (Z.ltb_spec p 0) as [Hneg | Hp]; [discriminate |].
        set (st2 := record (Sleep p) st1) in Hrun.
        assert (T2 : trace st2 = trace st ++ round task_id p).
        { unfold st2. simpl. rewrite T1, <- app_assoc. reflexivity. }
        destruct (IH _ _ _ _ Hrun) as (n & Hpre & Hend).
        exists (S n). split.
        -- intros [| k] Hk.
           ++ split; [simpl; lia |]. exists r. now rewrite status_at_0.
           ++ destruct (Hpre k) as (Hlt' & Hs); [lia |]. split; [lia |].
              now rewrite <- (status_at_next es task_id p st st2 k T2).
        -- rewrite <- (status_at_next es task_id p st st2 n T2).
           rewrite rounds_S, T2 in *.
           destruct Hend as [(Hlt' & Ht & Hv) | (Hge' & Hb & Ht)].
           ++ left. split; [lia |]. split; [| exact Hv].
              rewrite Ht. now rewrite <- !app_assoc.
           ++ right. split; [lia |]. split; [exact Hb |].
              rewrite Ht. now rewrite <- !app_assoc.
Qed.

(** C3: counting polls from 0, if the polls before number [n] found the task
    running (the poll interval being non-negative when there are any) and
    poll [n] starts under the timeout, the tracker returns at poll [n], and
    sends nothing after that status query: success when the
    query reports completed without an error field, failure when it reports
    completed with an error field, failure when the query raises.
    Conversely, whenever the tracker returns a value, it is in one of these
    three ways, or else the elapsed time had reached the timeout. *)
Theorem track_task_status_verdicts :
  forall (es : Cluster) (task_id : string) (timeout poll_interval : Z)
         (st : State),
    (forall (n fuel : nat),
        n = 0%nat \/ 0 <= poll_interval ->
        Z.of_nat n * poll_interval < timeout ->
        (n < fuel)%nat ->
        (forall k, (k < n)%nat ->
           still_running (status_at es task_id poll_interval st k)) ->
        let run := track_task_status es fuel task_id timeout poll_interval st in
        let polled :=
          trace st ++ rounds task_id poll_interval n ++ [TasksGet task_id] in
        (reports_success (status_at es task_id poll_interval st n) ->
           fst run = Ret true /\ trace (snd run) = polled) /\
        (reports_failure (status_at es task_id poll_interval st n) ->
           fst run = Ret false /\ trace (snd run) = polled) /\
        (transport_error (status_at es task_id poll_interval st n) ->
           fst run = Ret false /\ trace (snd run) = polled)) /\
    (forall (fuel : nat) (b : bool) (st' : State),
        track_task_status es fuel task_id timeout poll_interval st
          = (Ret b, st') ->
        exists n : nat,
          (forall k, (k < n)%nat ->
             still_running (status_at es task_id poll_interval st k)) /\
          ((Z.of_nat n * poll_interval < timeout /\
            trace st'
              = trace st ++ rounds task_id poll_interval n ++ [TasksGet task_id] /\
            ((b = true /\
              reports_success (status_at es task_id poll_interval st n)) \/
             (b = false /\
              reports_failure (status_at es task_id poll_interval st n)) \/
             (b = false /\
              transport_error (status_at es task_id poll_interval st n)))) \/
           (timeout <= Z.of_nat n * poll_interval /\ b = false /\
            trace st' = trace st ++ rounds task_id poll_interval n))).
Proof.
  intros es task_id timeout p st. split.
  - intros n fuel Hp Hlt Hfuel Hpre run polled.
    destruct (track_loop_running_prefix es task_id timeout p n 0 st Hp)
      as (st_n & Tn & Hn).
    { intros k Hk. split; [| now apply Hpre].
      destruct Hp as [-> | Hp]; [lia | nia]. }
    assert (Hrun : run = track_loop es (fuel - n) task_id timeout p
                           (Z.of_nat n * p) st_n).
    { unfold run, track_task_status.
      replace fuel with (n + (fuel - n))%nat at 1 by lia.
      now rewrite Hn. }
    destruct (fuel - n)%nat as [| f] eqn:Hf; [lia |].
    cbn [track_loop] in Hrun.
    rewrite (proj2 (Z.ltb_lt _ _) Hlt) in Hrun. unfold bind at 1 in Hrun.
    unfold status_at. rewrite <- Tn.
    assert (Hpolled : trace (record (TasksGet task_id) st_n) = polled).
    { unfold polled. simpl. rewrite Tn. now rewrite <- app_assoc. }
    repeat split.
    + destruct H as (r & Hr & Hc & He).
      rewrite (poll_once_completed es task_id st_n r Hr Hc) in Hrun.
      rewrite Hrun. unfold has_error. now rewrite He.
    + destruct H as (r & Hr & Hc & He).
      rewrite (poll_once_completed es task_id st_n r Hr Hc) in Hrun.
      now rewrite Hrun.
    + destruct H as (r & err & Hr & Hc & He).
      rewrite (poll_once_completed es task_id st_n r Hr Hc) in Hrun.
      rewrite Hrun. unfold has_error. now rewrite He.
    + destruct H as (r & err & Hr & Hc & He).
      rewrite (poll_once_completed es task_id st_n r Hr Hc) in Hrun.
      now rewrite Hrun.
    + destruct H as (e & He).
      rewrite (poll_once_error es task_id st_n e He) in Hrun. now rewrite Hrun.
    + destruct H as (e & He).
      rewrite (poll_once_error es task_id st_n e He) in Hrun. now rewrite Hrun.
  - intros fuel b st' Hrun.
    destruct (track_loop_returns es task_id timeout p fuel 0 st b st' Hrun)
      as (n & Hpre & Hend).
    exists n. split; [intros k Hk; now apply Hpre |]. exact Hend.
Qed.

Lemma track_task_status_verdicts_witness :
  fst (track_task_status slow_task 3 "node:1" 300 5 start) = Ret true /\
  trace (snd (track_task_status slow_task 3 "node:1" 300 5 start))
    = [TasksGet "node:1"; TasksList; Sleep 5;
       TasksGet "node:1"; TasksList; Sleep 5;
       TasksGet "node:1"].
Proof.
  refine (proj1 (proj1 (track_task_status_verdicts slow_task "node:1" 300 5
                          start)
                   2%nat 3%nat _ _ _ _) _).
  - right. lia.
  - lia.
  - lia.
  - intros [| [| k]] Hk; [| | lia]; exists running; split; reflexivity.
  - exists finished. repeat split.
Defined.

Lemma ceil_bounds (timeout p : Z) :
  0 < timeout -> 0 < p ->
  let N := Z.to_nat ((timeout + p - 1) / p) in
  (Z.of_nat N - 1) * p < timeout <= Z.of_nat N * p.
Proof.
  intros Ht Hp N.
  pose proof (Z.div_mod (timeout + p - 1) p ltac:(lia)) as Hdm.
  pose proof (Z.mod_pos_bound (timeout + p - 1) p Hp) as Hm.
  assert (Hq : 0 <= (timeout + p - 1) / p) by (apply Z.div_pos; lia).
  unfold N. rewrite Z2Nat.id by exact Hq. nia.
Qed.

(** C4: for a positive timeout and a positive poll interval, if every status
    query finds the task running, the tracker terminates with failure after
    exactly ceil(timeout / poll_interval) status polls, each followed by a
    sleep of poll_interval: the elapsed time grows by that fixed step until
    it reaches the timeout. *)
Theorem track_task_status_times_out :
  forall (es : Cluster) (task_id : string) (timeout poll_interval : Z)
         (st : State),
    0 < timeout ->
    0 < poll_interval ->
    let N := Z.to_nat ((timeout + poll_interval - 1) / poll_interval) in
    (forall k, (k < N)%nat ->
       still_running (status_at es task_id poll_interval st k)) ->
    forall fuel, (N <= fuel)%nat ->
      let run := track_task_status es fuel task_id timeout poll_interval st in
      fst run = Ret false /\
      trace (snd run) = trace st ++ rounds task_id poll_interval N /\
      List.length (filter is_status_poll (rounds task_id poll_interval N)) = N /\
      (forall s, In (Sleep s) (rounds task_id poll_interval N) ->
         s = poll_interval) /\
      (Z.of_nat N - 1) * poll_interval < timeout <= Z.of_nat N * poll_interval.
Proof.
  intros es task_id timeout p st Ht Hp N Hrun fuel Hfuel run.
  pose proof (ceil_bounds timeout p Ht Hp) as Hceil.
  cbv zeta in Hceil. fold N in Hceil.
  destruct (track_loop_running_prefix es task_id timeout p N 0 st
              ltac:(right; lia))
    as (st_n & Tn & Hn).
  { intros k Hk. split; [| now apply Hrun].
    assert (Z.of_nat k <= Z.of_nat N - 1) by lia. nia. }
  assert (E : run = (Ret false, st_n)).
  { unfold run, track_task_status.
    replace fuel with (N + (fuel - N))%nat by lia. rewrite Hn, Z.add_0_l.
    destruct (fuel - N)%nat; cbn [track_loop];
      rewrite (proj2 (Z.ltb_ge _ _) (proj2 Hceil)); reflexivity. }
  rewrite E. simpl. split; [reflexivity |]. split; [exact Tn |].
  split; [apply rounds_polls |]. split; [apply rounds_sleeps | exact Hceil].
Qed.

Lemma track_task_status_times_out_witness :
  0 < 12 /\ 0 < 5 /\
  fst (track_task_status stuck_task 3 "node:1" 12 5 start) = Ret false /\
  trace (snd (track_task_status stuck_task 3 "node:1" 12 5 start))
    = [TasksGet "node:1"; TasksList; Sleep 5;
       TasksGet "node:1"; TasksList; Sleep 5;
       TasksGet "node:1"; TasksList; Sleep 5].
Proof.
  split; [lia |]. split; [lia |].
  assert (Hrun : forall k, (k < Z.to_nat ((12 + 5 - 1) / 5))%nat ->
            still_running (status_at stuck_task "node:1" 5 start k)).
  { intros k _. exists running. split; reflexivity. }
  pose proof (track_task_status_times_out stuck_task "node:1" 12 5 start
                ltac:(lia) ltac:(lia) Hrun 3%nat ltac:(vm_compute; lia)) as H.
  destruct H as (H1 & H2 & _). split; [exact H1 | exact H2].
Defined.

(** *** Sub-task aggregation *)

Lemma poll_once_same (es1 es2 : Cluster) (task_id : string) (st1 st2 : State) :
  (forall h t, es_tasks_get es1 h t = es_tasks_get es2 h t) ->
  trace st1 = trace st2 ->
  fst (poll_once es1 task_id st1) = fst (poll_once es2 task_id st2) /\
  trace (snd (poll_once es1 task_id st1))
    = trace (snd (poll_once es2 task_id st2)).
Proof.
  intros Hget T.
  destruct (es_tasks_get es1 (trace st1) task_id) as [e | r] eqn:H1;
    pose proof H1 as H2; rewrite Hget, T in H2.
  - rewrite (poll_once_error es1 task_id st1 e H1),
            (poll_once_error es2 task_id st2 e H2).
    simpl. now rewrite T.
  - destruct (completed r) eqn:Hc.
    + rewrite (poll_once_completed es1 task_id st1 r H1 Hc),
              (poll_once_completed es2 task_id st2 r H2 Hc).
      simpl. now rewrite T.
    + destruct (poll_once_running es1 task_id st1 r H1 Hc) as (s1 & E1 & T1).
      destruct (poll_once_running es2 task_id st2 r H2 Hc) as (s2 & E2 & T2).
      rewrite E1, E2. simpl. now rewrite T1, T2, T.
Qed.

Lemma bind_alike {A B : Type} (m1 m2 : M A) (f1 f2 : A -> M B)
    (st1 st2 : State) :
  alike (m1 st1) (m2 st2) ->
  (forall a s1 s2, trace s1 = trace s2 -> alike (f1 a s1) (f2 a s2)) ->
  alike (bind m1 f1 st1) (bind m2 f2 st2).
Proof.
  unfold alike, bind. intros [Hv Ht] Hf.
  destruct (m1 st1) as [o1 s1], (m2 st2) as [o2 s2]. simpl in Hv, Ht.
  subst o2. destruct o1; simpl; auto.
Qed.

Lemma track_loop_same (es1 es2 : Cluster) (task_id : string) (timeout p : Z) :
  (forall h t, es_tasks_get es1 h t = es_tasks_get es2 h t) ->
  forall (fuel : nat) (elapsed : Z) (st1 st2 : State),
    trace st1 = trace st2 ->
    alike (track_loop es1 fuel task_id timeout p elapsed st1)
          (track_loop es2 fuel task_id timeout p elapsed st2).
Proof.
  intros Hget. induction fuel as [| fuel IH]; intros elapsed st1 st2 T;
    cbn [track_loop]; destruct (elapsed <? timeout);
    try (split; simpl; [reflexivity | exact T]).
  apply bind_alike.
  - apply poll_once_same; assumption.
  - intros [b |] s1 s2 Ts.
    + split; simpl; [reflexivity | exact Ts].
    + apply bind_alike.
      * unfold sleep. destruct (p <? 0); split; simpl; congruence.
      * intros _ s1' s2' Ts'. now apply IH.
Qed.

(** C8: the verdict of the tracker, and the requests it sends, are the same
    on two clusters that differ only in how they answer the sub-task listing
    (with sub-tasks, without, or with an exception); and the aggregation
    itself never raises. *)
Theorem slice_status_is_side_channel :
  forall (es1 es2 : Cluster),
    same_but_task_list es1 es2 ->
    forall (fuel : nat) (task_id : string) (timeout poll_interval : Z)
           (st : State),
      fst (track_task_status es1 fuel task_id timeout poll_interval st)
        = fst (track_task_status es2 fuel task_id timeout poll_interval st) /\
      trace (snd (track_task_status es1 fuel task_id timeout poll_interval st))
        = trace (snd (track_task_status es2 fuel task_id timeout poll_interval st)) /\
      fst (get_reindex_slice_status es1 task_id st) = Ret tt /\
      fst (get_reindex_slice_status es2 task_id st) = Ret tt.
Proof.
  intros es1 es2 Hsame fuel task_id timeout p st.
  destruct Hsame as (_ & _ & _ & Hget & _).
  destruct (track_loop_same es1 es2 task_id timeout p Hget fuel 0 st st eq_refl)
    as (Hv & Ht). fold (track_task_status es1 fuel task_id timeout p) in Hv, Ht.
  fold (track_task_status es2 fuel task_id timeout p) in Hv, Ht.
  split; [exact Hv |]. split; [exact Ht |].
  destruct (get_reindex_slice_status_swallows es1 task_id st) as (s1 & E1 & _).
  destruct (get_reindex_slice_status_swallows es2 task_id st) as (s2 & E2 & _).
  now rewrite E1, E2.
Qed.

Lemma slice_status_is_side_channel_witness :
  fst (track_task_status broken_listing 5 "node:1" 300 5 start)
    = fst (track_task_status fine_listing 5 "node:1" 300 5 start) /\
  fst (track_task_status broken_listing 5 "node:1" 300 5 start) = Ret true /\
  progress (snd (track_task_status broken_listing 5 "node:1" 300 5 start))
    = [SliceErrorLine ConnectionError] /\
  progress (snd (track_task_status fine_listing 5 "node:1" 300 5 start))
    = [SubTaskLine "node:2" 10 40; SubTaskLine "node:3" 5 0; SummaryLine 15 40].
Proof.
  assert (Hsame : same_but_task_list broken_listing fine_listing).
  { repeat split; intros; reflexivity. }
  split; [| repeat split; reflexivity].
  exact (proj1 (slice_status_is_side_channel broken_listing fine_listing Hsame
                  5 "node:1" 300 5 start)).
Defined.

(** *** Migration *)

(** C5: when the count of the source is 0, or the count query fails (which
    [get_doc_count] turns into 0), the migration returns success at once:
    the count is the only request it sends, so no reindex job is launched
    and no task is polled. *)
Theorem reindex_data_async_empty_source :
  forall (es : Cluster) (fuel : nat) (source_index dest_index : string)
         (st : State),
    es_count es (trace st) source_index = inr 0 \/
    (exists e, es_count es (trace st) source_index = inl e) ->
    let run := reindex_data_async es fuel source_index dest_index st in
    fst run = Ret true /\
    trace (snd run) = trace st ++ [Count source_index] /\
    filter is_reindex [Count source_index] = [] /\
    filter is_status_poll [Count source_index] = [].
Proof.
  intros es fuel src dst st H run.
  assert (E : run = (Ret true, record (Count src) st)).
  { unfold run, reindex_data_async, get_doc_count, bind, try_except, request.
    destruct H as [H | [e H]]; rewrite H; reflexivity. }
  rewrite E. repeat split.
Qed.

Lemma reindex_data_async_empty_source_witness :
  fst (reindex_data_async uncountable 10 "products_v1" "products_v2" start)
    = Ret true /\
  trace (snd (reindex_data_async uncountable 10 "products_v1" "products_v2"
                start))
    = [Count "products_v1"].
Proof.
  pose proof (reindex_data_async_empty_source uncountable 10 "products_v1"
                "products_v2" start
                (or_intror (ex_intro _ ConnectionError eq_refl))) as H.
  destruct H as (H1 & H2 & _). split; [exact H1 | exact H2].
Defined.

(** C6: when the source holds at least 100,000,000 documents the migration
    returns failure and the count is the only request it sends: no reindex
    request is ever issued. *)
Theorem reindex_data_async_oversized :
  forall (es : Cluster) (fuel : nat) (source_index dest_index : string)
         (st : State) (doc_count : Z),
    es_count es (trace st) source_index = inr doc_count ->
    100000000 <= doc_count ->
    let run := reindex_data_async es fuel source_index dest_index st in
    fst (fst (estimate_reindex_params doc_count)) = 0 /\
    fst run = Ret false /\
    trace (snd run) = trace st ++ [Count source_index] /\
    filter is_reindex [Count source_index] = [].
Proof.
  intros es fuel src dst st n Hn Hbig run.
  assert (Hest : estimate_reindex_params n = (0, 0, 0)).
  { apply (estimate_rows n); lia. }
  assert (E : run = (Ret false, record (Count src) st)).
  { unfold run, reindex_data_async, get_doc_count, bind, try_except, request.
    rewrite Hn. destruct (Z.eqb_spec n 0) as [-> | _]; [lia |].
    now rewrite Hest. }
  rewrite E, Hest. repeat split.
Qed.

Lemma reindex_data_async_oversized_witness :
  fst (reindex_data_async oversized 10 "products_v1" "products_v2" start)
    = Ret false /\
  trace (snd (reindex_data_async oversized 10 "products_v1" "products_v2"
                start))
    = [Count "products_v1"].
Proof.
  pose proof (reindex_data_async_oversized oversized 10
                "products_v1" "products_v2" start 150000000 eq_refl
                ltac:(lia)) as H.
  destruct H as (_ & H1 & H2 & _). split; [exact H1 | exact H2].
Defined.

(** C10: when a launch is attempted (the count is neither 0 nor beyond the
    ceiling) and fails, because the reindex request raises or its answer
    carries no task id, the migration returns failure having sent the count
    and the reindex request only: task status is never polled. *)
Theorem reindex_data_async_launch_failure :
  forall (es : Cluster) (fuel : nat) (source_index dest_index : string)
         (st : State) (doc_count : Z),
    es_count es (trace st) source_index = inr doc_count ->
    doc_count <> 0 ->
    doc_count < 100000000 ->
    let slices := fst (fst (estimate_reindex_params doc_count)) in
    let launch :=
      es_reindex es (trace st ++ [Count source_index]) source_index dest_index
        slices in
    (exists e, launch = inl e) \/ launch = inr None ->
    let run := reindex_data_async es fuel source_index dest_index st in
    let sent := [Count source_index; Reindex source_index dest_index slices] in
    fst run = Ret false /\
    trace (snd run) = trace st ++ sent /\
    filter is_status_poll sent = [].
Proof.
  intros es fuel src dst st n Hn Hnz Hsmall slices launch Hfail run sent.
  assert (Hs : slices <> 0).
  { unfold slices, estimate_reindex_params.
    split_thresholds; simpl; lia. }
  assert (E : run = (Ret false,
                     record (Reindex src dst slices) (record (Count src) st))).
  { unfold run, reindex_data_async, get_doc_count, bind at 1, try_except at 1,
      request at 1.
    rewrite Hn. destruct (Z.eqb_spec n 0) as [-> | _]; [lia |].
    fold slices.
    destruct (estimate_reindex_params n) as [[sl tmo] poll] eqn:Hest.
    simpl in slices. subst slices.
    destruct (Z.eqb_spec sl 0) as [-> | _]; [lia |].
    unfold start_reindex_async, bind, try_except, request.
    cbn [trace record]. fold launch.
    destruct Hfail as [[e He] | He]; rewrite He; reflexivity. }
  rewrite E. simpl. rewrite <- app_assoc. repeat split.
Qed.

Lemma reindex_data_async_launch_failure_witness :
  fst (reindex_data_async failed_launch 10 "products" "products_backup" start)
    = Ret false /\
  trace (snd (reindex_data_async failed_launch 10 "products" "products_backup"
                start))
    = [Count "products"; Reindex "products" "products_backup" 1].
Proof.
  pose proof (reindex_data_async_launch_failure failed_launch 10
                "products" "products_backup" start 50000 eq_refl
                ltac:(lia) ltac:(lia)
                (or_introl (ex_intro _ ConnectionError eq_refl))) as H.
  destruct H as (H1 & H2 & _). split; [exact H1 | exact H2].
Defined.

(** *** Rename-if-needed *)

(** C9: when the probe finds that [name] is an alias, the resolver returns
    having sent that probe only, hence no mutating request (no index
    creation, no reindex, no deletion); called a second time on a name that
    is still an alias, it again sends its probe and nothing else. *)
Theorem rename_index_if_needed_idempotent :
  forall (es : Cluster) (fuel : nat) (name : string) (mappings : mapping)
         (suffix : string) (st : State) (bindings : dict unit),
    es_get_alias es (trace st) None name = inr bindings ->
    let once := rename_index_if_needed es fuel name mappings suffix in
    (fst (once st) = Ret tt /\
     trace (snd (once st)) = trace st ++ [GetAlias None name] /\
     filter mutating [GetAlias None name] = []) /\
    (forall bindings' : dict unit,
        es_get_alias es (trace st ++ [GetAlias None name]) None name
          = inr bindings' ->
        let twice := bind once (fun _ => once) st in
        fst twice = Ret tt /\
        trace (snd twice)
          = trace st ++ [GetAlias None name; GetAlias None name] /\
        filter mutating [GetAlias None name; GetAlias None name] = []).
Proof.
  intros es fuel name mappings suffix st bindings Hprobe once.
  assert (E : forall s b, es_get_alias es (trace s) None name = inr b ->
                once s = (Ret tt, record (GetAlias None name) s)).
  { intros s b H.
    unfold once, rename_index_if_needed, try_except, bind, request.
    now rewrite H. }
  split.
  - rewrite (E st bindings Hprobe). repeat split.
  - intros bindings' Hprobe' twice. unfold twice, bind.
    rewrite (E st bindings Hprobe).
    rewrite (E (record (GetAlias None name) st) bindings' Hprobe').
    simpl. rewrite <- app_assoc. repeat split.
Qed.

Lemma rename_index_if_needed_idempotent_witness :
  fst (bind (rename_index_if_needed one_bound 10 "products" "{}" "_backup")
         (fun _ => rename_index_if_needed one_bound 10 "products" "{}"
                     "_backup")
         start) = Ret tt /\
  trace (snd (bind (rename_index_if_needed one_bound 10 "products" "{}"
                      "_backup")
                (fun _ => rename_index_if_needed one_bound 10 "products" "{}"
                            "_backup")
                start))
    = [GetAlias None "products"; GetAlias None "products"].
Proof.
  pose proof (rename_index_if_needed_idempotent one_bound 10 "products" "{}"
                "_backup" start [("products_v1", tt)] eq_refl) as H.
  destruct H as (_ & H).
  destruct (H [("products_v1", tt)] eq_refl) as (H1 & H2 & _).
  split; [exact H1 | exact H2].
Defined.

(** *** Latest index under an alias *)






(** The head of the sorted list is an item whose date no item exceeds. *)
Lemma sorted_desc_head (items : list (string * Z)) :
  items <> [] ->
  exists h rest,
    sorted_desc items = h :: rest /\
    In h items /\
    forall y, In y items -> snd y <= snd h.
Proof.
  induction items as [| x items IH]; intros Hne; [congruence |].
  destruct items as [| x' items'].
  - exists x, []. simpl. repeat split; [now left |].
    intros y [<- | []]. lia.
  - destruct IH as (h & rest & E & Hin & Hmax); [discriminate |].
    change (sorted_desc (x :: x' :: items'))
      with (insert_desc x (sorted_desc (x' :: items'))).
    rewrite E. simpl insert_desc.
    destruct (Z.ltb_spec (snd x) (snd h)) as [Hlt | Hge].
    + exists h, (insert_desc x rest). split; [reflexivity |].
      split; [now right |].
      intros y [<- | Hy]; [lia | now apply Hmax].
    + exists x, (h :: rest). split; [reflexivity |]. split; [now left |].
      intros y [<- | Hy]; [lia |]. specialize (Hmax y Hy). lia.
Qed.



(** The resolution on the worked example picks the index created last. *)
Example get_latest_index_by_alias_three_dated :
  fst (get_latest_index_by_alias three_dated three_dated 10 "products" "{}"
         "_backup" start) = Ret (Some "products_v2").
Proof. reflexivity. Qed.


(** *** Worked runs *)

(** A task reported completed with an error field fails the tracker at the
    first poll. *)
Example track_task_status_crashed :
  track_task_status (steady 50000 (inr crashed) (inr no_listing)) 1 "node:1"
    300 5 start
  = (Ret false, mkState [TasksGet "node:1"] []).
Proof. reflexivity. Qed.

(** An unreachable cluster fails the tracker at the first poll. *)
Example track_task_status_unreachable :
  track_task_status (steady 50000 (inl ConnectionError) (inr no_listing)) 1
    "node:1" 300 5 start
  = (Ret false, mkState [TasksGet "node:1"] []).
Proof. reflexivity. Qed.

(** A negative poll interval makes the first sleep raise. *)
Example track_task_status_negative_interval :
  fst (track_task_status stuck_task 5 "node:1" 300 (-1) start)
  = Raise ValueError.
Proof. reflexivity. Qed.

(** A zero poll interval with a task that never completes exhausts any loop
    budget. *)
Example track_task_status_zero_interval :
  fst (track_task_status stuck_task 50 "node:1" 300 0 start) = Diverge.
Proof. reflexivity. Qed.

(** The bare index [products] with 50,000 documents is renamed out of the
    way: [products_backup] is created, filled by one slice, and [products]
    is deleted. *)
Example rename_index_if_needed_legacy :
  rename_index_if_needed legacy_index 1 "products" "{}" "_backup" start
  = (Ret tt,
     mkState
       [GetAlias None "products";
        IndicesExists "products";
        IndicesExists "products_backup";
        IndicesCreate "products_backup" "{}";
        Count "products";
        Reindex "products" "products_backup" 1;
        TasksGet "node:1";
        IndicesDelete "products"]
       []).
Proof. reflexivity. Qed.

(** When the suffixed name is taken the resolver exits the process. *)
Example rename_index_if_needed_taken :
  rename_index_if_needed (bare true 50000 (inr None)) 1 "products" "{}"
    "_backup" start
  = (Exit 1,
     mkState
       [GetAlias None "products";
        IndicesExists "products";
        IndicesExists "products_backup"]
       []).
Proof. reflexivity. Qed.

(** An empty task id counts as no task id. *)
Example reindex_data_async_empty_task_id :
  reindex_data_async (bare true 50000 (inr (Some EmptyString))) 5 "products"
    "products_backup" start
  = (Ret false,
     mkState [Count "products"; Reindex "products" "products_backup" 1] []).
Proof. reflexivity. Qed.

(** A full run of [main] on a live alias: create, count, launch, poll, switch
    the alias, delete the old index, exit 0. *)
Example main_full_run :
  main live_alias plain_host 1 (Parsed full_args) start
  = (Exit 0,
     mkState
       [IndicesCreate "products_v2" "{properties}";
        Count "products_v1";
        Reindex "products_v1" "products_v2" 1;
        TasksGet "node:1";
        GetAlias None "products";
        UpdateAliases [ActRemove "products_v1" "products";
                       ActAdd "products_v2" "products" true];
        IndicesDelete "products_v1"]
       []).
Proof. reflexivity. Qed.

(** With the alias alone on the command line the old index is resolved on
    the cluster and the new index is named after the clock. *)
Example main_alias_only_run :
  main live_alias file_host 1 (Parsed alias_only_args) start
  = (Exit 0,
     mkState
       [ExistsAlias "products";
        GetAlias (Some "*") "products";
        IndicesGet "products_v1";
        IndicesStats "products_v1";
        IndicesCreate "products_1719000000" "{properties}";
        Count "products_v1";
        Reindex "products_v1" "products_1719000000" 1;
        TasksGet "node:1";
        GetAlias None "products";
        UpdateAliases [ActRemove "products_v1" "products";
                       ActAdd "products_1719000000" "products" true]]
       []).
Proof. reflexivity. Qed.

(** *** What each function may send *)

Lemma emits_nothing {A : Type} (allowed : Call -> bool) (m : M A) :
  (forall st, trace (snd (m st)) = trace st) -> emits allowed m.
Proof.
  intros H st. exists []. rewrite H, app_nil_r. now split.
Qed.

Lemma emits_ret {A : Type} (allowed : Call -> bool) (a : A) :
  emits allowed (ret a).
Proof. now apply emits_nothing. Qed.

Lemma emits_raise {A : Type} (allowed : Call -> bool) (e : exn) :
  emits allowed (@raise A e).
Proof. now apply emits_nothing. Qed.

Lemma emits_sys_exit {A : Type} (allowed : Call -> bool) (code : Z) :
  emits allowed (@sys_exit A code).
Proof. now apply emits_nothing. Qed.

Lemma emits_diverge {A : Type} (allowed : Call -> bool) :
  emits allowed (@diverge A).
Proof. now apply emits_nothing. Qed.

Lemma emits_say (allowed : Call -> bool) (l : ProgressLine) :
  emits allowed (say l).
Proof. now apply emits_nothing. Qed.

Lemma emits_request {A : Type} (allowed : Call -> bool) (c : Call)
    (ans : History -> answer A) :
  allowed c = true -> emits allowed (request c ans).
Proof.
  intros Hc st. exists [c]. unfold request.
  destruct (ans (trace st)); simpl; rewrite Hc; now split.
Qed.

Lemma emits_sleep (allowed : Call -> bool) (s : Z) :
  allowed (Sleep s) = true -> emits allowed (sleep s).
Proof.
  intros Hc st. unfold sleep. destruct (s <? 0).
  - exists []. simpl. rewrite app_nil_r. now split.
  - exists [Sleep s]. simpl. rewrite Hc. now split.
Qed.

Lemma emits_bind {A B : Type} (allowed : Call -> bool) (m : M A)
    (f : A -> M B) :
  emits allowed m -> (forall a, emits allowed (f a)) ->
  emits allowed (bind m f).
Proof.
  intros Hm Hf st. unfold bind.
  destruct (Hm st) as (evs & T & F). destruct (m st) as [[a | e | c |] st1];
    simpl in T; try (exists evs; now split).
  destruct (Hf a st1) as (evs' & T' & F').
  exists (evs ++ evs'). split.
  - rewrite T', T. now rewrite app_assoc.
  - rewrite forallb_app, F, F'. reflexivity.
Qed.

Lemma emits_try_except {A : Type} (allowed : Call -> bool) (m : M A)
    (handles : exn -> bool) (h : exn -> M A) :
  emits allowed m -> (forall e, emits allowed (h e)) ->
  emits allowed (try_except m handles h).
Proof.
  intros Hm Hh st. unfold try_except.
  destruct (Hm st) as (evs & T & F). destruct (m st) as [[a | e | c |] st1];
    simpl in T; try (exists evs; now split).
  destruct (handles e); [| exists evs; now split].
  destruct (Hh e st1) as (evs' & T' & F').
  exists (evs ++ evs'). split.
  - rewrite T', T. now rewrite app_assoc.
  - rewrite forallb_app, F, F'. reflexivity.
Qed.

Lemma emits_try_excepts {A : Type} (allowed : Call -> bool) (m : M A)
    (clauses : list ((exn -> bool) * (exn -> M A))) :
  emits allowed m ->
  (forall cl e, In cl clauses -> emits allowed (snd cl e)) ->
  emits allowed (try_excepts m clauses).
Proof.
  intros Hm Hh st. unfold try_excepts.
  destruct (Hm st) as (evs & T & F). destruct (m st) as [[a | e | c |] st1];
    simpl in T; try (exists evs; now split).
  assert (Hcl : forall h, first_clause clauses e = Some h -> emits allowed h).
  { clear - Hh. induction clauses as [| [hd h'] cls IH]; intros h Hf;
      simpl in Hf; [discriminate |].
    destruct (hd e).
    - injection Hf as <-. apply (Hh (hd, h') e). now left.
    - apply IH; [| exact Hf]. intros cl e' Hin. apply Hh. now right. }
  destruct (first_clause clauses e) as [h |]; [| exists evs; now split].
  destruct (Hcl h eq_refl st1) as (evs' & T' & F').
  exists (evs ++ evs'). split.
  - rewrite T', T. now rewrite app_assoc.
  - rewrite forallb_app, F, F'. reflexivity.
Qed.

Lemma emits_for_each {A S : Type} (allowed : Call -> bool)
    (body : A -> S -> M S) :
  (forall a s, emits allowed (body a s)) ->
  forall xs s, emits allowed (for_each xs body s).
Proof.
  intros Hbody xs. induction xs as [| x xs IH]; intros s; simpl.
  - apply emits_ret.
  - apply emits_bind; [apply Hbody | intros s'; apply IH].
Qed.

Lemma emits_weaken {A : Type} (strict allowed : Call -> bool) (m : M A) :
  (forall c, strict c = true -> allowed c = true) ->
  emits strict m -> emits allowed m.
Proof.
  intros Hsub Hm st. destruct (Hm st) as (evs & T & F).
  exists evs. split; [exact T |].
  rewrite forallb_forall in *. intros c Hc. apply Hsub. now apply F.
Qed.

Create HintDb emits.

#[local] Hint Resolve emits_ret emits_raise emits_sys_exit emits_diverge
  emits_say : emits.

(** Walk down a computation built from the combinators above. *)
Ltac emits_walk :=
  repeat first
    [ progress auto with emits
    | apply emits_request; reflexivity
    | apply emits_sleep; reflexivity
    | apply emits_bind; [| intros ?]
    | apply emits_try_except; [| intros ?]
    | apply emits_for_each; intros ? ?
    | match goal with
      | |- emits _ (if ?b then _ else _) => destruct b
      | |- emits _ (match ?x with _ => _ end) => destruct x
      | |- emits _ (let (_, _) := ?x in _) => destruct x
      end ].

Lemma emits_get_reindex_slice_status (es : Cluster) (parent : string) :
  emits is_tracking (get_reindex_slice_status es parent).
Proof.
  unfold get_reindex_slice_status, node_step, slice_step. emits_walk.
Qed.

#[local] Hint Resolve emits_get_reindex_slice_status : emits.

Lemma emits_poll_once (es : Cluster) (task_id : string) :
  emits is_tracking (poll_once es task_id).
Proof.
  unfold poll_once. emits_walk.
Qed.

#[local] Hint Resolve emits_poll_once : emits.

Lemma emits_track_loop (es : Cluster) (task_id : string) (timeout p : Z) :
  forall fuel elapsed,
    emits is_tracking (track_loop es fuel task_id timeout p elapsed).
Proof.
  induction fuel as [| fuel IH]; intros elapsed; cbn [track_loop].
  - emits_walk.
  - destruct (elapsed <? timeout); [| emits_walk].
    apply emits_bind; [apply emits_poll_once |].
    intros [b |]; [emits_walk |].
    apply emits_bind; [apply emits_sleep; reflexivity | intros _; apply IH].
Qed.

#[local] Hint Resolve emits_track_loop : emits.

(** *** Further properties of the estimator *)

(** X1: for every integer count (negative ones included) the parallelism is
    the sentinel 0 exactly from 100,000,000 on; below it the three
    parameters are positive and the timeout is a whole number of poll
    intervals, at most 240 of them. *)
Theorem estimate_reindex_params_sentinel :
  forall doc_count : Z,
    let '(slices, timeout, poll_interval) :=
      estimate_reindex_params doc_count in
    (slices = 0 <-> 100000000 <= doc_count) /\
    (doc_count < 100000000 ->
       0 < slices /\ 0 < timeout /\ 0 < poll_interval /\
       exists polls, timeout = polls * poll_interval /\ 0 < polls <= 240).
Proof.
  intros n. unfold estimate_reindex_params. split_thresholds;
    (split; [split; intros; lia |]); intros Hunder; try lia;
    repeat split; try lia.
  - exists 60. lia.
  - exists 60. lia.
  - exists 120. lia.
  - exists 240. lia.
  - exists 240. lia.
Qed.

Lemma estimate_reindex_params_sentinel_witness :
  0 < 16 /\ 0 < 7200 /\ 0 < 30 /\
  exists polls, 7200 = polls * 30 /\ 0 < polls <= 240.
Proof.
  apply (proj2 (estimate_reindex_params_sentinel 10000000)). lia.
Defined.

(** X2: below the ceiling the three parameters never decrease when the
    count grows. *)
Theorem estimate_reindex_params_monotone :
  forall n m : Z,
    n <= m -> m < 100000000 ->
    let '(s1, t1, p1) := estimate_reindex_params n in
    let '(s2, t2, p2) := estimate_reindex_params m in
    s1 <= s2 /\ t1 <= t2 /\ p1 <= p2.
Proof.
  intros n m Hnm Hm. unfold estimate_reindex_params.
  split_thresholds; lia.
Qed.

Lemma estimate_reindex_params_monotone_witness :
  4 <= 16 /\ 600 <= 7200 /\ 10 <= 30.
Proof.
  apply (estimate_reindex_params_monotone 500000 20000000); lia.
Defined.

(** *** Further properties of the task tracker *)

Lemma forallb_tracking_not_mutating (evs : list Call) :
  forallb is_tracking evs = true -> filter mutating evs = [].
Proof.
  induction evs as [| c evs IH]; simpl; [reflexivity |].
  intros H. apply andb_prop in H. destruct H as [Hc He].
  destruct c; simpl in *; try discriminate; now apply IH.
Qed.

(** X3: whatever the cluster answers and however the tracking ends (timeout
    included), the tracker sends nothing but status queries, sub-task
    listings and sleeps: it never mutates the cluster, and a task that timed
    out is left running. *)
Theorem track_task_status_read_only :
  forall (es : Cluster) (fuel : nat) (task_id : string)
         (timeout poll_interval : Z) (st : State),
    exists evs,
      trace (snd (track_task_status es fuel task_id timeout poll_interval st))
        = trace st ++ evs /\
      forallb is_tracking evs = true /\
      filter mutating evs = [].
Proof.
  intros es fuel task_id timeout p st.
  destruct (emits_track_loop es task_id timeout p fuel 0 st) as (evs & T & F).
  exists evs. split; [exact T |]. split; [exact F |].
  now apply forallb_tracking_not_mutating.
Qed.

Lemma polls_app (l1 l2 : list Call) :
  List.length (filter is_status_poll (l1 ++ l2))
  = (List.length (filter is_status_poll l1)
     + List.length (filter is_status_poll l2))%nat.
Proof. now rewrite filter_app, length_app. Qed.

(** With a positive poll interval, [n] polls are enough to reach the timeout
    from [elapsed], whatever the answers. *)
Lemma track_loop_bounded (es : Cluster) (task_id : string) (timeout p : Z) :
  0 < p ->
  forall (n fuel : nat) (elapsed : Z) (st : State),
    timeout - elapsed <= Z.of_nat n * p ->
    (n <= fuel)%nat ->
    exists b st' evs,
      track_loop es fuel task_id timeout p elapsed st = (Ret b, st') /\
      trace st' = trace st ++ evs /\
      (List.length (filter is_status_poll evs) <= n)%nat.
Proof.
  intros Hp. induction n as [| n IH]; intros fuel elapsed st Hn Hfuel.
  - exists false, st, []. split; [| split; [now rewrite app_nil_r | simpl; lia]].
    destruct fuel; cbn [track_loop];
      rewrite (proj2 (Z.ltb_ge elapsed timeout)) by lia; reflexivity.
  - destruct (Z.ltb_spec elapsed timeout) as [Hlt | Hge].
    2:{ exists false, st, [].
        split; [| split; [now rewrite app_nil_r | simpl; lia]].
        destruct fuel; cbn [track_loop];
          rewrite (proj2 (Z.ltb_ge elapsed timeout)) by lia; reflexivity. }
    destruct fuel as [| fuel]; [lia |]. cbn [track_loop].
    rewrite (proj2 (Z.ltb_lt elapsed timeout) Hlt). unfold bind at 1.
    destruct (es_tasks_get es (trace st) task_id) as [e | r] eqn:Hget.
    + rewrite (poll_once_error es task_id st e Hget).
      exists false, (record (TasksGet task_id) st), [TasksGet task_id].
      repeat split. simpl. lia.
    + destruct (completed r) eqn:Hc.
      * rewrite (poll_once_completed es task_id st r Hget Hc).
        exists (negb (has_error r)), (record (TasksGet task_id) st),
          [TasksGet task_id].
        repeat split. simpl. lia.
      * destruct (poll_once_running es task_id st r Hget Hc) as (st1 & E1 & T1).
        rewrite E1. unfold bind at 1, sleep.
        rewrite (proj2 (Z.ltb_ge p 0)) by lia.
        destruct (IH fuel (elapsed + p) (record (Sleep p) st1))
          as (b & st' & evs & E & T & L); [lia | lia |].
        exists b, st', (round task_id p ++ evs). split; [exact E |]. split.
        -- rewrite T. simpl. rewrite T1, <- !app_assoc. reflexivity.
        -- rewrite polls_app. simpl. lia.
Qed.

(** X4: with a positive poll interval the tracker always terminates with a
    verdict, never an exception, after at most ceil(timeout / poll_interval)
    status polls, whatever the cluster answers; with a timeout that is not
    positive this bound is 0 and it fails without polling. *)
Theorem track_task_status_terminates :
  forall (es : Cluster) (fuel : nat) (task_id : string)
         (timeout poll_interval : Z) (st : State),
    0 < poll_interval ->
    let N := Z.to_nat ((timeout + poll_interval - 1) / poll_interval) in
    (N <= fuel)%nat ->
    exists b st' evs,
      track_task_status es fuel task_id timeout poll_interval st
        = (Ret b, st') /\
      trace st' = trace st ++ evs /\
      (List.length (filter is_status_poll evs) <= N)%nat /\
      (timeout <= 0 -> b = false /\ evs = []).
Proof.
  intros es fuel task_id timeout p st Hp N Hfuel.
  assert (Hreach : timeout - 0 <= Z.of_nat N * p).
  { destruct (Z_lt_le_dec 0 timeout) as [Hpos | Hnonpos].
    - pose proof (ceil_bounds timeout p Hpos Hp) as Hc. cbv zeta in Hc.
      fold N in Hc. lia.
    - unfold N. nia. }
  destruct (track_loop_bounded es task_id timeout p Hp N fuel 0 st Hreach Hfuel)
    as (b & st' & evs & E & T & L).
  exists b, st', evs. split; [exact E |]. split; [exact T |].
  split; [exact L |]. intros Hnonpos.
  unfold track_task_status in E.
  destruct fuel; cbn [track_loop] in E;
    rewrite (proj2 (Z.ltb_ge 0 timeout)) in E by lia;
    injection E as <- <-; split; [reflexivity | | reflexivity |];
    apply app_inv_head with (l := trace st); now rewrite app_nil_r.
Qed.

Lemma track_task_status_terminates_witness :
  exists b st' evs,
    track_task_status slow_task 60 "node:1" 300 5 start = (Ret b, st') /\
    trace st' = trace start ++ evs /\
    (List.length (filter is_status_poll evs) <= 60)%nat /\
    (300 <= 0 -> b = false /\ evs = []).
Proof.
  apply (track_task_status_terminates slow_task 60 "node:1" 300 5 start).
  - lia.
  - vm_compute. lia.
Defined.

(** *** Further properties of the migration *)

Lemma get_doc_count_run (es : Cluster) (index_name : string) (st : State) :
  get_doc_count es index_name st
  = (Ret (match es_count es (trace st) index_name with
          | inr n => n
          | inl _ => 0
          end),
     record (Count index_name) st).
Proof.
  unfold get_doc_count, try_except, request.
  now destruct (es_count es (trace st) index_name).
Qed.

Lemma check_index_exists_run (es : Cluster) (index_name : string) (st : State) :
  check_index_exists es index_name st
  = (Ret (match es_indices_exists es (trace st) index_name with
          | inr b => b
          | inl _ => false
          end),
     record (IndicesExists index_name) st).
Proof.
  unfold check_index_exists, try_except, request.
  now destruct (es_indices_exists es (trace st) index_name).
Qed.

Lemma start_reindex_async_run (es : Cluster) (source dest : string)
    (slices : Z) (st : State) :
  start_reindex_async es source dest slices st
  = (Ret (match es_reindex es (trace st) source dest slices with
          | inr task_id => task_id
          | inl _ => None
          end),
     record (Reindex source dest slices) st).
Proof.
  unfold start_reindex_async, try_except, request.
  now destruct (es_reindex es (trace st) source dest slices).
Qed.

Lemma emits_reindex_data_async (es : Cluster) (fuel : nat)
    (source dest : string) :
  emits is_migration (reindex_data_async es fuel source dest).
Proof.
  unfold reindex_data_async, get_doc_count, start_reindex_async,
    track_task_status.
  emits_walk.
  apply (emits_weaken is_tracking); [| apply emits_track_loop].
  intros c Hc. now destruct c.
Qed.

(** The estimated timeout is reached within 240 polls. *)
Lemma estimate_polls (doc_count : Z) :
  doc_count < 100000000 ->
  let '(slices, timeout, poll_interval) := estimate_reindex_params doc_count in
  slices <> 0 /\ 0 < poll_interval /\ timeout - 0 <= 240 * poll_interval.
Proof.
  intros H. unfold estimate_reindex_params. split_thresholds; lia.
Qed.

Lemma migration_total :
  forall (es : Cluster) (fuel : nat) (source_index dest_index : string)
         (st : State),
    (240 <= fuel)%nat ->
    exists b st' evs,
      reindex_data_async es fuel source_index dest_index st = (Ret b, st') /\
      trace st' = trace st ++ Count source_index :: evs /\
      forallb is_migration evs = true /\
      (List.length (filter is_reindex evs) <= 1)%nat /\
      (List.length (filter is_status_poll evs) <= 240)%nat.
Proof.
  intros es fuel src dst st Hfuel.
  unfold reindex_data_async, bind at 1. rewrite get_doc_count_run.
  set (n := match es_count es (trace st) src with inr n => n | inl _ => 0 end).
  set (st1 := record (Count src) st).
  destruct (Z.eqb_spec n 0) as [Hz | Hnz].
  { exists true, st1, []. repeat split; simpl; lia. }
  destruct (Z_lt_le_dec n 100000000) as [Hunder | Hover].
  2:{ rewrite (proj2 (proj2 (proj2 (proj2 (proj2 (estimate_rows n))))) Hover).
      exists false, st1, []. repeat split; simpl; lia. }
  pose proof (estimate_polls n Hunder) as Hpolls.
  destruct (estimate_reindex_params n) as [[slices timeout] p].
  destruct Hpolls as (Hs & Hp & Hreach).
  destruct (Z.eqb_spec slices 0) as [Hs0 | _]; [contradiction |].
  unfold bind at 1. rewrite start_reindex_async_run.
  set (task := match es_reindex es (trace st1) src dst slices with
               | inr t => t | inl _ => None end).
  set (st2 := record (Reindex src dst slices) st1).
  destruct (no_task_id task).
  { exists false, st2, [Reindex src dst slices]. split; [reflexivity |].
    split; [unfold st2, st1; simpl; now rewrite <- app_assoc |].
    repeat split; simpl; lia. }
  destruct (track_loop_bounded es (opt_default EmptyString task) timeout p Hp
              240 fuel 0 st2 Hreach Hfuel) as (b & st' & evs & E & T & L).
  destruct (emits_track_loop es (opt_default EmptyString task) timeout p fuel 0
              st2) as (evs' & T' & F').
  unfold track_task_status. rewrite E in T'. rewrite E.
  change (trace st' = trace st2 ++ evs') in T'.
  assert (evs' = evs).
  { apply app_inv_head with (l := trace st2). now rewrite <- T, <- T'. }
  subst evs'.
  exists b, st', (Reindex src dst slices :: evs).
  split; [reflexivity |]. split.
  { rewrite T. unfold st2, st1. simpl. now rewrite <- !app_assoc. }
  assert (Hno : filter is_reindex evs = []).
  { clear - F'. induction evs as [| c evs IH]; [reflexivity |].
    simpl in F'. apply andb_prop in F'. destruct F' as [Hc He].
    destruct c; simpl in *; try discriminate; now apply IH. }
  split; [| split].
  - simpl. rewrite forallb_forall in *. intros c Hc.
    specialize (F' c Hc). now destruct c.
  - simpl. rewrite Hno. simpl. lia.
  - simpl. exact L.
Qed.

(** X5: given a loop budget of 240 polls, the migration always returns a
    boolean, whatever the cluster answers: it never raises, never exits the
    process and never polls forever.  It sends the count first, at most one
    reindex request, at most 240 status polls, and nothing that creates or
    deletes an index or touches an alias. *)
Theorem reindex_data_async_total :
  forall (es : Cluster) (fuel : nat) (source_index dest_index : string)
         (st : State),
    (240 <= fuel)%nat ->
    exists b st' evs,
      reindex_data_async es fuel source_index dest_index st = (Ret b, st') /\
      trace st' = trace st ++ Count source_index :: evs /\
      forallb is_migration evs = true /\
      (List.length (filter is_reindex evs) <= 1)%nat /\
      (List.length (filter is_status_poll evs) <= 240)%nat.
Proof. exact migration_total. Qed.

Lemma reindex_data_async_total_witness :
  exists b st' evs,
    reindex_data_async slow_task 240 "products_v1" "products_v2" start
      = (Ret b, st') /\
    trace st' = trace start ++ Count "products_v1" :: evs /\
    forallb is_migration evs = true /\
    (List.length (filter is_reindex evs) <= 1)%nat /\
    (List.length (filter is_status_poll evs) <= 240)%nat.
Proof.
  apply (reindex_data_async_total slow_task 240 "products_v1" "products_v2"
           start).
  lia.
Defined.

Lemma migration_success_evidence :
  forall (es : Cluster) (fuel : nat) (source_index dest_index : string)
         (st st' : State),
    reindex_data_async es fuel source_index dest_index st = (Ret true, st') ->
    exists pre last,
      trace st' = trace st ++ pre ++ [last] /\
      success_ground es (trace st ++ pre) last.
Proof.
  intros es fuel src dst st st' Hrun.
  unfold reindex_data_async, bind at 1 in Hrun.
  rewrite get_doc_count_run in Hrun.
  destruct (es_count es (trace st) src) as [e | n] eqn:Hcount.
  { cbn in Hrun. injection Hrun as <-. exists [], (Count src).
    simpl. rewrite app_nil_r. split; [reflexivity |]. right. now exists e. }
  destruct (Z.eqb_spec n 0) as [-> | Hnz].
  { injection Hrun as <-. exists [], (Count src).
    simpl. rewrite app_nil_r. split; [reflexivity |]. now left. }
  destruct (estimate_reindex_params n) as [[slices timeout] p].
  destruct (slices =? 0); [discriminate |].
  unfold bind at 1 in Hrun. rewrite start_reindex_async_run in Hrun.
  set (st1 := record (Count src) st) in *.
  set (task := match es_reindex es (trace st1) src dst slices with
               | inr t => t | inl _ => None end) in *.
  set (st2 := record (Reindex src dst slices) st1) in *.
  destruct (no_task_id task); [discriminate |].
  destruct (track_loop_returns es _ timeout p fuel 0 st2 true st' Hrun)
    as (k & _ & [(_ & T & Hv) | (_ & Hb & _)]); [| discriminate].
  destruct Hv as [(_ & Hok) | [(Hb & _) | (Hb & _)]]; try discriminate.
  exists ([Count src; Reindex src dst slices]
            ++ rounds (opt_default EmptyString task) p k),
    (TasksGet (opt_default EmptyString task)).
  split.
  - rewrite T. unfold st2, st1. simpl. now rewrite <- !app_assoc.
  - simpl. unfold status_at in Hok. unfold st2, st1 in Hok. simpl in Hok.
    rewrite <- !app_assoc in Hok. exact Hok.
Qed.

(** X6: the migration reports success only on evidence: its last request is
    either the count, which found nothing to copy or failed, or a status
    query that reported the task completed without an error field. *)
Theorem reindex_data_async_success_verified :
  forall (es : Cluster) (fuel : nat) (source_index dest_index : string)
         (st st' : State),
    reindex_data_async es fuel source_index dest_index st = (Ret true, st') ->
    exists pre last,
      trace st' = trace st ++ pre ++ [last] /\
      success_ground es (trace st ++ pre) last.
Proof. exact migration_success_evidence. Qed.

Lemma reindex_data_async_success_verified_witness :
  exists pre last,
    trace (snd (reindex_data_async slow_task 5 "products_v1" "products_v2"
                  start))
      = trace start ++ pre ++ [last] /\
    success_ground slow_task (trace start ++ pre) last.
Proof.
  apply (reindex_data_async_success_verified slow_task 5 "products_v1"
           "products_v2" start).
  reflexivity.
Defined.

(** *** The progress lines of the aggregation *)

Lemma nonempty_sum (a b : nat) :
  negb (Nat.eqb (a + b) 0) = negb (Nat.eqb a 0) || negb (Nat.eqb b 0).
Proof. now destruct a, b. Qed.

Lemma slice_loop_run (parent : string) :
  forall (entries : dict TaskInfo) (found : bool) (tc tt : Z) (st : State),
    let m :=
      flat_map
        (fun entry : string * TaskInfo =>
           if parent_is parent (snd entry) then
             let status :=
               opt_default (mkSliceStatus None None) (ti_status (snd entry)) in
             [(fst entry, opt_default 0 (ss_created status),
               opt_default 0 (ss_total status))]
           else [])
        entries in
    for_each entries (slice_step parent) (found, tc, tt) st
    = (Ret (found || negb (Nat.eqb (List.length m) 0),
            fold_left (fun acc x => acc + snd (fst x)) m tc,
            fold_left (fun acc x => acc + snd x) m tt),
       mkState (trace st) (progress st ++ slice_lines m)).
Proof.
  induction entries as [| [sub info] entries IH]; intros found tc tt st.
  - simpl. unfold ret. rewrite orb_false_r, app_nil_r. now destruct st.
  - cbn [for_each]. unfold bind at 1. unfold slice_step at 1.
    cbn [flat_map fst snd]. destruct (parent_is parent info).
    + unfold bind at 1, say, ret. rewrite IH. cbn [trace progress].
      cbn [app List.length slice_lines map fold_left fst snd Nat.eqb negb].
      rewrite orb_true_r, orb_true_l, <- app_assoc. reflexivity.
    + unfold ret at 1. rewrite IH. reflexivity.
Qed.

Lemma node_loop_run (parent : string) :
  forall (nodes : dict NodeData) (found : bool) (tc tt : Z) (st : State),
    let m := matching_slices parent (mkTaskListing (Some nodes)) in
    for_each nodes (node_step parent) (found, tc, tt) st
    = (Ret (found || negb (Nat.eqb (List.length m) 0),
            fold_left (fun acc x => acc + snd (fst x)) m tc,
            fold_left (fun acc x => acc + snd x) m tt),
       mkState (trace st) (progress st ++ slice_lines m)).
Proof.
  unfold matching_slices. cbn [tl_nodes opt_default].
  induction nodes as [| node nodes IH]; intros found tc tt st.
  - simpl. unfold ret. rewrite orb_false_r, app_nil_r. now destruct st.
  - cbn [for_each]. unfold bind at 1. unfold node_step at 1.
    rewrite slice_loop_run. rewrite IH. cbn [trace progress flat_map].
    unfold slice_lines.
    rewrite !fold_left_app, map_app, length_app, nonempty_sum, orb_assoc.
    rewrite <- !app_assoc. reflexivity.
Qed.

(** X7: the aggregation writes one line per sub-task whose parent is the
    tracked task, in listing order, with [created] and [total] read as 0
    when absent, and then either the totals of these lines or, when no
    sub-task matched, a line saying so; when the listing request fails it
    writes the error and nothing else.  It always returns normally after
    that single request. *)
Theorem get_reindex_slice_status_lines :
  forall (es : Cluster) (parent_task_id : string) (st : State),
    get_reindex_slice_status es parent_task_id st
    = (Ret tt,
       mkState (trace st ++ [TasksList])
         (progress st ++
          match es_tasks_list es (trace st) with
          | inl e => [SliceErrorLine e]
          | inr tasks =>
              let found := matching_slices parent_task_id tasks in
              slice_lines found ++
              [match found with
               | [] => NoSubTaskLine
               | _ :: _ => SummaryLine (sum_created found) (sum_total found)
               end]
          end)).
Proof.
  intros es parent st.
  unfold get_reindex_slice_status, try_except, bind at 1, request.
  destruct (es_tasks_list es (trace st)) as [e | [[nodes |]]]; [reflexivity | |].
  - unfold bind. cbn [tl_nodes opt_default]. rewrite node_loop_run. cbv zeta.
    destruct (matching_slices parent (mkTaskListing (Some nodes)))
      as [| x found]; simpl; unfold say; simpl; rewrite <- ?app_assoc;
      reflexivity.
  - reflexivity.
Qed.

(** *** Further properties of the rename-if-needed resolver *)

Lemma filter_none (allowed banned : Call -> bool) (evs : list Call) :
  (forall c, allowed c = true -> banned c = false) ->
  forallb allowed evs = true -> filter banned evs = [].
Proof.
  intros Hsep. induction evs as [| c evs IH]; simpl; [reflexivity |].
  intros H. apply andb_prop in H. destruct H as [Hc He].
  rewrite (Hsep c Hc). now apply IH.
Qed.

Lemma migration_not_alias_mutating (c : Call) :
  is_migration c = true -> alias_mutating c = false.
Proof. now destruct c. Qed.

Lemma migration_not_delete (c : Call) :
  is_migration c = true -> is_delete c = false.
Proof. now destruct c. Qed.

Lemma create_new_index_run (es : Cluster) (new_index : string)
    (mappings : mapping) (st : State) :
  create_new_index es new_index mappings st
  = (match es_indices_create es (trace st) new_index mappings with
     | inr _ => Ret true
     | inl e => if is_request_error e then Ret false else Raise e
     end,
     record (IndicesCreate new_index mappings) st).
Proof.
  unfold create_new_index, try_except, bind, request.
  destruct (es_indices_create es (trace st) new_index mappings) as [e | u];
    [| reflexivity].
  now destruct (is_request_error e).
Qed.

Lemma In_filter_nil (banned : Call -> bool) (evs : list Call) (c : Call) :
  filter banned evs = [] -> banned c = true -> ~ In c evs.
Proof.
  intros Hf Hb Hin.
  assert (H : In c (filter banned evs)) by (apply filter_In; now split).
  rewrite Hf in H. destruct H.
Qed.

(** The shape of what the resolver sends: never an alias update; a mutating
    request only when the name is no alias but an index and its suffixed
    name is not reported taken; and either no deletion at all, or a single
    deletion of [name], sent last, right after the request on which the
    migration returned success. *)
Lemma rename_index_if_needed_shape (es : Cluster) (fuel : nat) (name : string)
    (mappings : mapping) (suffix : string) (st : State) :
  exists evs,
    trace (snd (rename_index_if_needed es fuel name mappings suffix st))
      = trace st ++ evs /\
    filter alias_mutating evs = [] /\
    (filter mutating evs = [] \/
     (es_get_alias es (trace st) None name = inl NotFoundError /\
      es_indices_exists es (trace st ++ [GetAlias None name]) name = inr true /\
      es_indices_exists es
        (trace st ++ [GetAlias None name; IndicesExists name])
        (name ++ suffix)%string <> inr true)) /\
    (filter is_delete evs = [] \/
     exists pre last,
       evs = pre ++ [last; IndicesDelete name] /\
       filter is_delete (pre ++ [last]) = [] /\
       success_ground es (trace st ++ pre) last).
Proof.
  set (bare_and_free :=
         es_get_alias es (trace st) None name = inl NotFoundError /\
         es_indices_exists es (trace st ++ [GetAlias None name]) name
           = inr true /\
         es_indices_exists es
           (trace st ++ [GetAlias None name; IndicesExists name])
           (name ++ suffix)%string <> inr true).
  unfold rename_index_if_needed, try_except, bind at 1, request at 1.
  destruct (es_get_alias es (trace st) None name) as [e | b] eqn:Halias.
  2:{ exists [GetAlias None name]. simpl. repeat split; now left. }
  destruct (is_not_found e) eqn:Hnf.
  2:{ exists [GetAlias None name]. simpl. repeat split; now left. }
  assert (e = NotFoundError) by (destruct e; try discriminate; reflexivity).
  subst e. clear Hnf.
  set (st1 := record (GetAlias None name) st).
  unfold bind at 1. rewrite check_index_exists_run.
  set (st2 := record (IndicesExists name) st1).
  destruct (es_indices_exists es (trace st1) name) as [e1 | [|]] eqn:Hindex;
    try (exists [GetAlias None name; IndicesExists name]; simpl;
         rewrite <- app_assoc; repeat split; now left).
  unfold bind at 1. rewrite check_index_exists_run.
  set (st3 := record (IndicesExists (name ++ suffix)) st2).
  assert (T2 : trace st2 = trace st ++ [GetAlias None name; IndicesExists name]).
  { unfold st2, st1. simpl. now rewrite <- app_assoc. }
  assert (Hfree :
            (match es_indices_exists es (trace st2) (name ++ suffix)%string with
             | inr b => b | inl _ => false end) = false ->
            bare_and_free).
  { intros Hf. split; [reflexivity |]. split; [exact Hindex |].
    rewrite <- T2. intros Ht. rewrite Ht in Hf. discriminate. }
  destruct (match es_indices_exists es (trace st2) (name ++ suffix)%string with
            | inr b => b | inl _ => false end).
  { exists [GetAlias None name; IndicesExists name;
            IndicesExists (name ++ suffix)].
    simpl. rewrite <- !app_assoc. repeat split; now left. }
  specialize (Hfree eq_refl).
  unfold bind at 1. rewrite create_new_index_run.
  set (st4 := record (IndicesCreate (name ++ suffix) mappings) st3).
  set (probes := [GetAlias None name; IndicesExists name;
                  IndicesExists (name ++ suffix);
                  IndicesCreate (name ++ suffix) mappings]).
  assert (T4 : trace st4 = trace st ++ probes).
  { unfold st4, st3, st2, st1, probes. simpl. now rewrite <- !app_assoc. }
  assert (Hquiet : exists evs, trace st4 = trace st ++ evs /\
                     filter alias_mutating evs = [] /\
                     (filter mutating evs = [] \/
                      bare_and_free) /\
                     (filter is_delete evs = [] \/
                      exists pre last,
                        evs = pre ++ [last; IndicesDelete name] /\
                        filter is_delete (pre ++ [last]) = [] /\
                        success_ground es (trace st ++ pre) last)).
  { exists probes. split; [exact T4 |]. split; [reflexivity |].
    split; [now right | now left]. }
  destruct (es_indices_create es (trace st3) (name ++ suffix)%string mappings)
    as [e' | u]; [destruct (is_request_error e'); exact Hquiet |].
  clear Hquiet. cbn [negb]. unfold bind at 1.
  destruct (emits_reindex_data_async es fuel name (name ++ suffix)%string st4)
    as (evs5 & T5 & F5).
  pose proof (filter_none _ _ evs5 migration_not_alias_mutating F5) as Ha5.
  pose proof (filter_none _ _ evs5 migration_not_delete F5) as Hd5.
  destruct (reindex_data_async es fuel name (name ++ suffix)%string st4)
    as [o5 st5] eqn:E5.
  cbn [snd] in T5.
  assert (Hmid : exists evs, trace st5 = trace st ++ evs /\
                   filter alias_mutating evs = [] /\
                   (filter mutating evs = [] \/
                    bare_and_free) /\
                   (filter is_delete evs = [] \/
                    exists pre last,
                      evs = pre ++ [last; IndicesDelete name] /\
                      filter is_delete (pre ++ [last]) = [] /\
                      success_ground es (trace st ++ pre) last)).
  { exists (probes ++ evs5). split; [rewrite T5, T4; now rewrite app_assoc |].
    rewrite !filter_app, Ha5, Hd5.
    split; [reflexivity |]. split; [now right | now left]. }
  destruct o5 as [[|] | e5 | c5 |]; try exact Hmid. clear Hmid.
  destruct (migration_success_evidence es fuel name
              (name ++ suffix)%string st4 st5 E5) as (pre & last & Tv & Hv).
  exists (probes ++ evs5 ++ [IndicesDelete name]).
  split; [| split; [| split]].
  - cbn [negb]. unfold request.
    destruct (es_indices_delete es (trace st5) name); cbn [snd trace record];
      rewrite T5, T4; now rewrite <- !app_assoc.
  - rewrite !filter_app, Ha5. reflexivity.
  - now right.
  - right. exists (probes ++ pre), last.
    assert (E : evs5 = pre ++ [last]).
    { apply app_inv_head with (l := trace st4). now rewrite <- T5, Tv. }
    split; [| split].
    + rewrite E. now rewrite <- !app_assoc.
    + rewrite <- app_assoc, filter_app, <- E, Hd5. reflexivity.
    + rewrite app_assoc, <- T4. exact Hv.
Qed.

(** X8: the resolver never sends an alias update, and it deletes nothing
    but [name] itself: a deletion, when there is one, is the last request,
    the only deletion, and comes right after the request on which the
    migration into the suffixed index returned success.  That request is
    either a status query reporting the task completed without error, or
    the count query, when it answered 0 or failed; a failed count is thus
    enough for the index to be deleted. *)
Theorem rename_index_if_needed_deletes_after_success :
  forall (es : Cluster) (fuel : nat) (name : string) (mappings : mapping)
         (suffix : string) (st : State) (evs : list Call),
    trace (snd (rename_index_if_needed es fuel name mappings suffix st))
      = trace st ++ evs ->
    filter alias_mutating evs = [] /\
    (forall i, In (IndicesDelete i) evs ->
       i = name /\
       exists pre last,
         evs = pre ++ [last; IndicesDelete name] /\
         filter is_delete (pre ++ [last]) = [] /\
         success_ground es (trace st ++ pre) last).
Proof.
  intros es fuel name mappings suffix st evs Hevs.
  destruct (rename_index_if_needed_shape es fuel name mappings suffix st)
    as (evs' & T & Ha & _ & Hd).
  assert (evs' = evs).
  { apply app_inv_head with (l := trace st). now rewrite <- T, Hevs. }
  subst evs'. split; [exact Ha |].
  intros i Hin. destruct Hd as [Hnone | (pre & last & E & Hpre & Hv)].
  - exfalso. now apply (In_filter_nil is_delete evs (IndicesDelete i) Hnone).
  - assert (i = name).
    { rewrite E in Hin.
      change (pre ++ [last; IndicesDelete name])
        with (pre ++ [last] ++ [IndicesDelete name]) in Hin.
      rewrite app_assoc in Hin. apply in_app_or in Hin.
      destruct Hin as [Hin | [Hin | []]].
      - exfalso.
        now apply (In_filter_nil is_delete _ (IndicesDelete i) Hpre).
      - now injection Hin. }
    split; [assumption |]. now exists pre, last.
Qed.

Lemma rename_index_if_needed_deletes_after_success_witness :
  "products" = "products" /\
  exists pre last,
    [GetAlias None "products"; IndicesExists "products";
     IndicesExists "products_backup"; IndicesCreate "products_backup" "{}";
     Count "products"; Reindex "products" "products_backup" 1;
     TasksGet "node:1"; IndicesDelete "products"]
    = pre ++ [last; IndicesDelete "products"] /\
    filter is_delete (pre ++ [last]) = [] /\
    success_ground legacy_index (trace start ++ pre) last.
Proof.
  apply (proj2 (rename_index_if_needed_deletes_after_success
                  legacy_index 1 "products" "{}" "_backup" start
                  [GetAlias None "products"; IndicesExists "products";
                   IndicesExists "products_backup";
                   IndicesCreate "products_backup" "{}";
                   Count "products"; Reindex "products" "products_backup" 1;
                   TasksGet "node:1"; IndicesDelete "products"]
                  eq_refl)).
  simpl. tauto.
Defined.

(** X9: the resolver sends a mutating request only when the alias probe
    answers not-found, the name is reported to be an index, and the suffixed
    name is not reported taken (a failed probe of the suffixed name counts
    as free).  In every other case, a failed index probe included, it
    leaves the cluster untouched. *)
Theorem rename_index_if_needed_mutates_only_bare_index :
  forall (es : Cluster) (fuel : nat) (name : string) (mappings : mapping)
         (suffix : string) (st : State) (evs : list Call),
    trace (snd (rename_index_if_needed es fuel name mappings suffix st))
      = trace st ++ evs ->
    filter mutating evs <> [] ->
    es_get_alias es (trace st) None name = inl NotFoundError /\
    es_indices_exists es (trace st ++ [GetAlias None name]) name = inr true /\
    es_indices_exists es (trace st ++ [GetAlias None name; IndicesExists name])
      (name ++ suffix)%string <> inr true.
Proof.
  intros es fuel name mappings suffix st evs Hevs Hmut.
  destruct (rename_index_if_needed_shape es fuel name mappings suffix st)
    as (evs' & T & _ & Hm & _).
  assert (evs' = evs).
  { apply app_inv_head with (l := trace st). now rewrite <- T, Hevs. }
  subst evs'. destruct Hm as [Hnone | Hcond]; [contradiction | exact Hcond].
Qed.

Lemma rename_index_if_needed_mutates_only_bare_index_witness :
  es_get_alias legacy_index (trace start) None "products" = inl NotFoundError /\
  es_indices_exists legacy_index (trace start ++ [GetAlias None "products"])
    "products" = inr true /\
  es_indices_exists legacy_index
    (trace start ++ [GetAlias None "products"; IndicesExists "products"])
    "products_backup" <> inr true.
Proof.
  apply (rename_index_if_needed_mutates_only_bare_index legacy_index 1
           "products" "{}" "_backup" start
           [GetAlias None "products"; IndicesExists "products";
            IndicesExists "products_backup";
            IndicesCreate "products_backup" "{}";
            Count "products"; Reindex "products" "products_backup" 1;
            TasksGet "node:1"; IndicesDelete "products"]
           eq_refl).
  simpl. discriminate.
Defined.

(** X10: when the name is a bare index and the suffixed name is reported
    taken, the resolver exits the process with code 1 after its three
    probes, none of which mutates the cluster. *)
Theorem rename_index_if_needed_refuses_taken_name :
  forall (es : Cluster) (fuel : nat) (name : string) (mappings : mapping)
         (suffix : string) (st : State),
    es_get_alias es (trace st) None name = inl NotFoundError ->
    es_indices_exists es (trace st ++ [GetAlias None name]) name = inr true ->
    es_indices_exists es (trace st ++ [GetAlias None name; IndicesExists name])
      (name ++ suffix)%string = inr true ->
    let run := rename_index_if_needed es fuel name mappings suffix st in
    let probes :=
      [GetAlias None name; IndicesExists name;
       IndicesExists (name ++ suffix)%string] in
    fst run = Exit 1 /\
    trace (snd run) = trace st ++ probes /\
    filter mutating probes = [].
Proof.
  intros es fuel name mappings suffix st Halias Hindex Htaken run probes.
  assert (E : run
              = (Exit 1,
                 record (IndicesExists (name ++ suffix))
                   (record (IndicesExists name)
                      (record (GetAlias None name) st)))).
  { unfold run, rename_index_if_needed, try_except, bind at 1, request at 1.
    rewrite Halias. cbn [is_not_found].
    unfold bind at 1. rewrite check_index_exists_run.
    cbn [trace record]. rewrite Hindex.
    unfold bind at 1. rewrite check_index_exists_run.
    cbn [trace record]. rewrite <- app_assoc. cbn [app]. rewrite Htaken.
    reflexivity. }
  rewrite E. simpl. rewrite <- !app_assoc. repeat split.
Qed.

Lemma rename_index_if_needed_refuses_taken_name_witness :
  fst (rename_index_if_needed (bare true 50000 (inr None)) 1 "products" "{}"
         "_backup" start) = Exit 1 /\
  trace (snd (rename_index_if_needed (bare true 50000 (inr None)) 1 "products"
                "{}" "_backup" start))
    = [GetAlias None "products"; IndicesExists "products";
       IndicesExists "products_backup"].
Proof.
  pose proof (rename_index_if_needed_refuses_taken_name
                (bare true 50000 (inr None)) 1 "products" "{}" "_backup" start
                eq_refl eq_refl eq_refl) as H.
  destruct H as (H1 & H2 & _). split; [exact H1 | exact H2].
Defined.

(** *** Further properties of the alias resolution *)

Lemma emits_subscript {V : Type} (allowed : Call -> bool) (d : dict V)
    (k : string) :
  emits allowed (subscript d k).
Proof. unfold subscript. emits_walk. Qed.

#[local] Hint Resolve emits_subscript : emits.

Lemma inspection_not_mutating (c : Call) :
  is_inspection c = true -> mutating c = false.
Proof. now destruct c. Qed.

(** X11: the resolution of the latest index never lets an exception escape
    (a failing query makes it return none), and unless the alias probe
    answers that the alias is absent it only inspects the cluster: alias
    probes, index metadata and statistics, no mutating request. *)
Theorem get_latest_index_by_alias_inspects :
  forall (es es_conn : Cluster) (fuel : nat) (alias_name : string)
         (mappings : mapping) (suffix : string) (st : State),
    let run :=
      get_latest_index_by_alias es es_conn fuel alias_name mappings suffix st in
    (forall e, fst run <> Raise e) /\
    ((exists e, es_exists_alias es_conn (trace st) alias_name = inl e) ->
     run = (Ret None, record (ExistsAlias alias_name) st)) /\
    (es_exists_alias es_conn (trace st) alias_name <> inr false ->
     exists evs,
       trace (snd run) = trace st ++ evs /\
       forallb is_inspection evs = true /\
       filter mutating evs = []).
Proof.
  intros es es_conn fuel alias mappings suffix st run. split; [| split].
  - intros e. unfold run, get_latest_index_by_alias, try_except.
    match goal with |- context [let (_, _) := ?m st in _] =>
      destruct (m st) as [[a | e' | c |] st'] end; simpl; discriminate.
  - intros [e He].
    unfold run, get_latest_index_by_alias, try_except, bind, request.
    now rewrite He.
  - intros Hpresent.
    assert (Hemits :
              es_exists_alias es_conn (trace st) alias <> inr false ->
              exists evs, trace (snd run) = trace st ++ evs /\
                          forallb is_inspection evs = true).
    { clear Hpresent. intros Hpresent.
      unfold run, get_latest_index_by_alias.
      set (found :=
             response <- request (GetAlias (Some "*") alias)
                           (fun h => es_get_alias es_conn h (Some "*") alias) ;;
             match keys response with
             | [] => ret (Some alias)
             | _ :: _ =>
                 index_metadata <-
                   request (IndicesGet (String.concat "," (keys response)))
                     (fun h => es_indices_get es_conn h
                                 (String.concat "," (keys response))) ;;
                 index_creation_times <-
                   creation_times index_metadata (keys response) ;;
                 match sorted_desc index_creation_times with
                 | [] => raise IndexError
                 | (latest_index, _) :: _ =>
                     stats <- request (IndicesStats latest_index)
                                (fun h => es_indices_stats es_conn h
                                            latest_index) ;;
                     subscript stats latest_index ;;;
                     ret (Some latest_index)
                 end
             end).
      assert (Hfound : emits is_inspection found).
      { unfold found, creation_times. emits_walk. }
      unfold try_except, bind at 1, request at 1.
      destruct (es_exists_alias es_conn (trace st) alias) as [e | [|]].
      - exists [ExistsAlias alias]. now split.
      - cbn [negb]. fold found.
        destruct (Hfound (record (ExistsAlias alias) st)) as (evs & T & F).
        exists (ExistsAlias alias :: evs).
        destruct (found (record (ExistsAlias alias) st))
          as [[a | e | c |] st'];
          cbn [snd fst any_exception ret] in *;
          (split; [rewrite T; simpl; now rewrite <- app_assoc | exact F]).
      - congruence. }
    destruct (Hemits Hpresent) as (evs & T & F).
    exists evs. split; [exact T |]. split; [exact F |].
    exact (filter_none _ _ evs inspection_not_mutating F).
Qed.

Lemma get_latest_index_by_alias_inspects_witness :
  exists evs,
    trace (snd (get_latest_index_by_alias three_dated three_dated 10 "products"
                  "{}" "_backup" start))
      = trace start ++ evs /\
    forallb is_inspection evs = true /\
    filter mutating evs = [].
Proof.
  apply (proj2 (proj2 (get_latest_index_by_alias_inspects three_dated
                         three_dated 10 "products" "{}" "_backup" start))).
  simpl. discriminate.
Defined.

Lemma dict_set_fresh {V : Type} (k : string) (v : V) (d : dict V) :
  ~ In k (keys d) -> dict_set k v d = d ++ [(k, v)].
Proof.
  induction d as [| [k' v'] d IH]; intros Hk; [reflexivity |].
  simpl. destruct (String.eqb_spec k k') as [-> | Hne].
  - exfalso. apply Hk. now left.
  - rewrite IH; [reflexivity |]. intros Hin. apply Hk. now right.
Qed.

(** Over distinct names the comprehension is a plain map, in listing
    order. *)
Lemma creation_times_distinct (dates : dict Z) :
  forall (names : list string) (acc : dict Z) (st : State),
    NoDup names ->
    (forall i, In i names -> ~ In i (keys acc)) ->
    (forall i, In i names -> exists t, dict_get i dates = Some t) ->
    for_each names
      (fun idx a => t <- subscript dates idx ;; ret (dict_set idx t a))
      acc st
    = (Ret (acc ++ map (fun i => (i, opt_default 0 (dict_get i dates))) names),
       st).
Proof.
  induction names as [| k names IH]; intros acc st Hnd Hfresh Hall.
  - simpl. unfold ret. now rewrite app_nil_r.
  - inversion Hnd as [| k' names' Hk Hnd']; subst.
    destruct (Hall k (or_introl eq_refl)) as (v & Hv).
    assert (Hb : (t <- subscript dates k ;; ret (dict_set k t acc)) st
                 = (Ret (acc ++ [(k, v)]), st)).
    { unfold bind, subscript. rewrite Hv. unfold ret.
      now rewrite dict_set_fresh by (apply Hfresh; now left). }
    cbn [for_each]. unfold bind at 1. rewrite Hb.
    rewrite IH.
    + cbn [map]. rewrite Hv. cbn [opt_default]. now rewrite <- app_assoc.
    + exact Hnd'.
    + intros i Hi Hin. unfold keys in Hin. rewrite map_app in Hin.
      apply in_app_or in Hin. destruct Hin as [Hin | [<- | []]].
      * apply (Hfresh i); [now right | exact Hin].
      * contradiction.
    + intros i Hi. apply Hall. now right.
Qed.

(** The head of the sorted list is the first item, in the original order,
    that carries the greatest date. *)
Lemma sorted_desc_first_max (items : list (string * Z)) :
  forall h rest,
    sorted_desc items = h :: rest ->
    exists pre post,
      items = pre ++ h :: post /\
      (forall y, In y pre -> snd y < snd h) /\
      (forall y, In y post -> snd y <= snd h).
Proof.
  induction items as [| x items IH]; intros h rest Hs; [discriminate |].
  change (sorted_desc (x :: items)) with (insert_desc x (sorted_desc items))
    in Hs.
  destruct (sorted_desc items) as [| h' rest'] eqn:Es.
  - simpl in Hs. injection Hs as <- <-.
    assert (items = []).
    { destruct items as [| y items']; [reflexivity |].
      destruct (sorted_desc_head (y :: items') ltac:(discriminate))
        as (h0 & r0 & E0 & _). congruence. }
    subst items. exists [], []. repeat split; intros y [].
  - destruct (IH h' rest' eq_refl) as (pre & post & E & Hpre & Hpost).
    simpl in Hs. destruct (Z.ltb_spec (snd x) (snd h')) as [Hlt | Hge].
    + injection Hs as <- <-. exists (x :: pre), post. split; [| split].
      * rewrite E. reflexivity.
      * intros y [<- | Hy]; [exact Hlt | now apply Hpre].
      * exact Hpost.
    + injection Hs as <- <-. exists [], items. split; [reflexivity |].
      split; [intros y [] |].
      intros y Hy. rewrite E in Hy. apply in_app_or in Hy.
      destruct Hy as [Hy | [<- | Hy]].
      * specialize (Hpre y Hy). lia.
      * exact Hge.
      * specialize (Hpost y Hy). lia.
Qed.

(** X12: when the alias is bound to distinct indexes whose metadata and
    statistics can be read, the index returned is the first one, in the
    order of the alias listing, that carries the greatest creation date:
    every index listed before it is strictly older, and none listed after
    it is younger. *)
Theorem get_latest_index_by_alias_first_of_latest :
  forall (es es_conn : Cluster) (fuel : nat) (alias_name : string)
         (mappings : mapping) (suffix : string) (st : State)
         (response : dict unit) (dates : dict Z),
    let h1 := trace st ++ [ExistsAlias alias_name] in
    let h2 := h1 ++ [GetAlias (Some "*") alias_name] in
    let joined := String.concat "," (keys response) in
    let date := fun i => opt_default 0 (dict_get i dates) in
    es_exists_alias es_conn (trace st) alias_name = inr true ->
    es_get_alias es_conn h1 (Some "*") alias_name = inr response ->
    keys response <> [] ->
    NoDup (keys response) ->
    es_indices_get es_conn h2 joined = inr dates ->
    (forall i, In i (keys response) -> exists t, dict_get i dates = Some t) ->
    (forall i, In i (keys response) ->
       exists counts c,
         es_indices_stats es_conn (h2 ++ [IndicesGet joined]) i = inr counts /\
         dict_get i counts = Some c) ->
    exists pre latest post,
      keys response = pre ++ latest :: post /\
      fst (get_latest_index_by_alias es es_conn fuel alias_name mappings suffix
             st) = Ret (Some latest) /\
      (forall i, In i pre -> date i < date latest) /\
      (forall i, In i post -> date i <= date latest).
Proof.
  intros es es_conn fuel alias mappings suffix st response dates h1 h2 joined
    date Hexists Hget Hsome Hnd Hmeta Hdates Hstats.
  set (d := map (fun i => (i, date i)) (keys response)).
  assert (Ed : forall s, creation_times dates (keys response) s = (Ret d, s)).
  { intros s. unfold creation_times.
    rewrite (creation_times_distinct dates (keys response) [] s Hnd);
      [reflexivity | intros i _ [] | exact Hdates]. }
  assert (Hdne : d <> []).
  { unfold d. destruct (keys response); [congruence | discriminate]. }
  destruct (sorted_desc_head d Hdne) as ([latest t] & rest & Es & _ & _).
  destruct (sorted_desc_first_max d (latest, t) rest Es)
    as (pre & post & E & Hpre & Hpost).
  assert (Hsplit : keys response = map fst pre ++ latest :: map fst post).
  { assert (Hk : map fst d = keys response).
    { unfold d. rewrite map_map. simpl. apply map_id. }
    rewrite <- Hk, E, map_app. reflexivity. }
  assert (Hval : forall y, In y d -> snd y = date (fst y)).
  { intros y Hy. unfold d in Hy. apply in_map_iff in Hy.
    destruct Hy as (i & <- & _). reflexivity. }
  assert (Ht : t = date latest).
  { apply (Hval (latest, t)). rewrite E. apply in_or_app. right. now left. }
  assert (Hbound : In latest (keys response)).
  { rewrite Hsplit. apply in_or_app. right. now left. }
  destruct (Hstats latest Hbound) as (counts & c & Hst & Hc).
  exists (map fst pre), latest, (map fst post).
  split; [exact Hsplit |]. split; [| split].
  - subst joined h2 h1.
    unfold get_latest_index_by_alias, try_except, bind at 1, request at 1.
    rewrite Hexists. cbn [negb]. unfold bind at 1, request at 1.
    cbn [trace record]. rewrite Hget.
    destruct (keys response) as [| k ks] eqn:Hk; [congruence |].
    unfold bind at 1, request at 1.
    cbn [trace record]. rewrite Hmeta.
    unfold bind at 1. rewrite Ed, Es.
    unfold bind at 1, request at 1. cbn [trace record].
    rewrite Hst.
    unfold bind, subscript. rewrite Hc. reflexivity.
  - intros i Hi. apply in_map_iff in Hi. destruct Hi as (y & <- & Hy).
    rewrite <- Ht, <- (Hval y).
    + exact (Hpre y Hy).
    + rewrite E. apply in_or_app. now left.
  - intros i Hi. apply in_map_iff in Hi. destruct Hi as (y & <- & Hy).
    rewrite <- Ht, <- (Hval y).
    + exact (Hpost y Hy).
    + rewrite E. apply in_or_app. right. now right.
Qed.

Lemma get_latest_index_by_alias_first_of_latest_witness :
  exists pre latest post,
    ["products_a"; "products_b"; "products_c"] = pre ++ latest :: post /\
    fst (get_latest_index_by_alias tied tied 10 "products" "{}" "_backup" start)
      = Ret (Some latest) /\
    (forall i, In i pre ->
       opt_default 0
         (dict_get i [("products_a", 5); ("products_b", 9); ("products_c", 9)])
       < opt_default 0
           (dict_get latest
              [("products_a", 5); ("products_b", 9); ("products_c", 9)])) /\
    (forall i, In i post ->
       opt_default 0
         (dict_get i [("products_a", 5); ("products_b", 9); ("products_c", 9)])
       <= opt_default 0
            (dict_get latest
               [("products_a", 5); ("products_b", 9); ("products_c", 9)])).
Proof.
  refine (get_latest_index_by_alias_first_of_latest tied tied 10 "products"
            "{}" "_backup" start
            [("products_a", tt); ("products_b", tt); ("products_c", tt)]
            [("products_a", 5); ("products_b", 9); ("products_c", 9)]
            eq_refl eq_refl _ _ eq_refl _ _).
  - discriminate.
  - repeat constructor; simpl; intuition discriminate.
  - intros i [<- | [<- | [<- | []]]]; eexists; reflexivity.
  - intros i [<- | [<- | [<- | []]]]; eexists; eexists; split; reflexivity.
Defined.

(** Of two indexes created at the same instant the one listed first wins. *)
Example get_latest_index_by_alias_tied :
  fst (get_latest_index_by_alias tied tied 10 "products" "{}" "_backup" start)
  = Ret (Some "products_b").
Proof. reflexivity. Qed.

(** *** Further properties of the cutover *)

(** X13: a failure of the alias read other than not-found is not handled by
    the cutover: the exception escapes and no alias update is sent, so the
    bindings stay as they were. *)
Theorem update_alias_to_new_index_read_failure_escapes :
  forall (es : Cluster) (alias new_index : string) (st : State) (e : exn),
    es_get_alias es (trace st) None alias = inl e ->
    e <> NotFoundError ->
    let run := update_alias_to_new_index es alias new_index st in
    fst run = Raise e /\
    trace (snd run) = trace st ++ [GetAlias None alias] /\
    forall bound,
      observed es alias (trace st) bound [GetAlias None alias] = [bound].
Proof.
  intros es alias new_index st e He Hne run.
  assert (Hnf : is_not_found e = false) by (destruct e; simpl; congruence).
  unfold run. rewrite (update_alias_read_failure es alias new_index st e He Hnf).
  repeat split.
Qed.

Lemma update_alias_to_new_index_read_failure_escapes_witness :
  fst (update_alias_to_new_index unreachable "products" "products_v2" start)
    = Raise ConnectionError /\
  trace (snd (update_alias_to_new_index unreachable "products" "products_v2"
                start))
    = [GetAlias None "products"].
Proof.
  pose proof (update_alias_to_new_index_read_failure_escapes unreachable
                "products" "products_v2" start ConnectionError eq_refl
                ltac:(discriminate)) as H.
  destruct H as (H1 & H2 & _). split; [exact H1 | exact H2].
Defined.

(** *** Properties of [main] *)

Lemma emits_migration_no_alias (es : Cluster) (fuel : nat)
    (source dest : string) :
  emits not_alias_mutating (reindex_data_async es fuel source dest).
Proof.
  apply (emits_weaken is_migration); [| apply emits_reindex_data_async].
  intros c Hc. now destruct c.
Qed.

#[local] Hint Resolve emits_migration_no_alias : emits.

Lemma emits_rename_no_alias (es : Cluster) (fuel : nat) (name : string)
    (mappings : mapping) (suffix : string) :
  emits not_alias_mutating
    (rename_index_if_needed es fuel name mappings suffix).
Proof.
  unfold rename_index_if_needed, check_index_exists, create_new_index.
  emits_walk.
Qed.

#[local] Hint Resolve emits_rename_no_alias : emits.

Lemma emits_get_latest_no_alias (es es_conn : Cluster) (fuel : nat)
    (alias_name : string) (mappings : mapping) (suffix : string) :
  emits not_alias_mutating
    (get_latest_index_by_alias es es_conn fuel alias_name mappings suffix).
Proof.
  unfold get_latest_index_by_alias, creation_times. emits_walk.
Qed.

#[local] Hint Resolve emits_get_latest_no_alias : emits.

Lemma emits_choose_old_index (es : Cluster) (fuel : nat) (args : Args)
    (alias : string) (mappings : mapping) :
  emits not_alias_mutating (choose_old_index es fuel args alias mappings).
Proof.
  unfold choose_old_index. emits_walk.
Qed.

Lemma choose_old_index_given (es : Cluster) (fuel : nat) (args : Args)
    (alias : string) (mappings : mapping) (st : State) :
  given (arg_old_index args) = true ->
  choose_old_index es fuel args alias mappings st
  = (Ret (opt_default EmptyString (arg_old_index args)), st).
Proof.
  intros H. unfold choose_old_index. now rewrite H.
Qed.

(** The steps of [main] before the first request leave the state alone and
    end with a value or with exit code 1. *)
Lemma choose_mapping_source_pure (host : Host) (args : Args) (st : State) :
  choose_mapping_source host args st = (Exit 1, st) \/
  exists chosen, choose_mapping_source host args st = (Ret chosen, st).
Proof.
  unfold choose_mapping_source.
  destruct (given (arg_mapping_file_path args)).
  - destruct (os_path_exists host _); simpl; [right; eexists; reflexivity | now left].
  - destruct (given (arg_mapping args)).
    + destruct (json_loads host _); [now left | right; eexists; reflexivity].
    + destruct (os_path_exists host _); simpl; [right; eexists; reflexivity | now left].
Qed.

Lemma load_mapping_pure (host : Host) (alias : string)
    (chosen : option mapping * option string) (st : State) :
  load_mapping host alias chosen st = (Exit 1, st) \/
  exists m, load_mapping host alias chosen st = (Ret m, st).
Proof.
  unfold load_mapping. destruct (fst chosen); [right; eexists; reflexivity |].
  destruct (read_mapping_from_file host (snd chosen)) as [[| entry mappings] |];
    try now left.
  destruct (dict_get "mappings" _); [right; eexists; reflexivity | now left].
Qed.

Lemma delete_old_index_run (es : Cluster) (old_index : string) (st : State) :
  delete_old_index es old_index st
  = (Ret (match es_indices_delete es (trace st) old_index with
          | inr _ => true
          | inl _ => false
          end),
     record (IndicesDelete old_index) st).
Proof.
  unfold delete_old_index, bind, try_excepts, request.
  destruct (es_indices_delete es (trace st) old_index) as [e | u];
    [| reflexivity].
  now destruct e.
Qed.

(** What the cutover does, by the answer to its read and to its update. *)
Lemma update_alias_run (es : Cluster) (alias new_index : string) (st : State) :
  match current_bindings es (trace st) alias with
  | Some old =>
      update_alias_to_new_index es alias new_index st
      = (Ret (match es_update_aliases es (trace st ++ [GetAlias None alias])
                      (cutover_actions old alias new_index) with
              | inr _ => true
              | inl _ => false
              end),
         record (UpdateAliases (cutover_actions old alias new_index))
           (record (GetAlias None alias) st))
  | None =>
      exists e,
        update_alias_to_new_index es alias new_index st
        = (Raise e, record (GetAlias None alias) st)
  end.
Proof.
  unfold current_bindings, update_alias_to_new_index, bind, try_except, request.
  destruct (es_get_alias es (trace st) None alias) as [e | existing].
  - destruct e; try (eexists; reflexivity); simpl;
      destruct (es_update_aliases es _ _); reflexivity.
  - simpl. destruct (es_update_aliases es _ _); reflexivity.
Qed.

(** With a poll interval that is not negative the loop ends with a verdict
    or runs out of budget; it neither raises nor exits. *)
Lemma track_loop_outcome (es : Cluster) (task_id : string) (timeout p : Z) :
  0 <= p ->
  forall (fuel : nat) (elapsed : Z) (st : State),
    match fst (track_loop es fuel task_id timeout p elapsed st) with
    | Ret _ | Diverge => True
    | _ => False
    end.
Proof.
  intros Hp. induction fuel as [| fuel IH]; intros elapsed st;
    cbn [track_loop]; destruct (elapsed <? timeout); try exact I.
  unfold bind at 1.
  destruct (es_tasks_get es (trace st) task_id) as [e | r] eqn:Hget.
  - now rewrite (poll_once_error es task_id st e Hget).
  - destruct (completed r) eqn:Hc.
    + now rewrite (poll_once_completed es task_id st r Hget Hc).
    + destruct (poll_once_running es task_id st r Hget Hc) as (st1 & E1 & _).
      rewrite E1. unfold bind, sleep.
      rewrite (proj2 (Z.ltb_ge p 0) Hp). apply IH.
Qed.

(** The migration ends with a boolean or runs out of budget; it neither
    raises nor exits. *)
Lemma migration_outcome (es : Cluster) (fuel : nat) (source dest : string)
    (st : State) :
  match fst (reindex_data_async es fuel source dest st) with
  | Ret _ | Diverge => True
  | _ => False
  end.
Proof.
  unfold reindex_data_async, bind at 1. rewrite get_doc_count_run.
  set (n := match es_count es (trace st) source with
            | inr n => n | inl _ => 0 end).
  destruct (n =? 0); [exact I |].
  destruct (Z_lt_le_dec n 100000000) as [Hunder | Hover].
  2:{ now rewrite (proj2 (proj2 (proj2 (proj2 (proj2 (estimate_rows n)))))
                     Hover). }
  pose proof (estimate_polls n Hunder) as Hpolls.
  destruct (estimate_reindex_params n) as [[slices timeout] p].
  destruct Hpolls as (_ & Hp & _).
  destruct (slices =? 0); [exact I |].
  unfold bind at 1. rewrite start_reindex_async_run.
  destruct (no_task_id _); [exact I |].
  apply track_loop_outcome. lia.
Qed.

(** The shape of the cluster steps of [main]: either the alias is never
    touched, nothing is deleted and the exit code is not 0; or the single
    alias update comes right after the request on which the migration
    returned success and the read of the bindings, and is followed at most
    by the deletion of the old index. *)
Lemma migrate_and_switch_shape (es : Cluster) (fuel : nat) (delete_old : bool)
    (alias old_index new_index : string) (mappings : mapping) (st : State) :
  let run :=
    migrate_and_switch es fuel delete_old alias old_index new_index mappings
      st in
  exists evs,
    trace (snd run) = trace st ++ evs /\
    ((filter alias_mutating evs = [] /\ filter is_delete evs = [] /\
      fst run <> Exit 0) \/
     exists pre last bound post,
       let acts := cutover_actions bound alias new_index in
       let h := trace st ++ pre ++ [last; GetAlias None alias] in
       evs = pre ++ [last; GetAlias None alias; UpdateAliases acts] ++ post /\
       filter alias_mutating pre = [] /\
       filter is_delete pre = [] /\
       success_ground es (trace st ++ pre) last /\
       current_bindings es (trace st ++ pre ++ [last]) alias = Some bound /\
       (((exists e, es_update_aliases es h acts = inl e) /\
         post = [] /\ fst run = Exit 1) \/
        (es_update_aliases es h acts = inr tt /\
         ((post = [] /\ delete_old && given (Some old_index) = false /\
           fst run = Exit 0) \/
          (post = [IndicesDelete old_index] /\ delete_old = true /\
           fst run
           = Exit (match es_indices_delete es (h ++ [UpdateAliases acts])
                           old_index with
                   | inr _ => 0
                   | inl _ => 1
                   end)))))).
Proof.
  intros run. subst run.
  destruct (migrate_and_switch es fuel delete_old alias old_index new_index
              mappings st) as [o st'] eqn:Erun.
  cbn [fst snd].
  unfold migrate_and_switch, bind at 1 in Erun.
  rewrite create_new_index_run in Erun.
  set (st1 := record (IndicesCreate new_index mappings) st) in *.
  set (creation := IndicesCreate new_index mappings) in *.
  assert (T1 : trace st1 = trace st ++ [creation]) by reflexivity.
  destruct (es_indices_create es (trace st) new_index mappings) as [e | u].
  { exists [creation].
    destruct (is_request_error e); injection Erun as <- <-;
      (split; [exact T1 |]); left; repeat split; discriminate. }
  cbn [negb] in Erun. unfold bind at 1 in Erun.
  destruct (emits_reindex_data_async es fuel old_index new_index st1)
    as (evs2 & T2 & F2).
  pose proof (filter_none _ _ evs2 migration_not_alias_mutating F2) as Ha2.
  pose proof (filter_none _ _ evs2 migration_not_delete F2) as Hd2.
  destruct (reindex_data_async es fuel old_index new_index st1)
    as [o2 st2] eqn:E2.
  cbn [snd] in T2.
  assert (T2' : trace st2 = trace st ++ creation :: evs2).
  { rewrite T2, T1, <- app_assoc. reflexivity. }
  assert (Hquiet : filter alias_mutating (creation :: evs2) = [] /\
                   filter is_delete (creation :: evs2) = []).
  { simpl. now split. }
  pose proof (migration_outcome es fuel old_index new_index st1) as Ho2.
  rewrite E2 in Ho2. cbn [fst] in Ho2.
  destruct o2 as [[|] | e2 | c2 |]; try contradiction;
    try (cbn [negb] in Erun; unfold sys_exit in Erun;
         injection Erun as <- <-; exists (creation :: evs2);
         split; [exact T2' |]; left;
         split; [apply Hquiet |]; split; [apply Hquiet | discriminate]).
  cbn [negb] in Erun.
  destruct (migration_success_evidence es fuel old_index new_index st1 st2 E2)
    as (pre2 & last & Tv & Hv).
  assert (Eevs : evs2 = pre2 ++ [last]).
  { apply app_inv_head with (l := trace st1). now rewrite <- T2, Tv. }
  set (pre := creation :: pre2).
  assert (Tpre : trace st2 = trace st ++ pre ++ [last]).
  { rewrite T2', Eevs. reflexivity. }
  assert (Hpre : filter alias_mutating pre = [] /\ filter is_delete pre = []).
  { rewrite Eevs in Ha2, Hd2. rewrite filter_app in Ha2, Hd2.
    apply app_eq_nil in Ha2, Hd2. unfold pre. simpl. now split. }
  assert (Hlast : alias_mutating last = false /\ is_delete last = false).
  { destruct last; try contradiction; now split. }
  assert (Hv' : success_ground es (trace st ++ pre) last).
  { unfold pre. change (trace st ++ creation :: pre2)
      with (trace st ++ [creation] ++ pre2).
    rewrite app_assoc, <- T1. exact Hv. }
  unfold bind at 1 in Erun.
  pose proof (update_alias_run es alias new_index st2) as Hup.
  destruct (current_bindings es (trace st2) alias) as [bound |] eqn:Hb.
  2:{ destruct Hup as (e & Hup). rewrite Hup in Erun.
      injection Erun as <- <-.
      exists (pre ++ [last; GetAlias None alias]). split.
      - cbn [trace record]. rewrite Tpre, <- !app_assoc. reflexivity.
      - left. rewrite !filter_app. destruct Hpre as [-> ->].
        destruct Hlast as [Hl1 Hl2]. simpl. rewrite Hl1, Hl2.
        repeat split; discriminate. }
  rewrite Hup in Erun. clear Hup.
  set (acts := cutover_actions bound alias new_index) in *.
  set (st3 := record (GetAlias None alias) st2) in *.
  set (st4 := record (UpdateAliases acts) st3) in *.
  assert (T3 : trace st3 = trace st ++ pre ++ [last; GetAlias None alias]).
  { unfold st3. cbn [trace record]. rewrite Tpre, <- !app_assoc. reflexivity. }
  assert (T4 : trace st4
               = trace st
                 ++ pre ++ [last; GetAlias None alias; UpdateAliases acts]).
  { unfold st4. cbn [trace record]. rewrite T3, <- !app_assoc. reflexivity. }
  change (trace st2 ++ [GetAlias None alias]) with (trace st3) in Erun.
  destruct (es_update_aliases es (trace st3) acts) as [e | []] eqn:Hacc.
  { cbn [negb] in Erun. injection Erun as <- <-.
    exists (pre ++ [last; GetAlias None alias; UpdateAliases acts]).
    split; [exact T4 |]. right. exists pre, last, bound, [].
    cbv zeta. fold acts. rewrite <- T3, <- Tpre, Hacc, app_nil_r.
    split; [reflexivity |]. split; [apply Hpre |]. split; [apply Hpre |].
    split; [exact Hv' |]. split; [exact Hb |].
    left. split; [now exists e |]. now split. }
  cbn [negb] in Erun. unfold bind at 1 in Erun.
  destruct (delete_old && given (Some old_index)) eqn:Hdel.
  - unfold bind at 1 in Erun. rewrite delete_old_index_run in Erun.
    exists (pre ++ [last; GetAlias None alias; UpdateAliases acts]
              ++ [IndicesDelete old_index]).
    assert (T5 : trace (record (IndicesDelete old_index) st4)
                 = trace st
                   ++ pre ++ [last; GetAlias None alias; UpdateAliases acts]
                   ++ [IndicesDelete old_index]).
    { cbn [trace record]. rewrite T4, <- !app_assoc. reflexivity. }
    split.
    { destruct (es_indices_delete es (trace st4) old_index);
        injection Erun as <- <-; exact T5. }
    right. exists pre, last, bound, [IndicesDelete old_index].
    cbv zeta. fold acts. rewrite <- T3, <- Tpre, Hacc.
    split; [reflexivity |]. split; [apply Hpre |]. split; [apply Hpre |].
    split; [exact Hv' |]. split; [exact Hb |].
    right. split; [reflexivity |]. right. split; [reflexivity |].
    split; [now destruct delete_old |].
    change (trace st3 ++ [UpdateAliases acts]) with (trace st4).
    destruct (es_indices_delete es (trace st4) old_index);
      now injection Erun as <- <-.
  - injection Erun as <- <-.
    exists (pre ++ [last; GetAlias None alias; UpdateAliases acts]).
    split; [exact T4 |]. right. exists pre, last, bound, [].
    cbv zeta. fold acts. rewrite <- T3, <- Tpre, Hacc, app_nil_r.
    split; [reflexivity |]. split; [apply Hpre |]. split; [apply Hpre |].
    split; [exact Hv' |]. split; [exact Hb |].
    right. split; [reflexivity |]. left. now repeat split.
Qed.

(** *** How each function may end *)

Lemma ends_bind {A B : Type} (ok : outcome unit -> bool) (m : M A)
    (f : A -> M B) :
  ends_within ok m -> (forall a, ends_within ok (f a)) ->
  ends_within ok (bind m f).
Proof.
  intros Hm Hf st. unfold bind. specialize (Hm st).
  destruct (m st) as [[a | e | c |] st1]; try exact Hm. apply Hf.
Qed.

Lemma ends_try_any {A : Type} (x r d : bool) (m : M A) (h : exn -> M A) :
  ends_within (calm x true d) m ->
  (forall e, ends_within (calm x r d) (h e)) ->
  ends_within (calm x r d) (try_except m any_exception h).
Proof.
  intros Hm Hh st. unfold try_except. specialize (Hm st).
  destruct (m st) as [[a | e | c |] st1]; try exact Hm.
  apply Hh.
Qed.

Lemma ends_try_some {A : Type} (x d : bool) (m : M A) (handles : exn -> bool)
    (h : exn -> M A) :
  ends_within (calm x true d) m ->
  (forall e, ends_within (calm x true d) (h e)) ->
  ends_within (calm x true d) (try_except m handles h).
Proof.
  intros Hm Hh st. unfold try_except. specialize (Hm st).
  destruct (m st) as [[a | e | c |] st1]; try exact Hm.
  destruct (handles e); [apply Hh | reflexivity].
Qed.

Lemma ends_ret {A : Type} (x r d : bool) (a : A) :
  ends_within (calm x r d) (ret a).
Proof. now intros st. Qed.

Lemma ends_raise {A : Type} (x d : bool) (e : exn) :
  ends_within (calm x true d) (@raise A e).
Proof. now intros st. Qed.

Lemma ends_sys_exit_1 {A : Type} (x r d : bool) :
  ends_within (calm x r d) (@sys_exit A 1).
Proof. now intros st. Qed.

Lemma ends_sys_exit_0 {A : Type} (r d : bool) :
  ends_within (calm true r d) (@sys_exit A 0).
Proof. now intros st. Qed.

Lemma ends_request {A : Type} (x d : bool) (c : Call)
    (ans : History -> answer A) :
  ends_within (calm x true d) (request c ans).
Proof. intros st. unfold request. now destruct (ans (trace st)). Qed.

Lemma ends_for_each {A S : Type} (ok : outcome unit -> bool)
    (body : A -> S -> M S) :
  ok (Ret tt) = true ->
  (forall a s, ends_within ok (body a s)) ->
  forall xs s, ends_within ok (for_each xs body s).
Proof.
  intros Hok Hbody xs. induction xs as [| x xs IH]; intros s; simpl.
  - intros st. exact Hok.
  - apply ends_bind; [apply Hbody | intros s'; apply IH].
Qed.

Lemma ends_weaken {A : Type} (x r d x' r' d' : bool) (m : M A) :
  (x = true -> x' = true) -> (r = true -> r' = true) ->
  (d = true -> d' = true) ->
  ends_within (calm x r d) m -> ends_within (calm x' r' d') m.
Proof.
  intros Hx Hr Hd Hm st. specialize (Hm st).
  destruct (ending (fst (m st))) as [[] | e | c |]; simpl in *; auto.
  apply orb_true_iff in Hm. apply orb_true_iff.
  destruct Hm as [Hm | Hm]; [now left | right].
  apply andb_true_iff in Hm. destruct Hm as [Hm1 Hm2].
  now rewrite (Hx Hm1), Hm2.
Qed.

Create HintDb ends.

#[local] Hint Resolve ends_ret ends_raise ends_sys_exit_1 ends_sys_exit_0
  ends_request : ends.

(** Walk down a computation to bound how it may end. *)
Ltac ends_walk :=
  repeat first
    [ progress auto with ends
    | apply ends_bind; [| intros ?]
    | match goal with
      | |- ends_within _ (try_except _ any_exception _) =>
          apply ends_try_any; [| intros ?]
      | |- ends_within _ (try_except _ _ _) =>
          apply ends_try_some; [| intros ?]
      end
    | apply ends_for_each; [reflexivity | intros ? ?]
    | match goal with
      | |- ends_within _ (if ?b then _ else _) => destruct b
      | |- ends_within _ (match ?x with _ => _ end) => destruct x
      | |- ends_within _ (let (_, _) := ?x in _) => destruct x
      end ].

Lemma ends_check_index_exists (es : Cluster) (x r d : bool) (i : string) :
  ends_within (calm x r d) (check_index_exists es i).
Proof. intros st. now rewrite check_index_exists_run. Qed.

Lemma ends_create_new_index (es : Cluster) (x d : bool) (i : string)
    (m : mapping) :
  ends_within (calm x true d) (create_new_index es i m).
Proof. unfold create_new_index. ends_walk. Qed.

Lemma ends_delete_old_index (es : Cluster) (x r d : bool) (i : string) :
  ends_within (calm x r d) (delete_old_index es i).
Proof. intros st. now rewrite delete_old_index_run. Qed.

Lemma ends_update_alias (es : Cluster) (x d : bool) (alias new_index : string) :
  ends_within (calm x true d) (update_alias_to_new_index es alias new_index).
Proof. unfold update_alias_to_new_index. ends_walk. Qed.

Lemma ends_migration (es : Cluster) (fuel : nat) (x r : bool)
    (source dest : string) :
  ends_within (calm x r (fuel <? 240)%nat)
    (reindex_data_async es fuel source dest).
Proof.
  intros st. destruct (Nat.ltb_spec fuel 240) as [Hlow | Hhigh].
  - pose proof (migration_outcome es fuel source dest st) as H.
    now destruct (fst (reindex_data_async es fuel source dest st)).
  - destruct (migration_total es fuel source dest st Hhigh)
      as (b & st' & evs & E & _).
    now rewrite E.
Qed.

#[local] Hint Resolve ends_check_index_exists ends_create_new_index
  ends_delete_old_index ends_update_alias ends_migration : ends.

Lemma ends_rename (es : Cluster) (fuel : nat) (x : bool) (name : string)
    (mappings : mapping) (suffix : string) :
  ends_within (calm x true (fuel <? 240)%nat)
    (rename_index_if_needed es fuel name mappings suffix).
Proof. unfold rename_index_if_needed. ends_walk. Qed.

#[local] Hint Resolve ends_rename : ends.

Lemma ends_subscript {V : Type} (x d : bool) (dct : dict V) (k : string) :
  ends_within (calm x true d) (subscript dct k).
Proof. unfold subscript. ends_walk. Qed.

#[local] Hint Resolve ends_subscript : ends.

Lemma ends_get_latest (es es_conn : Cluster) (fuel : nat) (x r : bool)
    (alias_name : string) (mappings : mapping) (suffix : string) :
  ends_within (calm x r (fuel <? 240)%nat)
    (get_latest_index_by_alias es es_conn fuel alias_name mappings suffix).
Proof. unfold get_latest_index_by_alias, creation_times. ends_walk. Qed.

#[local] Hint Resolve ends_get_latest : ends.

Lemma ends_choose_old_index (es : Cluster) (fuel : nat) (x r : bool)
    (args : Args) (alias : string) (mappings : mapping) :
  ends_within (calm x r (fuel <? 240)%nat)
    (choose_old_index es fuel args alias mappings).
Proof. unfold choose_old_index. ends_walk. Qed.

Lemma ends_migrate_and_switch (es : Cluster) (fuel : nat) (delete_old : bool)
    (alias old_index new_index : string) (mappings : mapping) :
  ends_within (calm true true (fuel <? 240)%nat)
    (migrate_and_switch es fuel delete_old alias old_index new_index mappings).
Proof. unfold migrate_and_switch. ends_walk. Qed.

Lemma never_returns_bind {A B : Type} (m : M A) (f : A -> M B) :
  (forall a, never_returns (f a)) -> never_returns (bind m f).
Proof.
  intros Hf st b. unfold bind.
  destruct (m st) as [[a | e | c |] st1]; try discriminate. apply Hf.
Qed.

Lemma never_returns_sys_exit {A : Type} (code : Z) :
  never_returns (@sys_exit A code).
Proof. intros st a. discriminate. Qed.

Lemma never_returns_migrate_and_switch (es : Cluster) (fuel : nat)
    (delete_old : bool) (alias old_index new_index : string)
    (mappings : mapping) :
  never_returns
    (migrate_and_switch es fuel delete_old alias old_index new_index mappings).
Proof.
  unfold migrate_and_switch.
  repeat first
    [ apply never_returns_sys_exit
    | apply never_returns_bind; intros ?
    | match goal with
      | |- never_returns (if ?b then _ else _) => destruct b
      end ].
Qed.

Lemma never_returns_main_parsed (es : Cluster) (host : Host) (fuel : nat)
    (args : Args) :
  never_returns (main_parsed es host fuel args).
Proof.
  unfold main_parsed. destruct (negb (given (arg_alias args)));
    [apply never_returns_sys_exit |].
  do 3 (apply never_returns_bind; intros ?).
  apply never_returns_migrate_and_switch.
Qed.

(** A run of [main] either ends before the cluster steps, with an exit code
    other than 0 and without having touched an alias, or is the run of the
    cluster steps from the state the resolution of the old index left. *)
Lemma main_decompose (es : Cluster) (host : Host) (fuel : nat) (args : Args)
    (st : State) :
  let alias := opt_default EmptyString (arg_alias args) in
  (exists o st0 evs0,
      main_parsed es host fuel args st = (o, st0) /\
      trace st0 = trace st ++ evs0 /\
      forallb not_alias_mutating evs0 = true /\
      o <> Exit 0 /\
      (given (arg_old_index args) = true -> evs0 = [])) \/
  (exists mappings old_index st0 evs0,
      trace st0 = trace st ++ evs0 /\
      forallb not_alias_mutating evs0 = true /\
      (given (arg_old_index args) = true ->
       evs0 = [] /\
       old_index = opt_default EmptyString (arg_old_index args)) /\
      main_parsed es host fuel args st
      = migrate_and_switch es fuel (arg_delete_old args) alias old_index
          (choose_new_index host args alias) mappings st0).
Proof.
  intros alias.
  assert (Hstop : exists o st0 evs0,
             (@Exit unit 1, st) = (o, st0) /\
             trace st0 = trace st ++ evs0 /\
             forallb not_alias_mutating evs0 = true /\
             o <> Exit 0 /\
             (given (arg_old_index args) = true -> evs0 = [])).
  { exists (Exit 1), st, []. rewrite app_nil_r.
    repeat split; discriminate. }
  remember (main_parsed es host fuel args st) as r eqn:Er.
  unfold main_parsed in Er.
  destruct (negb (given (arg_alias args)));
    [left; rewrite Er; exact Hstop |].
  fold alias in Er. unfold bind at 1 in Er.
  destruct (choose_mapping_source_pure host args st) as [E | (chosen & E)];
    rewrite E in Er; [left; rewrite Er; exact Hstop |].
  unfold bind at 1 in Er.
  destruct (load_mapping_pure host alias chosen st) as [E' | (m & E')];
    rewrite E' in Er; [left; rewrite Er; exact Hstop |].
  unfold bind at 1 in Er.
  destruct (emits_choose_old_index es fuel args alias m st) as (evs0 & T & F).
  pose proof (ends_choose_old_index es fuel false false args alias m st) as Hend.
  assert (Hgiven : given (arg_old_index args) = true ->
                   choose_old_index es fuel args alias m st
                   = (Ret (opt_default EmptyString (arg_old_index args)), st)).
  { apply choose_old_index_given. }
  destruct (choose_old_index es fuel args alias m st) as [o st0].
  cbn [fst snd] in T, Hend.
  assert (Hnil : given (arg_old_index args) = true -> evs0 = []).
  { intros Hg. specialize (Hgiven Hg). injection Hgiven as _ Hst.
    rewrite Hst in T.
    apply app_inv_head with (l := trace st). rewrite app_nil_r. now symmetry. }
  destruct o as [old | e | c |].
  - right. exists m, old, st0, evs0. split; [exact T |]. split; [exact F |].
    split; [| exact Er].
    intros Hg. split; [now apply Hnil |].
    specialize (Hgiven Hg). injection Hgiven as Hold _. exact Hold.
  - discriminate.
  - left. exists (Exit c), st0, evs0. repeat split; try assumption.
    intros Hc. injection Hc as ->. discriminate.
  - left. exists Diverge, st0, evs0. repeat split; try assumption.
    discriminate.
Qed.

Lemma not_alias_mutating_filter (evs : list Call) :
  forallb not_alias_mutating evs = true -> filter alias_mutating evs = [].
Proof.
  apply filter_none. intros c Hc. unfold not_alias_mutating in Hc.
  now destruct (alias_mutating c).
Qed.

(** X14: an alias update, when [main] sends one, comes right after the
    request on which the migration returned success and the read of the
    bindings; it removes exactly the bindings read and adds the new index;
    and it is the only alias-mutating request of the run.  The request on
    which the migration returned success is either a status query reporting
    the task completed without error, or the count query, when it answered
    0 or failed; a failed count is thus enough for the alias to be
    switched. *)
Theorem main_switches_alias_after_success :
  forall (es : Cluster) (host : Host) (fuel : nat) (args : Args) (st : State)
         (evs : list Call) (acts : list AliasAction),
    trace (snd (main es host fuel (Parsed args) st)) = trace st ++ evs ->
    In (UpdateAliases acts) evs ->
    let alias := opt_default EmptyString (arg_alias args) in
    exists pre last bound post,
      evs = pre ++ [last; GetAlias None alias; UpdateAliases acts] ++ post /\
      acts = cutover_actions bound alias (choose_new_index host args alias) /\
      current_bindings es (trace st ++ pre ++ [last]) alias = Some bound /\
      success_ground es (trace st ++ pre) last /\
      filter alias_mutating pre = [] /\
      filter alias_mutating post = [].
Proof.
  intros es host fuel args st evs acts Hevs Hin alias. unfold main in *.
  destruct (main_decompose es host fuel args st)
    as [(o & st0 & evs0 & E & T & F & _) |
        (m & old & st0 & evs0 & T & F & _ & E)].
  - exfalso. rewrite E in Hevs. cbn [snd] in Hevs.
    assert (evs0 = evs).
    { apply app_inv_head with (l := trace st). now rewrite <- T, Hevs. }
    subst evs0.
    now apply (In_filter_nil alias_mutating evs (UpdateAliases acts)
                 (not_alias_mutating_filter evs F)).
  - fold alias in E. rewrite E in Hevs.
    destruct (migrate_and_switch_shape es fuel (arg_delete_old args) alias old
                (choose_new_index host args alias) m st0)
      as (evs1 & T1 & Hshape).
    cbv zeta in T1, Hshape.
    assert (Eevs : evs = evs0 ++ evs1).
    { apply app_inv_head with (l := trace st).
      rewrite <- Hevs, T1, T. now rewrite app_assoc. }
    pose proof (not_alias_mutating_filter evs0 F) as Ha0.
    destruct Hshape as [(Hquiet & _ & _) |
                        (pre & last & bound & post & Es & Hpa & _ & Hv & Hb
                         & Hend)].
    + exfalso. rewrite Eevs in Hin. apply in_app_or in Hin.
      destruct Hin as [Hin | Hin].
      * now apply (In_filter_nil alias_mutating evs0 (UpdateAliases acts) Ha0).
      * now apply (In_filter_nil alias_mutating evs1 (UpdateAliases acts)
                     Hquiet).
    + assert (Hlast : alias_mutating last = false).
      { destruct last; try contradiction; reflexivity. }
      assert (Hpost : filter alias_mutating post = []).
      { destruct Hend as [(_ & -> & _) | (_ & [(-> & _) | (-> & _)])];
          reflexivity. }
      assert (Hacts : acts = cutover_actions bound alias
                                (choose_new_index host args alias)).
      { rewrite Eevs, Es in Hin.
        apply in_app_or in Hin. destruct Hin as [Hin | Hin].
        - exfalso.
          now apply (In_filter_nil alias_mutating evs0 (UpdateAliases acts)
                       Ha0).
        - apply in_app_or in Hin. destruct Hin as [Hin | Hin].
          + exfalso.
            now apply (In_filter_nil alias_mutating pre (UpdateAliases acts)
                         Hpa).
          + apply in_app_or in Hin. destruct Hin as [Hin | Hin].
            * destruct Hin as [Hin | [Hin | [Hin | []]]];
                try discriminate.
              -- subst last. discriminate.
              -- now injection Hin.
            * exfalso.
              now apply (In_filter_nil alias_mutating post
                           (UpdateAliases acts) Hpost). }
      exists (evs0 ++ pre), last, bound, post.
      split; [| split; [exact Hacts | split; [| split; [| split]]]].
      * rewrite Eevs, Es, Hacts. now rewrite <- app_assoc.
      * rewrite <- app_assoc, app_assoc, <- T. exact Hb.
      * rewrite app_assoc, <- T. exact Hv.
      * rewrite filter_app, Ha0, Hpa. reflexivity.
      * exact Hpost.
Qed.

Lemma main_switches_alias_after_success_witness :
  exists pre last bound post,
    [IndicesCreate "products_v2" "{properties}";
     Count "products_v1";
     Reindex "products_v1" "products_v2" 1;
     TasksGet "node:1";
     GetAlias None "products";
     UpdateAliases [ActRemove "products_v1" "products";
                    ActAdd "products_v2" "products" true];
     IndicesDelete "products_v1"]
    = pre ++ [last; GetAlias None "products";
              UpdateAliases [ActRemove "products_v1" "products";
                             ActAdd "products_v2" "products" true]] ++ post /\
    [ActRemove "products_v1" "products"; ActAdd "products_v2" "products" true]
    = cutover_actions bound "products" "products_v2" /\
    current_bindings live_alias (trace start ++ pre ++ [last]) "products"
      = Some bound /\
    success_ground live_alias (trace start ++ pre) last /\
    filter alias_mutating pre = [] /\
    filter alias_mutating post = [].
Proof.
  apply (main_switches_alias_after_success live_alias plain_host 1
           full_args start
           [IndicesCreate "products_v2" "{properties}";
            Count "products_v1";
            Reindex "products_v1" "products_v2" 1;
            TasksGet "node:1";
            GetAlias None "products";
            UpdateAliases [ActRemove "products_v1" "products";
                           ActAdd "products_v2" "products" true];
            IndicesDelete "products_v1"]
           [ActRemove "products_v1" "products";
            ActAdd "products_v2" "products" true]
           eq_refl).
  simpl. tauto.
Defined.




(** X16: with the old index named on the command line, [main] deletes
    nothing unless [--delete_old] is set, and then only the old index, as
    its last request, right after an alias update the cluster accepted. *)
Theorem main_deletes_old_index_last :
  forall (es : Cluster) (host : Host) (fuel : nat) (args : Args) (st : State)
         (evs : list Call) (i : string),
    given (arg_old_index args) = true ->
    trace (snd (main es host fuel (Parsed args) st)) = trace st ++ evs ->
    In (IndicesDelete i) evs ->
    arg_delete_old args = true /\
    i = opt_default EmptyString (arg_old_index args) /\
    exists pre acts,
      evs = pre ++ [UpdateAliases acts; IndicesDelete i] /\
      es_update_aliases es (trace st ++ pre) acts = inr tt /\
      filter is_delete pre = [].
Proof.
  intros es host fuel args st evs i Hgiven Hevs Hin. unfold main in *.
  destruct (main_decompose es host fuel args st)
    as [(o & st0 & evs0 & E & T & _ & _ & Hnil) |
        (m & old & st0 & evs0 & T & _ & Hold & E)].
  { exfalso. rewrite E in Hevs. cbn [snd] in Hevs.
    rewrite (Hnil Hgiven), app_nil_r in T. rewrite T in Hevs.
    assert (evs = []).
    { apply app_inv_head with (l := trace st). now rewrite app_nil_r. }
    subst evs. destruct Hin. }
  destruct (Hold Hgiven) as (-> & ->). rewrite app_nil_r in T.
  rewrite E in Hevs.
  set (alias := opt_default EmptyString (arg_alias args)) in *.
  set (old := opt_default EmptyString (arg_old_index args)) in *.
  destruct (migrate_and_switch_shape es fuel (arg_delete_old args) alias old
              (choose_new_index host args alias) m st0)
    as (evs1 & T1 & Hshape).
  cbv zeta in T1, Hshape. rewrite T in T1, Hshape.
  assert (evs1 = evs).
  { apply app_inv_head with (l := trace st). now rewrite <- T1, Hevs. }
  subst evs1.
  destruct Hshape as [(_ & Hnone & _) |
                      (pre & last & bound & post & Es & _ & Hpd & Hv & _
                       & Hend)].
  { exfalso. now apply (In_filter_nil is_delete evs (IndicesDelete i) Hnone). }
  assert (Hlast : is_delete last = false).
  { destruct last; try contradiction; reflexivity. }
  assert (Hhead : filter is_delete (pre ++ [last; GetAlias None alias]) = []).
  { rewrite filter_app, Hpd. simpl. now rewrite Hlast. }
  destruct Hend as [(_ & -> & _) | (Hacc & [(-> & _) | (-> & Hdel & _)])].
  - exfalso. rewrite Es, app_nil_r in Hin.
    change [last; GetAlias None alias;
            UpdateAliases (cutover_actions bound alias
                             (choose_new_index host args alias))]
      with ([last; GetAlias None alias]
              ++ [UpdateAliases (cutover_actions bound alias
                                   (choose_new_index host args alias))]) in Hin.
    rewrite app_assoc in Hin. apply in_app_or in Hin.
    destruct Hin as [Hin | [Hin | []]]; [| discriminate].
    now apply (In_filter_nil is_delete _ (IndicesDelete i) Hhead).
  - exfalso. rewrite Es, app_nil_r in Hin.
    change [last; GetAlias None alias;
            UpdateAliases (cutover_actions bound alias
                             (choose_new_index host args alias))]
      with ([last; GetAlias None alias]
              ++ [UpdateAliases (cutover_actions bound alias
                                   (choose_new_index host args alias))]) in Hin.
    rewrite app_assoc in Hin. apply in_app_or in Hin.
    destruct Hin as [Hin | [Hin | []]]; [| discriminate].
    now apply (In_filter_nil is_delete _ (IndicesDelete i) Hhead).
  - assert (Hi : i = old).
    { rewrite Es in Hin.
      change ([last; GetAlias None alias;
               UpdateAliases (cutover_actions bound alias
                                (choose_new_index host args alias))]
                ++ [IndicesDelete old])
        with ([last; GetAlias None alias]
                ++ [UpdateAliases (cutover_actions bound alias
                                     (choose_new_index host args alias));
                    IndicesDelete old]) in Hin.
      rewrite app_assoc in Hin. apply in_app_or in Hin.
      destruct Hin as [Hin | [Hin | [Hin | []]]]; try discriminate.
      - exfalso.
        now apply (In_filter_nil is_delete _ (IndicesDelete i) Hhead).
      - now injection Hin. }
    split; [exact Hdel |]. split; [exact Hi |].
    exists (pre ++ [last; GetAlias None alias]),
      (cutover_actions bound alias (choose_new_index host args alias)).
    split; [| split; [| exact Hhead]].
    + rewrite Es, Hi. now rewrite <- app_assoc.
    + rewrite <- Hacc. reflexivity.
Qed.

Lemma main_deletes_old_index_last_witness :
  arg_delete_old full_args = true /\
  "products_v1" = opt_default EmptyString (arg_old_index full_args) /\
  exists pre acts,
    [IndicesCreate "products_v2" "{properties}";
     Count "products_v1";
     Reindex "products_v1" "products_v2" 1;
     TasksGet "node:1";
     GetAlias None "products";
     UpdateAliases [ActRemove "products_v1" "products";
                    ActAdd "products_v2" "products" true];
     IndicesDelete "products_v1"]
    = pre ++ [UpdateAliases acts; IndicesDelete "products_v1"] /\
    es_update_aliases live_alias (trace start ++ pre) acts = inr tt /\
    filter is_delete pre = [].
Proof.
  apply (main_deletes_old_index_last live_alias plain_host 1 full_args start
           [IndicesCreate "products_v2" "{properties}";
            Count "products_v1";
            Reindex "products_v1" "products_v2" 1;
            TasksGet "node:1";
            GetAlias None "products";
            UpdateAliases [ActRemove "products_v1" "products";
                           ActAdd "products_v2" "products" true];
            IndicesDelete "products_v1"]
           "products_v1" eq_refl eq_refl).
  simpl. tauto.
Defined.

Lemma ends_main_parsed (es : Cluster) (host : Host) (fuel : nat) (args : Args) :
  ends_within (calm true true (fuel <? 240)%nat) (main_parsed es host fuel args).
Proof.
  unfold main_parsed. destruct (negb (given (arg_alias args))); [ends_walk |].
  apply ends_bind.
  { intros st.
    destruct (choose_mapping_source_pure host args st) as [E | (c & E)];
      now rewrite E. }
  intros chosen. apply ends_bind.
  { intros st.
    destruct (load_mapping_pure host
                (opt_default EmptyString (arg_alias args)) chosen st)
      as [E | (m & E)]; now rewrite E. }
  intros m. apply ends_bind; [apply ends_choose_old_index |].
  intros old. apply ends_migrate_and_switch.
Qed.

(** X17: given a loop budget of 240 polls per migration, [main] always ends
    the process, whatever the command line, the machine and the cluster:
    with exit code 0, 1 or 2, or with an exception nobody caught.  Code 2
    is the exit of the argument parser on a usage error, and of nothing
    else.  [main] never returns normally and never polls forever. *)
Theorem main_always_ends :
  forall (es : Cluster) (host : Host) (fuel : nat) (cl : CommandLine)
         (st : State),
    (240 <= fuel)%nat ->
    (fst (main es host fuel cl st) = Exit 0 \/
     fst (main es host fuel cl st) = Exit 1 \/
     fst (main es host fuel cl st) = Exit 2 \/
     exists e, fst (main es host fuel cl st) = Raise e) /\
    (fst (main es host fuel cl st) = Exit 2 <-> cl = UsageError).
Proof.
  intros es host fuel cl st Hfuel.
  destruct cl as [| | | args]; cbn [main sys_exit fst];
    try (split; [auto | split; [discriminate | discriminate]]);
    try (split; [auto | split; reflexivity]).
  pose proof (ends_main_parsed es host fuel args st) as Hend.
  pose proof (never_returns_main_parsed es host fuel args st) as Hret.
  rewrite (proj2 (Nat.ltb_ge fuel 240) Hfuel) in Hend.
  destruct (fst (main_parsed es host fuel args st)) as [[] | e | c |].
  - exfalso. now apply (Hret tt).
  - split; [| split; discriminate]. right. right. right. now exists e.
  - simpl in Hend. apply orb_true_iff in Hend.
    destruct Hend as [H1 | H0].
    + apply Z.eqb_eq in H1. subst c.
      split; [| split; discriminate]. right. now left.
    + apply Z.eqb_eq in H0. subst c.
      split; [| split; discriminate]. now left.
  - discriminate.
Qed.

Lemma main_always_ends_witness :
  (fst (main live_alias plain_host 240 (Parsed full_args) start) = Exit 0 \/
   fst (main live_alias plain_host 240 (Parsed full_args) start) = Exit 1 \/
   fst (main live_alias plain_host 240 (Parsed full_args) start) = Exit 2 \/
   exists e,
     fst (main live_alias plain_host 240 (Parsed full_args) start) = Raise e) /\
  (fst (main live_alias plain_host 240 (Parsed full_args) start) = Exit 2
   <-> Parsed full_args = UsageError).
Proof.
  apply (main_always_ends live_alias plain_host 240 (Parsed full_args) start).
  lia.
Defined.

(** X18: [main] settles its inputs before it touches the cluster.  Without
    an alias, with a mapping file named on the command line that does not
    exist, with an inline mapping that does not parse, or with no mapping
    given and no default mapping file, it exits with code 1 and the cluster
    has received nothing. *)
Theorem main_settles_inputs_first :
  forall (es : Cluster) (host : Host) (fuel : nat) (args : Args) (st : State),
    given (arg_alias args) = false \/
    (given (arg_mapping_file_path args) = true /\
     os_path_exists host
       (opt_default EmptyString (arg_mapping_file_path args)) = false) \/
    (given (arg_mapping_file_path args) = false /\
     given (arg_mapping args) = true /\
     exists e,
       json_loads host (opt_default EmptyString (arg_mapping args)) = inl e) \/
    (given (arg_mapping_file_path args) = false /\
     given (arg_mapping args) = false /\
     os_path_exists host default_mapping_file = false) ->
    main es host fuel (Parsed args) st = (Exit 1, st).
Proof.
  intros es host fuel args st H. unfold main in *. unfold main_parsed.
  destruct (given (arg_alias args)) eqn:Halias; [| reflexivity].
  cbn [negb]. unfold bind at 1, choose_mapping_source.
  destruct H as [H | [(Hp & He) | [(Hp & Hm & e & He) | (Hp & Hm & He)]]].
  - discriminate.
  - rewrite Hp, He. reflexivity.
  - rewrite Hp, Hm, He. reflexivity.
  - rewrite Hp, Hm, He. reflexivity.
Qed.

Lemma main_settles_inputs_first_witness :
  main unreachable plain_host 5 (Parsed no_alias_args) start = (Exit 1, start).
Proof.
  apply (main_settles_inputs_first unreachable plain_host 5 no_alias_args
           start).
  left. reflexivity.
Defined.

(** X19: when the mapping is to be read from a file (the one named on the
    command line, or the default one when neither a file nor an inline
    mapping is given) and that file exists but cannot be loaded, holds an
    empty object, or holds no [mappings] document for the alias, [main]
    exits with code 1 and the cluster has received nothing. *)
Theorem main_needs_mapping_document :
  forall (es : Cluster) (host : Host) (fuel : nat) (args : Args) (st : State)
         (file : string),
    given (arg_alias args) = true ->
    (given (arg_mapping_file_path args) = true /\
     file = opt_default EmptyString (arg_mapping_file_path args)) \/
    (given (arg_mapping_file_path args) = false /\
     given (arg_mapping args) = false /\
     file = default_mapping_file) ->
    os_path_exists host file = true ->
    match json_load_file host file with
    | inl _ => True
    | inr mappings =>
        mappings = [] \/
        dict_get "mappings"
          (opt_default []
             (dict_get (opt_default EmptyString (arg_alias args)) mappings))
        = None
    end ->
    main es host fuel (Parsed args) st = (Exit 1, st).
Proof.
  intros es host fuel args st file Halias Hsource Hexists Hfile. unfold main in *.
  unfold main_parsed. rewrite Halias. cbn [negb].
  assert (Hchosen : choose_mapping_source host args st
                    = (Ret (None, Some file), st)).
  { unfold choose_mapping_source.
    destruct Hsource as [(Hp & ->) | (Hp & Hm & ->)].
    - now rewrite Hp, Hexists.
    - now rewrite Hp, Hm, Hexists. }
  unfold bind at 1. rewrite Hchosen.
  unfold bind at 1, load_mapping, read_mapping_from_file. cbn [fst snd].
  destruct (json_load_file host file) as [e | mappings]; [reflexivity |].
  destruct Hfile as [-> | Hnone]; [reflexivity |].
  destruct mappings as [| entry mappings]; [reflexivity |].
  now rewrite Hnone.
Qed.

Lemma main_needs_mapping_document_witness :
  main unreachable other_alias_host 5 (Parsed alias_only_args) start = (Exit 1, start).
Proof.
  apply (main_needs_mapping_document unreachable other_alias_host 5
           alias_only_args start default_mapping_file eq_refl).
  - right. repeat split.
  - reflexivity.
  - simpl. right. reflexivity.
Defined.

Lemma emits_migration_between (es : Cluster) (fuel : nat)
    (source dest : string) :
  emits (copies_between source dest) (reindex_data_async es fuel source dest).
Proof.
  unfold reindex_data_async, get_doc_count, start_reindex_async,
    track_task_status.
  emits_walk.
  - apply emits_request. simpl. now rewrite !String.eqb_refl.
  - apply (emits_weaken is_tracking); [| apply emits_track_loop].
    intros c Hc. now destruct c.
Qed.

(** X20: with the old index named on the command line, [main] launches a
    copy only into an index it has just created: a reindex request, when
    there is one, goes from the old index to the new one and follows an
    index creation, [main]'s first request, that the cluster accepted. *)
Theorem main_copies_into_created_index :
  forall (es : Cluster) (host : Host) (fuel : nat) (args : Args) (st : State)
         (evs : list Call) (source dest : string) (slices : Z),
    given (arg_old_index args) = true ->
    trace (snd (main es host fuel (Parsed args) st)) = trace st ++ evs ->
    In (Reindex source dest slices) evs ->
    let new_index :=
      choose_new_index host args (opt_default EmptyString (arg_alias args)) in
    exists mappings rest,
      evs = IndicesCreate new_index mappings :: rest /\
      es_indices_create es (trace st) new_index mappings = inr tt /\
      source = opt_default EmptyString (arg_old_index args) /\
      dest = new_index.
Proof.
  intros es host fuel args st evs source dest slices Hgiven Hevs Hin new_index. unfold main in *.
  destruct (main_decompose es host fuel args st)
    as [(o & st0 & evs0 & E & T & _ & _ & Hnil) |
        (m & old & st0 & evs0 & T & _ & Hold & E)].
  { exfalso. rewrite E in Hevs. cbn [snd] in Hevs.
    rewrite (Hnil Hgiven), app_nil_r in T. rewrite T in Hevs.
    assert (evs = []).
    { apply app_inv_head with (l := trace st). now rewrite app_nil_r. }
    subst evs. destruct Hin. }
  destruct (Hold Hgiven) as (-> & ->). rewrite app_nil_r in T.
  fold new_index in E. rewrite E in Hevs. clear E.
  set (alias := opt_default EmptyString (arg_alias args)) in *.
  set (old := opt_default EmptyString (arg_old_index args)) in *.
  unfold migrate_and_switch, bind at 1 in Hevs.
  rewrite create_new_index_run in Hevs. rewrite T in Hevs.
  set (st1 := record (IndicesCreate new_index m) st0) in *.
  assert (T1 : trace st1 = trace st ++ [IndicesCreate new_index m]).
  { unfold st1. cbn [trace record]. now rewrite T. }
  destruct (es_indices_create es (trace st) new_index m) as [e | []] eqn:Hc.
  { exfalso.
    assert (evs = [IndicesCreate new_index m]).
    { apply app_inv_head with (l := trace st).
      destruct (is_request_error e); cbn [fst snd negb sys_exit] in Hevs;
        now rewrite <- Hevs. }
    subst evs. destruct Hin as [Hin | []]. discriminate. }
  cbn [negb] in Hevs.
  match type of Hevs with
  | trace (snd (?rem st1)) = _ =>
      assert (Hrem : emits (copies_between old new_index) rem)
  end.
  { apply emits_bind; [apply emits_migration_between |].
    intros success. emits_walk.
    apply emits_try_excepts; [emits_walk |].
    intros cl e Hcl. simpl in Hcl.
    destruct Hcl as [<- | [<- | [<- | []]]]; apply emits_ret. }
  destruct (Hrem st1) as (tail & Tt & Ft).
  assert (Er : evs = IndicesCreate new_index m :: tail).
  { apply app_inv_head with (l := trace st).
    rewrite <- Hevs, Tt, T1, <- app_assoc. reflexivity. }
  exists m, tail. split; [exact Er |]. split; [exact Hc |].
  rewrite Er in Hin. destruct Hin as [Hin | Hin]; [discriminate |].
  rewrite forallb_forall in Ft. specialize (Ft _ Hin). simpl in Ft.
  apply andb_true_iff in Ft. destruct Ft as [Hs Hd].
  apply String.eqb_eq in Hs, Hd. now split.
Qed.

Lemma main_copies_into_created_index_witness :
  exists mappings rest,
    [IndicesCreate "products_v2" "{properties}";
     Count "products_v1";
     Reindex "products_v1" "products_v2" 1;
     TasksGet "node:1";
     GetAlias None "products";
     UpdateAliases [ActRemove "products_v1" "products";
                    ActAdd "products_v2" "products" true];
     IndicesDelete "products_v1"]
    = IndicesCreate "products_v2" mappings :: rest /\
    es_indices_create live_alias (trace start) "products_v2" mappings
      = inr tt /\
    "products_v1" = opt_default EmptyString (arg_old_index full_args) /\
    "products_v2" = "products_v2".
Proof.
  apply (main_copies_into_created_index live_alias plain_host 1 full_args
           start
           [IndicesCreate "products_v2" "{properties}";
            Count "products_v1";
            Reindex "products_v1" "products_v2" 1;
            TasksGet "node:1";
            GetAlias None "products";
            UpdateAliases [ActRemove "products_v1" "products";
                           ActAdd "products_v2" "products" true];
            IndicesDelete "products_v1"]
           "products_v1" "products_v2" 1 eq_refl eq_refl).
  simpl. tauto.
Defined.

(** *** Runs in which the count fails *)

(** A bare index whose count fails is renamed out of the way without a
    copy: the migration takes the failed count for an empty index, and the
    index is deleted. *)
Example rename_index_if_needed_uncounted :
  rename_index_if_needed uncountable_index 1 "products" "{}" "_backup" start
  = (Ret tt,
     mkState
       [GetAlias None "products";
        IndicesExists "products";
        IndicesExists "products_backup";
        IndicesCreate "products_backup" "{}";
        Count "products";
        IndicesDelete "products"]
       []).
Proof. reflexivity. Qed.

(** Likewise [main] switches the alias and deletes the old index when the
    count of the old index fails. *)
Example main_uncounted_run :
  main uncountable plain_host 1 (Parsed full_args) start
  = (Exit 0,
     mkState
       [IndicesCreate "products_v2" "{properties}";
        Count "products_v1";
        GetAlias None "products";
        UpdateAliases [ActAdd "products_v2" "products" true];
        IndicesDelete "products_v1"]
       []).
Proof. reflexivity. Qed.

(** The argument parser ends [main] by itself on [-h], [-v] and on a usage
    error, before any request. *)
Example main_parser_exits :
  main unreachable plain_host 1 AskedHelp start = (Exit 0, start) /\
  main unreachable plain_host 1 AskedVersion start = (Exit 0, start) /\
  main unreachable plain_host 1 UsageError start = (Exit 2, start).
Proof. repeat split. Qed.
